(** * certmaker: KMS-backed certificate chain builder

    A shallow embedding of [pkg/certmaker/certmaker.go] and the properties
    of its configuration validator, KMS gateway, chain orchestrator and
    certificate writer.

    Go strings are byte sequences: they are modelled by [string], whose
    characters are the 256 values of [ascii].  Go [int] indices are [Z]. *)

From Stdlib Require Import ZArith Ascii String Lia.
From stdpp Require Import base option gmap strings list.

Local Open Scope Z_scope.

(** ** The part of Go's [strings] package that the program uses *)

Module strings.

Definition len (s : string) : Z := Z.of_nat (String.length s).

(** [s[n:]] for an in-range [n]. *)
Fixpoint drop (n : nat) (s : string) : string :=
  match n, s with
  | O, _ => s
  | S n', String _ r => drop n' r
  | S _, EmptyString => EmptyString
  end.

(** [s[:n]] for an in-range [n]. *)
Fixpoint take (n : nat) (s : string) : string :=
  match n, s with
  | O, _ => EmptyString
  | S n', String a r => String a (take n' r)
  | S _, EmptyString => EmptyString
  end.

(** The slice expression [s[lo:hi]]; Go panics unless
    [0 <= lo <= hi <= len(s)], which is [None] here. *)
Definition slice (s : string) (lo hi : Z) : option string :=
  if bool_decide (0 <= lo /\ lo <= hi /\ hi <= len s)
  then Some (take (Z.to_nat (hi - lo)) (drop (Z.to_nat lo) s))
  else None.

(** The slice expression [s[lo:]]. *)
Definition slice_from (s : string) (lo : Z) : option string :=
  slice s lo (len s).

Fixpoint HasPrefix (s prefix : string) {struct prefix} : bool :=
  match prefix, s with
  | EmptyString, _ => true
  | String _ _, EmptyString => false
  | String a p, String b r => if Ascii.eqb a b then HasPrefix r p else false
  end.

Definition TrimPrefix (s prefix : string) : string :=
  if HasPrefix s prefix then drop (String.length prefix) s else s.

(** Byte offset of the first occurrence of [substr] in [s]. *)
Fixpoint index_first (s substr : string) : option nat :=
  if HasPrefix s substr then Some O
  else match s with
       | EmptyString => None
       | String _ r => S <$> index_first r substr
       end.

Definition Index (s substr : string) : Z :=
  match index_first s substr with
  | Some i => Z.of_nat i
  | None => -1
  end.

Definition Contains (s substr : string) : bool :=
  bool_decide (Index s substr >= 0).

(** [genSplit] of the Go library with [sepSave = 0] and [n = -1]: cut at
    each successive first occurrence of [sep].  [fuel] bounds the number
    of cuts; [Split] supplies more than a string can need. *)
Fixpoint genSplit (fuel : nat) (s sep : string) : list string :=
  match fuel with
  | O => [s]
  | S f =>
      match index_first s sep with
      | None => [s]
      | Some m => take m s :: genSplit f (drop (m + String.length sep) s) sep
      end
  end.

(** [strings.Split] for a non-empty separator (the program splits on
    [":"] and ["/"] only; the empty separator, which explodes the string
    into UTF-8 sequences, is not used and maps to the unsplit string). *)
Definition Split (s sep : string) : list string :=
  match sep with
  | EmptyString => [s]
  | _ => genSplit (String.length s) s sep
  end.

Fixpoint Join (elems : list string) (sep : string) : string :=
  match elems with
  | [] => ""
  | [x] => x
  | x :: rest => x +:+ sep +:+ Join rest sep
  end.

(** [unicode.IsSpace] on single bytes below [utf8.RuneSelf]:
    tab, line feed, vertical tab, form feed, carriage return, space. *)
Definition asciiSpace (c : ascii) : bool :=
  let n := N_of_ascii c in
  (((9 <=? n) && (n <=? 13)) || (n =? 32))%N.

(** The two-byte UTF-8 encodings of white space: U+0085 and U+00A0
    ([C2 85], [C2 A0]). *)
Definition space2 (c d : ascii) : bool :=
  let '(c, d) := (N_of_ascii c, N_of_ascii d) in
  ((c =? 194) && ((d =? 133) || (d =? 160)))%N.

(** The three-byte ones: U+1680 ([E1 9A 80]); U+2000..U+200A, U+2028,
    U+2029, U+202F ([E2 80 80..8A], [E2 80 A8], [E2 80 A9], [E2 80 AF]);
    U+205F ([E2 81 9F]); U+3000 ([E3 80 80]). *)
Definition space3 (c d e : ascii) : bool :=
  let '(c, d, e) := (N_of_ascii c, N_of_ascii d, N_of_ascii e) in
  (((c =? 225) && (d =? 154) && (e =? 128))
   || ((c =? 226) && (d =? 128)
       && (((128 <=? e) && (e <=? 138)) || (e =? 168) || (e =? 169) || (e =? 175)))
   || ((c =? 226) && (d =? 129) && (e =? 159))
   || ((c =? 227) && (d =? 128) && (e =? 128)))%N.

(** Strip leading white space, rune by rune ([unicode.IsSpace] on the
    decoded runes).  Any byte sequence that is not one of the encodings
    above decodes to a rune that is not a space (possibly
    [utf8.RuneError]) and stops the scan. *)
Fixpoint TrimLeftSpace (s : string) : string :=
  match s with
  | EmptyString => EmptyString
  | String c r =>
      if asciiSpace c then TrimLeftSpace r
      else
        match r with
        | EmptyString => s
        | String d r' =>
            if space2 c d then TrimLeftSpace r'
            else
              match r' with
              | EmptyString => s
              | String e r'' => if space3 c d e then TrimLeftSpace r'' else s
              end
        end
  end.

Fixpoint rev_acc (s acc : string) : string :=
  match s with
  | EmptyString => acc
  | String c r => rev_acc r (String c acc)
  end.

Definition rev (s : string) : string := rev_acc s "".

(** The same scan from the end of the string: on the reversed string the
    encodings appear last byte first. *)
Fixpoint TrimLeftSpaceRev (s : string) : string :=
  match s with
  | EmptyString => EmptyString
  | String c r =>
      if asciiSpace c then TrimLeftSpaceRev r
      else
        match r with
        | EmptyString => s
        | String d r' =>
            if space2 d c then TrimLeftSpaceRev r'
            else
              match r' with
              | EmptyString => s
              | String e r'' => if space3 e d c then TrimLeftSpaceRev r'' else s
              end
        end
  end.

Definition TrimRightSpace (s : string) : string :=
  rev (TrimLeftSpaceRev (rev s)).

Definition TrimSpace (s : string) : string :=
  TrimRightSpace (TrimLeftSpace s).

End strings.

(** ** Errors, results and the data model *)

(** A Go [error] value: [fmt.Errorf] without [%w] (or any foreign error)
    carries its message; with [%w] it also keeps the wrapped error, and the
    message is the whole formatted text. *)
Inductive error : Type :=
| errorString (msg : string)
| wrapError (msg : string) (err : error).

Definition Error (e : error) : string :=
  match e with
  | errorString msg => msg
  | wrapError msg _ => msg
  end.

(** [fmt.Errorf(prefix + "%w", err)]. *)
Definition Errorf_w (prefix : string) (err : error) : error :=
  wrapError (prefix +:+ Error err) err.

(** How a call ends: it returns normally, returns a non-nil error, or
    panics (slice or index out of range). *)
Inductive res (A : Type) : Type :=
| Done (a : A)
| Fail (e : error)
| Panicked.
Arguments Done {A} a.
Arguments Fail {A} e.
Arguments Panicked {A}.

Definition res_bind {A B} (r : res A) (k : A -> res B) : res B :=
  match r with
  | Done a => k a
  | Fail e => Fail e
  | Panicked => Panicked
  end.

(** A slice or index expression: out of range panics. *)
Definition checked {A} (o : option A) : res A :=
  match o with
  | Some a => Done a
  | None => Panicked
  end.

(** [if err := f(); err != nil { return err }] followed by [k]. *)
Definition and_then (r : res unit) (k : res unit) : res unit :=
  res_bind r (fun _ => k).

Record KMSConfig : Type := {
  CommonName : string;
  Type' : string;
  RootKeyID : string;
  IntermediateKeyID : string;
  LeafKeyID : string;
  (** [None] is the nil map. *)
  Options : option (gmap string string)
}.

(** [m[k]] on a [map[string]string]: the zero value when the map is nil or
    the key is absent. *)
Definition map_index (m : option (gmap string string)) (k : string) : string :=
  match m with
  | Some m => default "" (m !! k)
  | None => ""
  end.

(** [config] with its [RootKeyID] overwritten (the [xConfig := config;
    xConfig.RootKeyID = k] idiom of [CreateCertificates]). *)
Definition with_RootKeyID (k : string) (config : KMSConfig) : KMSConfig :=
  {| CommonName := CommonName config;
     Type' := Type' config;
     RootKeyID := k;
     IntermediateKeyID := IntermediateKeyID config;
     LeafKeyID := LeafKeyID config;
     Options := Options config |}.

Definition with_IntermediateKeyID (k : string) (config : KMSConfig) : KMSConfig :=
  {| CommonName := CommonName config;
     Type' := Type' config;
     RootKeyID := RootKeyID config;
     IntermediateKeyID := k;
     LeafKeyID := LeafKeyID config;
     Options := Options config |}.

(** Opaque values of the crypto libraries. *)
Inductive PublicKey : Type := mkPublicKey (der : string).
Inductive Signer : Type := mkSigner (handle : string).

(** The fields of [x509.Certificate] the program touches; [TBS] stands for
    all the others. *)
Record Certificate : Type := {
  Raw : string;
  IsCA : bool;
  SignatureAlgorithm : Z;
  TBS : string
}.

Definition set_SignatureAlgorithm (alg : Z) (c : Certificate) : Certificate :=
  {| Raw := Raw c; IsCA := IsCA c; SignatureAlgorithm := alg; TBS := TBS c |}.

(** A [signature.SignerVerifier] handle, by what its methods answer.
    [CryptoSigner = None]: the dynamic type does not implement
    [CryptoSignerVerifier]. The program calls each method once per handle. *)
Record SignerVerifier : Type := {
  PublicKey_of : PublicKey + error;
  CryptoSigner : option (Signer + error)
}.

(** Calls to collaborators that the properties below speak about. *)
Inductive Event : Type :=
| EvKmsGet (ref : string)
| EvToSignatureAlgorithm (signer : Signer)
| EvCreateCertificate (template : Certificate) (parent : option Certificate)
    (pub : PublicKey) (signer : Signer).

(** Everything outside the process that the program reads or changes. *)
Record World : Type := {
  env : gmap string string;
  fs : gmap string string;
  stdout : string;
  trace : list Event
}.

Definition set_env (f : gmap string string -> gmap string string) (w : World) : World :=
  {| env := f (env w); fs := fs w; stdout := stdout w; trace := trace w |}.
Definition set_fs (f : gmap string string -> gmap string string) (w : World) : World :=
  {| env := env w; fs := f (fs w); stdout := stdout w; trace := trace w |}.
Definition set_stdout (f : string -> string) (w : World) : World :=
  {| env := env w; fs := fs w; stdout := f (stdout w); trace := trace w |}.
Definition set_trace (f : list Event -> list Event) (w : World) : World :=
  {| env := env w; fs := fs w; stdout := stdout w; trace := f (trace w) |}.

(** The program's computations: a result and the world afterwards. *)
Definition M (A : Type) : Type := World -> res A * World.

Definition M_ret {A} (a : A) : M A := fun w => (Done a, w).
Definition M_bind {A B} (k : A -> M B) (c : M A) : M B :=
  fun w =>
    match c w with
    | (Done a, w') => k a w'
    | (Fail e, w') => (Fail e, w')
    | (Panicked, w') => (Panicked, w')
    end.

#[export] Instance M_mret : MRet M := @M_ret.
#[export] Instance M_mbind : MBind M := @M_bind.

Definition fail {A} (e : error) : M A := fun w => (Fail e, w).
Definition lift {A} (r : res A) : M A := fun w => (r, w).
Definition ask {A} (f : World -> A) : M A := fun w => (Done (f w), w).
Definition emit (e : Event) : M unit :=
  fun w => (Done tt, set_trace (fun t => t ++ [e]) w).

(** [v, err := call; if err != nil { return wrap(err) }]. *)
Definition try {A} (r : A + error) (wrap : error -> error) : M A :=
  match r with
  | inl a => M_ret a
  | inr e => fail (wrap e)
  end.

(** What the program takes from other packages and from the operating
    system.  Calls that reach the network, the clock or the file system see
    the current [World]. *)
Record Externals : Type := {
  (** [kms.Get(ctx, ref, crypto.SHA256)]: the signer and the error. *)
  kms_Get : World -> string -> option SignerVerifier * option error;
  (** [GetDefaultTemplate] and [ParseTemplate] of this package's template
      file. *)
  GetDefaultTemplate : string -> string + error;
  ParseTemplate :
    string -> option Certificate -> Z -> PublicKey -> string -> Certificate + error;
  (** [ca.ToSignatureAlgorithm(signer, crypto.SHA256)]. *)
  ToSignatureAlgorithm : Signer -> Z + error;
  (** [x509util.CreateCertificate(template, parent, pub, signer)]. *)
  x509util_CreateCertificate :
    World -> Certificate -> option Certificate -> PublicKey -> Signer ->
    option Certificate + error;
  (** [cert.CheckSignatureFrom(parent)]. *)
  CheckSignatureFrom : Certificate -> Certificate -> option error;
  os_ReadFile : World -> string -> string + error;
  (** [os.Create]: [None] when the file is created or truncated. *)
  os_Create : World -> string -> option error;
  (** [pem.Encode(f, block)] on the file just created at a path, for a
      [CERTIFICATE] block without headers: the bytes that reached the file
      and the error. *)
  pem_Encode : World -> string -> string -> string * option error;
  (** [time.Now().UTC().Add(d)]. *)
  time_Now_Add : World -> Z -> Z
}.

#[export] Instance res_mret : MRet res := @Done.
#[export] Instance res_mbind : MBind res := fun A B k r => res_bind r k.

Definition modify (f : World -> World) : M unit := fun w => (Done tt, f w).

(** [if err := c; err != nil { return wrap(err) }]. *)
Definition wrap_err {A} (c : M A) (wrap : error -> error) : M A :=
  fun w =>
    match c w with
    | (Fail e, w') => (Fail (wrap e), w')
    | other => other
    end.

Definition newline : string := String "010"%char "".

Fixpoint has_byte (c : ascii) (s : string) : bool :=
  match s with
  | EmptyString => false
  | String a r => Ascii.eqb a c || has_byte c r
  end.

(** [os.Setenv], whose error the program drops: an empty key, a key with
    ['='] or NUL, or a value with NUL is refused and sets nothing. *)
Definition os_Setenv (key value : string) : M unit :=
  fun w =>
    if bool_decide (key = "") || has_byte "="%char key
       || has_byte "000"%char key || has_byte "000"%char value
    then (Done tt, w)
    else (Done tt, set_env (insert key value) w).

(** [fmt.Printf] to standard output. *)
Definition fmt_Printf (text : string) : M unit :=
  modify (set_stdout (fun out => out +:+ text)).

Definition is_nil (m : option (gmap string string)) : bool :=
  match m with
  | None => true
  | Some _ => false
  end.

(** ** ValidateKMSConfig *)

(** The closure [validateAWSKeyID] (it captures [config]). *)
Definition validateAWSKeyID (config : KMSConfig) (keyID keyType : string) : res unit :=
  if decide (keyID = "") then Done tt
  else if strings.HasPrefix keyID "arn:aws:kms:" then
    let parts := strings.Split keyID ":" in
    if bool_decide (Z.of_nat (length parts) < 6)
    then Fail (errorString ("invalid AWS KMS ARN format for " +:+ keyType))
    else
      parts3 ← checked (parts !! 3%nat);
      if decide (parts3 = map_index (Options config) "aws-region") then Done tt
      else Fail (errorString
                   ("region in ARN (" +:+ parts3
                    +:+ ") does not match configured region ("
                    +:+ map_index (Options config) "aws-region" +:+ ")"))
  else if strings.HasPrefix keyID "alias/" then
    if decide (strings.TrimPrefix keyID "alias/" = "")
    then Fail (errorString ("alias name cannot be empty for " +:+ keyType))
    else Done tt
  else Fail (errorString
               ("awskms " +:+ keyType +:+ " must start with 'arn:aws:kms:' or 'alias/'")).

Definition requiredComponents : list (string * string) :=
  [ ("projects/", "must start with 'projects/'");
    ("/locations/", "must contain '/locations/'");
    ("/keyRings/", "must contain '/keyRings/'");
    ("/cryptoKeys/", "must contain '/cryptoKeys/'");
    ("/cryptoKeyVersions/", "must contain '/cryptoKeyVersions/'") ].

(** The [for _, req := range requiredComponents] loop. *)
Fixpoint checkComponents (keyID keyType : string) (reqs : list (string * string))
  : res unit :=
  match reqs with
  | [] => Done tt
  | (component, message) :: rest =>
      if negb (strings.Contains keyID component)
      then Fail (errorString ("gcpkms " +:+ keyType +:+ " " +:+ message))
      else checkComponents keyID keyType rest
  end.

Definition validateGCPKeyID (keyID keyType : string) : res unit :=
  if decide (keyID = "") then Done tt
  else checkComponents keyID keyType requiredComponents.

Definition validateAzureKeyID (keyID keyType : string) : res unit :=
  if decide (keyID = "") then Done tt
  else if negb (strings.HasPrefix keyID "azurekms:name=")
  then Fail (errorString ("azurekms " +:+ keyType +:+ " must start with 'azurekms:name='"))
  else
    let nameStart := strings.Index keyID "name=" + 5 in
    let vaultIndex := strings.Index keyID ";vault=" in
    if decide (vaultIndex = -1)
    then Fail (errorString ("azurekms " +:+ keyType +:+ " must contain ';vault=' parameter"))
    else
      name ← checked (strings.slice keyID nameStart vaultIndex);
      if decide (strings.TrimSpace name = "")
      then Fail (errorString ("key name cannot be empty for " +:+ keyType))
      else
        vault ← checked (strings.slice_from keyID (vaultIndex + 7));
        if decide (strings.TrimSpace vault = "")
        then Fail (errorString ("vault name cannot be empty for " +:+ keyType))
        else Done tt.

Definition validateHashiVaultKeyID (keyID keyType : string) : res unit :=
  if decide (keyID = "") then Done tt
  else
    let parts := strings.Split keyID "/" in
    if bool_decide (Z.of_nat (length parts) < 3)
    then Fail (errorString
                 ("hashivault " +:+ keyType +:+ " must be in format: transit/keys/keyname"))
    else
      parts0 ← checked (parts !! 0%nat);
      parts1 ← checked (parts !! 1%nat);
      if negb (bool_decide (parts0 = "transit")) || negb (bool_decide (parts1 = "keys"))
      then Fail (errorString
                   ("hashivault " +:+ keyType +:+ " must start with 'transit/keys/'"))
      else
        parts2 ← checked (parts !! 2%nat);
        if decide (parts2 = "")
        then Fail (errorString ("key name cannot be empty for " +:+ keyType))
        else Done tt.

(** The three [if err := validate(...); err != nil { return err }] of each
    provider case. *)
Definition validateKeyIDs (validate : string -> string -> res unit)
    (config : KMSConfig) : res unit :=
  and_then (validate (RootKeyID config) "RootKeyID")
    (and_then (validate (IntermediateKeyID config) "IntermediateKeyID")
       (validate (LeafKeyID config) "LeafKeyID")).

Definition ValidateKMSConfig (config : KMSConfig) : res unit :=
  if decide (Type' config = "") then Fail (errorString "KMS type cannot be empty")
  else
    and_then
      (if decide (Type' config = "awskms") then
         if is_nil (Options config)
            || bool_decide (map_index (Options config) "aws-region" = "")
         then Fail (errorString "aws-region is required for AWS KMS")
         else validateKeyIDs (validateAWSKeyID config) config
       else if decide (Type' config = "gcpkms") then
         if is_nil (Options config)
            || bool_decide (map_index (Options config) "gcp-credentials-file" = "")
         then Fail (errorString "gcp-credentials-file is required for GCP KMS")
         else validateKeyIDs validateGCPKeyID config
       else if decide (Type' config = "azurekms") then
         if is_nil (Options config)
         then Fail (errorString "options map is required for Azure KMS")
         else if decide (map_index (Options config) "azure-tenant-id" = "")
         then Fail (errorString "azure-tenant-id is required for Azure KMS")
         else validateKeyIDs validateAzureKeyID config
       else if decide (Type' config = "hashivault") then
         if is_nil (Options config)
         then Fail (errorString "options map is required for HashiVault KMS")
         else if decide (map_index (Options config) "vault-token" = "")
         then Fail (errorString "vault-token is required for HashiVault KMS")
         else if decide (map_index (Options config) "vault-address" = "")
         then Fail (errorString "vault-address is required for HashiVault KMS")
         else validateKeyIDs validateHashiVaultKeyID config
       else Fail (errorString ("unsupported KMS type: " +:+ Type' config)))
      (if decide (RootKeyID config = "")
       then Fail (errorString "RootKeyID must be specified")
       else if decide (LeafKeyID config = "")
       then Fail (errorString "LeafKeyID must be specified")
       else Done tt).

(** The Azure reference of [InitKMS] (the [keyURI] block of its
    ["azurekms"] case): the short form [azurekms:name=N;vault=V] becomes a
    vault URI, anything else is used as it is. *)
Definition azure_keyURI (rootKeyID : string) : res string :=
  if strings.HasPrefix rootKeyID "azurekms:name=" then
    let nameStart := strings.Index rootKeyID "name=" + 5 in
    let vaultIndex := strings.Index rootKeyID ";vault=" in
    if decide (vaultIndex = -1) then Done rootKeyID
    else
      name ← checked (strings.slice rootKeyID nameStart vaultIndex);
      vault ← checked (strings.slice_from rootKeyID (vaultIndex + 7));
      let keyName := strings.TrimSpace name in
      let vaultName := strings.TrimSpace vault in
      Done ("azurekms://" +:+ vaultName +:+ ".vault.azure.net/" +:+ keyName)
  else Done rootKeyID.

Section Program.

Context (X : Externals).

(** [kms.Get(ctx, ref, crypto.SHA256)]. *)
Definition kms_Get_call (ref : string)
  : M (option SignerVerifier * option error) :=
  _ ← emit (EvKmsGet ref);
  ask (fun w => kms_Get X w ref).

(** ** InitKMS *)

Definition InitKMS (config : KMSConfig) : M SignerVerifier :=
  match ValidateKMSConfig config with
  | Fail err => fail (Errorf_w "invalid KMS configuration: " err)
  | Panicked => lift Panicked
  | Done _ =>
      sv ← (if decide (Type' config = "awskms") then
              let ref := "awskms:///" +:+ RootKeyID config in
              let awsRegion := map_index (Options config) "aws-region" in
              _ ← (if decide (awsRegion = "") then mret tt
                   else os_Setenv "AWS_REGION" awsRegion);
              r ← kms_Get_call ref;
              match r.2 with
              | Some err => fail (Errorf_w "failed to initialize AWS KMS: " err)
              | None => mret r.1
              end
            else if decide (Type' config = "gcpkms") then
              let ref := "gcpkms://" +:+ RootKeyID config in
              let gcpCredsFile := map_index (Options config) "gcp-credentials-file" in
              _ ← (if decide (gcpCredsFile = "") then mret tt
                   else os_Setenv "GCP_CREDENTIALS_FILE" gcpCredsFile);
              r ← kms_Get_call ref;
              match r.2 with
              | Some err => fail (Errorf_w "failed to initialize GCP KMS: " err)
              | None => mret r.1
              end
            else if decide (Type' config = "azurekms") then
              keyURI ← lift (azure_keyURI (RootKeyID config));
              _ ← (if negb (is_nil (Options config))
                      && negb (bool_decide
                                 (map_index (Options config) "azure-tenant-id" = ""))
                   then
                     let azureTenantID := map_index (Options config) "azure-tenant-id" in
                     _ ← os_Setenv "AZURE_TENANT_ID" azureTenantID;
                     os_Setenv "AZURE_ADDITIONALLY_ALLOWED_TENANTS" "*"
                   else mret tt);
              _ ← os_Setenv "AZURE_AUTHORITY_HOST" "https://login.microsoftonline.com/";
              r ← kms_Get_call keyURI;
              match r.2 with
              | Some err => fail (Errorf_w "failed to initialize Azure KMS: " err)
              | None => mret r.1
              end
            else if decide (Type' config = "hashivault") then
              let keyURI := "hashivault://" +:+ RootKeyID config in
              _ ← (if negb (is_nil (Options config)) then
                     let vaultToken := map_index (Options config) "vault-token" in
                     _ ← (if decide (vaultToken = "") then mret tt
                          else os_Setenv "VAULT_TOKEN" vaultToken);
                     let vaultAddr := map_index (Options config) "vault-address" in
                     if decide (vaultAddr = "") then mret tt
                     else os_Setenv "VAULT_ADDR" vaultAddr
                   else mret tt);
              r ← kms_Get_call keyURI;
              match r.2 with
              | Some err => fail (Errorf_w "failed to initialize HashiVault KMS: " err)
              | None => mret r.1
              end
            else fail (errorString ("unsupported KMS type: " +:+ Type' config)));
      (* [err] is nil here, so the [failed to get KMS signer] return of
         the source cannot be taken. *)
      match sv with
      | None => fail (errorString "KMS returned nil signer")
      | Some sv => mret sv
      end
  end.

(** ** WriteCertificateToFile *)

(** The [certType] of the status line. *)
Definition certType (cert : Certificate) : string :=
  if IsCA cert then
    match CheckSignatureFrom X cert cert with
    | None => "root"
    | Some _ => "intermediate"
    end
  else "leaf".

Definition WriteCertificateToFile (cert : option Certificate) (filename : string)
  : M unit :=
  match cert with
  | None => fail (errorString "certificate is nil")
  | Some cert =>
      if decide (strings.len (Raw cert) = 0)
      then fail (errorString "certificate has no raw data")
      else
        err ← ask (fun w => os_Create X w filename);
        match err with
        | Some err => fail err
        | None =>
            (* the file now exists and is empty *)
            _ ← modify (set_fs (insert filename ""));
            _ ← fmt_Printf ("Saved " +:+ certType cert +:+ " cert to "
                            +:+ filename +:+ newline);
            r ← ask (fun w => pem_Encode X w filename (Raw cert));
            _ ← modify (set_fs (insert filename r.1));
            match r.2 with
            | Some err => fail err
            | None => mret tt
            end
        end
  end.

(** ** CreateCertificates *)

(** [InitKMS] is a package-level function variable of the source; the
    value the orchestrator calls is [InitKMS_var] (by default the
    function above). *)
Context (InitKMS_var : KMSConfig -> M SignerVerifier).

(** The body of [CreateCertificates] is three consecutive blocks, kept
    apart here: the root certificate (up to [WriteCertificateToFile] of
    the root), the [if intermediateKeyID != ""] statement, which sets
    [signingCert] and [signingKey], and the leaf certificate. *)

(** [// Create root cert]: yields [rootCert] and [rootSigner]. *)
Definition createRoot (sv : SignerVerifier) (config : KMSConfig)
    (rootTemplatePath rootCertPath : string) (rootLifetime : Z)
  : M (option Certificate * Signer) :=
  rootPubKey ← try (PublicKey_of sv) (Errorf_w "error getting root public key: ");
  (* Get crypto.Signer for root *)
  cryptoSV ← match CryptoSigner sv with
             | None => fail (errorString "signer does not implement CryptoSigner")
             | Some c => mret c
             end;
  rootSigner ← try cryptoSV (Errorf_w "error getting root crypto signer: ");
  (* Use default root template if none provided *)
  rootTemplate ←
    (if decide (rootTemplatePath = "") then
       try (GetDefaultTemplate X "root")
         (Errorf_w "error getting default root template: ")
     else
       content ← ask (fun w => os_ReadFile X w rootTemplatePath);
       try content
         (Errorf_w ("root template error: template not found at "
                    +:+ rootTemplatePath +:+ ": ")));
  rootNotAfter ← ask (fun w => time_Now_Add X w rootLifetime);
  rootTmpl ← try (ParseTemplate X rootTemplate None rootNotAfter rootPubKey
                    (CommonName config))
               (Errorf_w "error parsing root template: ");
  _ ← emit (EvToSignatureAlgorithm rootSigner);
  alg ← try (ToSignatureAlgorithm X rootSigner)
          (Errorf_w "error determining signature algorithm: ");
  let rootTmpl := set_SignatureAlgorithm alg rootTmpl in
  _ ← emit (EvCreateCertificate rootTmpl (Some rootTmpl) rootPubKey rootSigner);
  created ← ask (fun w =>
               x509util_CreateCertificate X w rootTmpl (Some rootTmpl)
                 rootPubKey rootSigner);
  rootCert ← try created (Errorf_w "error creating root certificate: ");
  _ ← wrap_err (WriteCertificateToFile rootCert rootCertPath)
        (Errorf_w "error writing root certificate: ");
  mret (rootCert, rootSigner).

(** The [if intermediateKeyID != ""] statement: yields [signingCert] and
    [signingKey]. *)
Definition createIntermediate (config : KMSConfig)
    (rootCert : option Certificate) (rootSigner : Signer)
    (intermediateKeyID intermediateTemplatePath intermediateCertPath : string)
    (intermediateLifetime : Z)
  : M (option Certificate * Signer) :=
  if decide (intermediateKeyID = "") then mret (rootCert, rootSigner)
  else
    (* Create intermediate cert if key ID is provided *)
    let intermediateConfig := with_RootKeyID intermediateKeyID config in
    intermediateSV ← wrap_err (InitKMS_var intermediateConfig)
                       (Errorf_w "error initializing intermediate KMS: ");
    intermediatePubKey ← try (PublicKey_of intermediateSV)
                           (Errorf_w "error getting intermediate public key: ");
    intermediateCryptoSV ←
      match CryptoSigner intermediateSV with
      | None => fail (errorString
                        "intermediate signer does not implement CryptoSigner")
      | Some c => mret c
      end;
    intermediateSigner ← try intermediateCryptoSV
                           (Errorf_w "error getting intermediate crypto signer: ");
    intermediateTemplate ←
      (if decide (intermediateTemplatePath = "") then
         try (GetDefaultTemplate X "intermediate")
           (Errorf_w "error getting default intermediate template: ")
       else
         content ← ask (fun w => os_ReadFile X w intermediateTemplatePath);
         try content
           (Errorf_w ("intermediate template error: template not found at "
                      +:+ intermediateTemplatePath +:+ ": ")));
    intermediateNotAfter ← ask (fun w => time_Now_Add X w intermediateLifetime);
    intermediateTmpl ← try (ParseTemplate X intermediateTemplate rootCert
                              intermediateNotAfter intermediatePubKey
                              (CommonName config))
                         (Errorf_w "error parsing intermediate template: ");
    _ ← emit (EvToSignatureAlgorithm intermediateSigner);
    alg ← try (ToSignatureAlgorithm X intermediateSigner)
            (Errorf_w "error determining signature algorithm: ");
    let intermediateTmpl := set_SignatureAlgorithm alg intermediateTmpl in
    _ ← emit (EvCreateCertificate intermediateTmpl rootCert
                intermediatePubKey rootSigner);
    created ← ask (fun w =>
                 x509util_CreateCertificate X w intermediateTmpl rootCert
                   intermediatePubKey rootSigner);
    intermediateCert ← try created
                         (Errorf_w "error creating intermediate certificate: ");
    _ ← wrap_err (WriteCertificateToFile intermediateCert intermediateCertPath)
          (Errorf_w "error writing intermediate certificate: ");
    (* signingCert = intermediateCert; signingKey = intermediateSigner *)
    mret (intermediateCert, intermediateSigner).

(** [// Create leaf cert], to the end of the function. *)
Definition createLeaf (config : KMSConfig)
    (signingCert : option Certificate) (signingKey : Signer)
    (leafTemplatePath leafCertPath : string) (leafLifetime : Z) : M unit :=
  let leafConfig := with_RootKeyID (LeafKeyID config) config in
  leafSV ← wrap_err (InitKMS_var leafConfig)
             (Errorf_w "error initializing leaf KMS: ");
  leafPubKey ← try (PublicKey_of leafSV)
                 (Errorf_w "error getting leaf public key: ");
  leafCryptoSV ← match CryptoSigner leafSV with
                 | None => fail (errorString
                                   "leaf signer does not implement CryptoSigner")
                 | Some c => mret c
                 end;
  _ ← try leafCryptoSV (Errorf_w "error getting leaf crypto signer: ");
  leafTemplate ←
    (if decide (leafTemplatePath = "") then
       try (GetDefaultTemplate X "leaf")
         (Errorf_w "error getting default leaf template: ")
     else
       content ← ask (fun w => os_ReadFile X w leafTemplatePath);
       try content
         (Errorf_w ("leaf template error: template not found at "
                    +:+ leafTemplatePath +:+ ": ")));
  leafNotAfter ← ask (fun w => time_Now_Add X w leafLifetime);
  leafTmpl ← try (ParseTemplate X leafTemplate signingCert leafNotAfter
                    leafPubKey (CommonName config))
               (Errorf_w "error parsing leaf template: ");
  _ ← emit (EvToSignatureAlgorithm signingKey);
  alg ← try (ToSignatureAlgorithm X signingKey)
          (Errorf_w "error determining signature algorithm: ");
  let leafTmpl := set_SignatureAlgorithm alg leafTmpl in
  _ ← emit (EvCreateCertificate leafTmpl signingCert leafPubKey signingKey);
  created ← ask (fun w =>
               x509util_CreateCertificate X w leafTmpl signingCert
                 leafPubKey signingKey);
  leafCert ← try created (Errorf_w "error creating leaf certificate: ");
  wrap_err (WriteCertificateToFile leafCert leafCertPath)
    (Errorf_w "error writing leaf certificate: ").

Definition CreateCertificates (sv : SignerVerifier) (config : KMSConfig)
    (rootTemplatePath leafTemplatePath : string)
    (rootCertPath leafCertPath : string)
    (intermediateKeyID intermediateTemplatePath intermediateCertPath : string)
    (rootLifetime intermediateLifetime leafLifetime : Z) : M unit :=
  root ← createRoot sv config rootTemplatePath rootCertPath rootLifetime;
  signing ← createIntermediate config root.1 root.2
              intermediateKeyID intermediateTemplatePath intermediateCertPath
              intermediateLifetime;
  createLeaf config signing.1 signing.2 leafTemplatePath leafCertPath leafLifetime.

End Program.

(** ** Sample collaborators

    A concrete world for the examples: every KMS reference resolves to a
    handle named after it, certificates are "encoded" as their template
    text, and the file system accepts every write. *)

Definition sample_sv (key : string) : SignerVerifier :=
  {| PublicKey_of := inl (mkPublicKey key);
     CryptoSigner := Some (inl (mkSigner key)) |}.

Definition sample_externals : Externals :=
  {| kms_Get := fun _ ref => (Some (sample_sv ref), None);
     GetDefaultTemplate := fun stage => inl stage;
     ParseTemplate := fun source parent notAfter pub cn =>
       inl {| Raw := "";
              IsCA := negb (bool_decide (source = "leaf"));
              SignatureAlgorithm := 0;
              TBS := source +:+ ":" +:+ cn |};
     ToSignatureAlgorithm := fun _ => inl 10;
     x509util_CreateCertificate := fun _ template parent pub signer =>
       inl (Some {| Raw := "DER:" +:+ TBS template;
                    IsCA := IsCA template;
                    SignatureAlgorithm := SignatureAlgorithm template;
                    TBS := TBS template |});
     CheckSignatureFrom := fun cert parent =>
       if bool_decide (TBS cert = "root:ca") then None
       else Some (errorString "x509: signature check failed");
     os_ReadFile := fun w path =>
       match fs w !! path with
       | Some content => inl content
       | None => inr (errorString ("open " +:+ path +:+ ": no such file or directory"))
       end;
     os_Create := fun _ _ => None;
     pem_Encode := fun _ _ raw => ("PEM:" +:+ raw, None);
     time_Now_Add := fun _ d => d |}.

(** The same, with a disk that fills up while the PEM text is written. *)
Definition sample_externals_full_disk : Externals :=
  {| kms_Get := kms_Get sample_externals;
     GetDefaultTemplate := GetDefaultTemplate sample_externals;
     ParseTemplate := ParseTemplate sample_externals;
     ToSignatureAlgorithm := ToSignatureAlgorithm sample_externals;
     x509util_CreateCertificate := x509util_CreateCertificate sample_externals;
     CheckSignatureFrom := CheckSignatureFrom sample_externals;
     os_ReadFile := os_ReadFile sample_externals;
     os_Create := os_Create sample_externals;
     pem_Encode := fun _ _ _ => ("", Some (errorString "write: no space left on device"));
     time_Now_Add := time_Now_Add sample_externals |}.

Definition empty_world : World :=
  {| env := ∅; fs := ∅; stdout := ""; trace := [] |}.

Definition sample_options : gmap string string :=
  <["vault-token" := "s.token"]> (<["vault-address" := "https://vault:8200"]> ∅).

Definition sample_config : KMSConfig :=
  {| CommonName := "ca";
     Type' := "hashivault";
     RootKeyID := "transit/keys/root";
     IntermediateKeyID := "";
     LeafKeyID := "transit/keys/leaf";
     Options := Some sample_options |}.

Definition sample_cert : Certificate :=
  {| Raw := "DER:leaf:ca"; IsCA := false; SignatureAlgorithm := 10; TBS := "leaf:ca" |}.

(** ** Vocabulary of the statements *)

(** [s] is cut at the first occurrence of [sep]: [a] before it, [b] after. *)
Definition cut_at_first (s a sep b : string) : Prop :=
  s = a +:+ sep +:+ b /\
  forall a' b', s = a' +:+ sep +:+ b' -> (String.length a <= String.length a')%nat.

(** [segs] are the pieces of [s] between the occurrences of the byte [sep]. *)
Definition segments (sep : ascii) (s : string) (segs : list string) : Prop :=
  s = strings.Join segs (String sep "") /\
  segs <> [] /\
  Forall (fun x => has_byte sep x = false) segs.

Definition contains (s sub : string) : Prop := exists a b, s = a +:+ sub +:+ b.

(** The key identifier grammars, in the words of the provider table. *)

(** [arn:aws:kms:...] with at least six colon-delimited segments, the fourth
    being the configured region; or [alias/<name>] with a name. *)
Definition aws_key_grammar (region id : string) : Prop :=
  ((exists rest, id = "arn:aws:kms:" +:+ rest) /\
   exists segs, segments ":" id segs /\ (6 <= length segs)%nat /\
                segs !! 3%nat = Some region)
  \/ (exists name, id = "alias/" +:+ name /\ name <> "").

Definition gcp_key_grammar (id : string) : Prop :=
  Forall (contains id)
    ["projects/"; "/locations/"; "/keyRings/"; "/cryptoKeys/"; "/cryptoKeyVersions/"].

(** [azurekms:name=<n>;vault=<v>]: [n] runs up to the first [;vault=], [v] is
    what follows it; [filled] says what a name or vault must not be. *)
Definition azure_key_grammar (filled : string -> Prop) (id : string) : Prop :=
  exists n v, cut_at_first id ("azurekms:name=" +:+ n) ";vault=" v /\
              filled n /\ filled v.

(** [transit/keys/<name>...]: at least three slash-delimited segments. *)
Definition hashivault_key_grammar (id : string) : Prop :=
  exists segs name, segments "/" id segs /\ (3 <= length segs)%nat /\
                    segs !! 0%nat = Some "transit" /\ segs !! 1%nat = Some "keys" /\
                    segs !! 2%nat = Some name /\ name <> "".

Definition non_empty (s : string) : Prop := s <> "".

(** Not empty once leading and trailing white space is removed. *)
Definition non_blank (s : string) : Prop := strings.TrimSpace s <> "".

Definition key_grammar (filled : string -> Prop) (config : KMSConfig) (id : string)
  : Prop :=
  if decide (Type' config = "awskms")
  then aws_key_grammar (map_index (Options config) "aws-region") id
  else if decide (Type' config = "gcpkms") then gcp_key_grammar id
  else if decide (Type' config = "azurekms") then azure_key_grammar filled id
  else if decide (Type' config = "hashivault") then hashivault_key_grammar id
  else False.

Definition known_type (type : string) : Prop :=
  type = "awskms" \/ type = "gcpkms" \/ type = "azurekms" \/ type = "hashivault".

Definition required_options (type : string) : list string :=
  if decide (type = "awskms") then ["aws-region"]
  else if decide (type = "gcpkms") then ["gcp-credentials-file"]
  else if decide (type = "azurekms") then ["azure-tenant-id"]
  else if decide (type = "hashivault") then ["vault-token"; "vault-address"]
  else [].

(** The options map exists and gives every option the provider requires a
    non-empty value. *)
Definition options_present (config : KMSConfig) : Prop :=
  Options config <> None /\
  Forall (fun k => map_index (Options config) k <> "")
    (required_options (Type' config)).

(** A byte below [utf8.RuneSelf] that is not white space. *)
Definition plain_byte (c : ascii) : bool :=
  (N_of_ascii c <? 128)%N && negb (strings.asciiSpace c).

(** A string that starts and ends with such a byte. *)
Definition plain_word (s : string) : Prop :=
  exists c r d r',
    s = String c r /\ strings.rev s = String d r' /\
    plain_byte c = true /\ plain_byte d = true.

(** The verdict the identifier grammar alone would give on a configuration. *)
Definition keys_well_formed (filled : string -> Prop) (config : KMSConfig) : Prop :=
  RootKeyID config <> "" /\ LeafKeyID config <> "" /\
  Forall (fun id => id <> "" -> key_grammar filled config id)
    [RootKeyID config; IntermediateKeyID config; LeafKeyID config].

#[export] Instance known_type_dec type : Decision (known_type type).
Proof. unfold known_type. apply _. Defined.

#[export] Instance options_present_dec config : Decision (options_present config).
Proof. unfold options_present. apply _. Defined.

(** The three kinds of configuration error. *)
Definition is_type_error (config : KMSConfig) (e : error) : Prop :=
  e = errorString "KMS type cannot be empty" \/
  e = errorString ("unsupported KMS type: " +:+ Type' config).

Definition option_errors : list error :=
  errorString <$>
    [ "aws-region is required for AWS KMS";
      "gcp-credentials-file is required for GCP KMS";
      "options map is required for Azure KMS";
      "azure-tenant-id is required for Azure KMS";
      "options map is required for HashiVault KMS";
      "vault-token is required for HashiVault KMS";
      "vault-address is required for HashiVault KMS" ].

Definition is_option_error (e : error) : Prop := e ∈ option_errors.

Definition is_key_required_error (e : error) : Prop :=
  e = errorString "RootKeyID must be specified" \/
  e = errorString "LeafKeyID must be specified".

(** The provider's closure accepts (or skips, when empty) all three key
    identifiers of the configuration. *)
Definition provider_checks_pass (config : KMSConfig) : Prop :=
  let validate :=
    if decide (Type' config = "awskms") then validateAWSKeyID config
    else if decide (Type' config = "gcpkms") then validateGCPKeyID
    else if decide (Type' config = "azurekms") then validateAzureKeyID
    else validateHashiVaultKeyID in
  validateKeyIDs validate config = Done tt.

(** Sample configurations. *)
Definition azure_options : gmap string string :=
  <["azure-tenant-id" := "tenant"]> ∅.

(** An Azure configuration whose root key name is a single space. *)
Definition blank_name_config : KMSConfig :=
  {| CommonName := "ca";
     Type' := "azurekms";
     RootKeyID := "azurekms:name= ;vault=v";
     IntermediateKeyID := "";
     LeafKeyID := "azurekms:name=leaf;vault=v";
     Options := Some azure_options |}.

(** No options and no key identifiers at all. *)
Definition bare_config (type : string) : KMSConfig :=
  {| CommonName := "ca";
     Type' := type;
     RootKeyID := "";
     IntermediateKeyID := "";
     LeafKeyID := "";
     Options := None |}.

(** An Azure configuration whose root key name is padded with spaces. *)
Definition padded_name_config : KMSConfig :=
  {| CommonName := "ca";
     Type' := "azurekms";
     RootKeyID := "azurekms:name= root ;vault=v";
     IntermediateKeyID := "";
     LeafKeyID := "azurekms:name=leaf;vault=v";
     Options := Some azure_options |}.

(** The status line of the certificate writer. *)
Definition status_line (kind filename : string) : string :=
  "Saved " +:+ kind +:+ " cert to " +:+ filename +:+ newline.

Definition sample_root_cert : Certificate :=
  {| Raw := "DER:root:ca"; IsCA := true; SignatureAlgorithm := 10; TBS := "root:ca" |}.

Definition sample_intermediate_cert : Certificate :=
  {| Raw := "DER:intermediate:ca"; IsCA := true; SignatureAlgorithm := 10;
     TBS := "intermediate:ca" |}.

Definition empty_cert : Certificate :=
  {| Raw := ""; IsCA := false; SignatureAlgorithm := 0; TBS := "leaf:ca" |}.

(** A value for [InitKMS_var] that answers every configuration with a
    handle lacking the [CryptoSigner] capability. *)
Definition sample_hook_no_signer : KMSConfig -> M SignerVerifier :=
  fun config w =>
    (Done {| PublicKey_of := inl (mkPublicKey (RootKeyID config));
             CryptoSigner := None |}, w).

(** The sample chain: root, intermediate and leaf keys in HashiVault. *)
Definition sample_chain_run : res unit * World :=
  CreateCertificates sample_externals (InitKMS sample_externals)
    (sample_sv "hashivault://transit/keys/root") sample_config
    "" "" "root.pem" "leaf.pem" "transit/keys/int" "" "int.pem"
    10 20 30 empty_world.

(** The world once the sample root certificate is written. *)
Definition sample_world_after_root : World :=
  (createRoot sample_externals (sample_sv "hashivault://transit/keys/root")
     sample_config "" "root.pem" 10 empty_world).2.

(** An AWS configuration whose root key lives in another region, and whose
    other identifiers are malformed. *)
Definition aws_options : gmap string string :=
  <["aws-region" := "us-east-1"]> ∅.

Definition wrong_region_config : KMSConfig :=
  {| CommonName := "ca";
     Type' := "awskms";
     RootKeyID := "arn:aws:kms:us-west-2:123456789012:key/root";
     IntermediateKeyID := "not-a-key";
     LeafKeyID := "";
     Options := Some aws_options |}.

(** The provider's name in the error messages of [InitKMS]. *)
Definition provider_label (type : string) : string :=
  if decide (type = "awskms") then "AWS"
  else if decide (type = "gcpkms") then "GCP"
  else if decide (type = "azurekms") then "Azure"
  else "HashiVault".

(** What [InitKMS] makes of the answer of [kms.Get]. *)
Definition kms_result (label : string) (r : option SignerVerifier * option error)
  : res SignerVerifier :=
  match r.2 with
  | Some err => Fail (Errorf_w ("failed to initialize " +:+ label +:+ " KMS: ") err)
  | None =>
      match r.1 with
      | None => Fail (errorString "KMS returned nil signer")
      | Some sv => Done sv
      end
  end.

(** The world in which [kms.Get] is called with [ref]. *)
Definition at_call (ref : string) (w : World) : World :=
  set_trace (fun t => t ++ [EvKmsGet ref]) w.

(** No NUL byte: [os.Setenv] accepts the value. *)
Definition env_value (value : string) : Prop := has_byte "000"%char value = false.

(** The same collaborators on a read-only disk. *)
Definition sample_externals_read_only : Externals :=
  {| kms_Get := kms_Get sample_externals;
     GetDefaultTemplate := GetDefaultTemplate sample_externals;
     ParseTemplate := ParseTemplate sample_externals;
     ToSignatureAlgorithm := ToSignatureAlgorithm sample_externals;
     x509util_CreateCertificate := x509util_CreateCertificate sample_externals;
     CheckSignatureFrom := CheckSignatureFrom sample_externals;
     os_ReadFile := os_ReadFile sample_externals;
     os_Create := fun _ path =>
       Some (errorString ("open " +:+ path +:+ ": permission denied"));
     pem_Encode := pem_Encode sample_externals;
     time_Now_Add := time_Now_Add sample_externals |}.

(** The sample chain without an intermediate key. *)
Definition sample_direct_run : res unit * World :=
  CreateCertificates sample_externals (InitKMS sample_externals)
    (sample_sv "hashivault://transit/keys/root") sample_config
    "" "" "root.pem" "leaf.pem" "" "" "int.pem" 10 20 30 empty_world.

(** Handles whose methods fail. *)
Definition sample_sv_no_public_key : SignerVerifier :=
  {| PublicKey_of := inr (errorString "kms: access denied");
     CryptoSigner := None |}.

(** The sample configuration with a malformed leaf identifier, with no
    leaf identifier, and with a malformed intermediate field. *)
Definition bad_leaf_config : KMSConfig :=
  {| CommonName := "ca";
     Type' := "hashivault";
     RootKeyID := "transit/keys/root";
     IntermediateKeyID := "";
     LeafKeyID := "secret/data/leaf";
     Options := Some sample_options |}.

Definition no_leaf_config : KMSConfig :=
  {| CommonName := "ca";
     Type' := "hashivault";
     RootKeyID := "transit/keys/root";
     IntermediateKeyID := "";
     LeafKeyID := "";
     Options := Some sample_options |}.

Definition bad_intermediate_field_config : KMSConfig :=
  {| CommonName := "ca";
     Type' := "hashivault";
     RootKeyID := "transit/keys/root";
     IntermediateKeyID := "secret/data/int";
     LeafKeyID := "transit/keys/leaf";
     Options := Some sample_options |}.

(** The template text a stage parses: the file at [path], or the built-in
    default of the stage when no path is given. *)
Definition template_source (X : Externals) (stage path : string) (w : World)
  : string + error :=
  if decide (path = "") then GetDefaultTemplate X stage else os_ReadFile X w path.

(** The world once the calls [events] are recorded after those of [w]: a
    stage calls [x509util.CreateCertificate] in the world where its own
    [ToSignatureAlgorithm] and [CreateCertificate] calls are recorded. *)
Definition logged (events : list Event) (w : World) : World :=
  set_trace (fun t => t ++ events) w.

(** * Properties *)

(** ** Strings *)

Lemma str_app_cons a s t : String a s +:+ t = String a (s +:+ t).
Proof. reflexivity. Qed.

Lemma str_app_nil_l s : "" +:+ s = s.
Proof. reflexivity. Qed.

Lemma str_app_nil_r s : s +:+ "" = s.
Proof. induction s as [|a s IH]; [reflexivity|]. by rewrite str_app_cons, IH. Qed.

Lemma str_app_assoc s t u : (s +:+ t) +:+ u = s +:+ (t +:+ u).
Proof.
  induction s as [|a s IH]; [reflexivity|].
  by rewrite !str_app_cons, IH.
Qed.

Lemma str_length_app s t :
  String.length (s +:+ t) = (String.length s + String.length t)%nat.
Proof.
  induction s as [|a s IH]; [reflexivity|].
  rewrite str_app_cons. simpl. by rewrite IH.
Qed.

Lemma str_length_zero s : String.length s = O -> s = "".
Proof. by destruct s. Qed.

Lemma str_app_inv_head s t u : s +:+ t = s +:+ u -> t = u.
Proof.
  induction s as [|a s IH]; [done|].
  rewrite !str_app_cons. intros [= H]. by apply IH.
Qed.

(** Two ways of cutting one string: the shorter head is a prefix of the
    longer one. *)
Lemma str_app_eq_app a x b y :
  a +:+ x = b +:+ y ->
  (String.length a <= String.length b)%nat ->
  exists m, b = a +:+ m /\ x = m +:+ y.
Proof.
  revert b. induction a as [|c a IH]; intros b H Hlen.
  - exists b. by rewrite !str_app_nil_l in *.
  - destruct b as [|d b]; [simpl in Hlen; lia|].
    rewrite !str_app_cons in H. injection H as -> H.
    destruct (IH b H) as (m & -> & ->); [simpl in Hlen; lia|].
    by exists m.
Qed.

Lemma str_take_app a t : strings.take (String.length a) (a +:+ t) = a.
Proof.
  induction a as [|c a IH]; [by destruct t|].
  rewrite str_app_cons. simpl. by rewrite IH.
Qed.

Lemma str_drop_app a t : strings.drop (String.length a) (a +:+ t) = t.
Proof. induction a as [|c a IH]; [done|]. by rewrite str_app_cons. Qed.

Lemma str_take_all s : strings.take (String.length s) s = s.
Proof. rewrite <- (str_app_nil_r s) at 2. apply str_take_app. Qed.

Lemma HasPrefix_spec s p :
  strings.HasPrefix s p = true <-> exists r, s = p +:+ r.
Proof.
  revert s. induction p as [|a p IH]; intros s; simpl.
  - split; [by exists s|done].
  - destruct s as [|b s]; [split; [done|by intros [r ?]]|].
    destruct (Ascii.eqb_spec a b) as [->|Hne].
    + rewrite IH. split; intros [r Hr]; exists r.
      * by rewrite str_app_cons, Hr.
      * rewrite str_app_cons in Hr. by injection Hr.
    + split; [done|]. intros [r Hr]. rewrite str_app_cons in Hr. congruence.
Qed.

Lemma HasPrefix_app p r : strings.HasPrefix (p +:+ r) p = true.
Proof. apply HasPrefix_spec. by exists r. Qed.

Lemma index_first_Some s sub i :
  strings.index_first s sub = Some i ->
  exists a b, cut_at_first s a sub b /\ String.length a = i.
Proof.
  revert i. induction s as [|c s IH]; intros i; simpl.
  - destruct (strings.HasPrefix "" sub) eqn:Hp; [|done].
    intros [= <-]. apply HasPrefix_spec in Hp as [r Hr].
    exists "", r. split; [|done]. split; [done|]. simpl. lia.
  - destruct (strings.HasPrefix (String c s) sub) eqn:Hp.
    + intros [= <-]. apply HasPrefix_spec in Hp as [r Hr].
      exists "", r. split; [|done]. split; [done|]. simpl. lia.
    + destruct (strings.index_first s sub) as [j|] eqn:Hj; [|done].
      intros [= <-]. destruct (IH j eq_refl) as (a & b & [Hs Hmin] & Hlen).
      exists (String c a), b. split; [|simpl; by rewrite Hlen].
      split; [by rewrite str_app_cons, <- Hs|].
      intros [|c' a'] b' H.
      * rewrite str_app_nil_l in H.
        assert (strings.HasPrefix (String c s) sub = true)
          by (apply HasPrefix_spec; eauto).
        congruence.
      * rewrite str_app_cons in H. injection H as -> H.
        specialize (Hmin _ _ H). simpl. lia.
Qed.

Lemma index_first_None s sub :
  strings.index_first s sub = None -> forall a b, s <> a +:+ sub +:+ b.
Proof.
  induction s as [|c s IH]; simpl.
  - destruct (strings.HasPrefix "" sub) eqn:Hp; [done|].
    intros _ [|c a] b H; [|done].
    rewrite str_app_nil_l in H.
    assert (strings.HasPrefix "" sub = true) by (apply HasPrefix_spec; eauto).
    congruence.
  - destruct (strings.HasPrefix (String c s) sub) eqn:Hp; [done|].
    destruct (strings.index_first s sub) eqn:Hj; [done|].
    intros _ [|c' a] b H.
    + rewrite str_app_nil_l in H.
      assert (strings.HasPrefix (String c s) sub = true)
        by (apply HasPrefix_spec; eauto).
      congruence.
    + rewrite str_app_cons in H. injection H as -> H. by eapply IH.
Qed.

Lemma cut_at_first_unique s a sep b a' b' :
  cut_at_first s a sep b -> cut_at_first s a' sep b' -> a = a' /\ b = b'.
Proof.
  intros [H1 M1] [H2 M2].
  pose proof (M1 _ _ H2). pose proof (M2 _ _ H1).
  assert (Hl : String.length a = String.length a') by lia.
  rewrite H1 in H2.
  destruct (str_app_eq_app _ _ _ _ H2) as (m & -> & Hm); [lia|].
  rewrite str_length_app in Hl.
  assert (m = "") as -> by (apply str_length_zero; lia).
  rewrite str_app_nil_r. split; [done|].
  rewrite str_app_nil_l in Hm. by apply str_app_inv_head in Hm.
Qed.

Lemma index_first_cut s a sep b :
  cut_at_first s a sep b -> strings.index_first s sep = Some (String.length a).
Proof.
  intros Hcut. destruct (strings.index_first s sep) as [i|] eqn:Hi.
  - apply index_first_Some in Hi as (a' & b' & Hcut' & <-).
    by destruct (cut_at_first_unique _ _ _ _ _ _ Hcut Hcut') as [-> _].
  - destruct Hcut as [Hs _]. by apply index_first_None with (a := a) (b := b) in Hi.
Qed.

Lemma Contains_spec s sub :
  strings.Contains s sub = true <-> exists a b, s = a +:+ sub +:+ b.
Proof.
  unfold strings.Contains, strings.Index.
  destruct (strings.index_first s sub) as [i|] eqn:Hi.
  - split; [intros _|intros _; apply bool_decide_eq_true; lia].
    apply index_first_Some in Hi as (a & b & [Hs _] & _). eauto.
  - split; [intros H; apply bool_decide_eq_true in H; lia|].
    intros (a & b & Hs). by apply index_first_None with (a := a) (b := b) in Hi.
Qed.

Lemma has_byte_app c x y : has_byte c (x +:+ y) = has_byte c x || has_byte c y.
Proof.
  induction x as [|a x IH]; [done|].
  rewrite str_app_cons. simpl. rewrite IH. by destruct (Ascii.eqb a c).
Qed.

Lemma has_byte_true c s :
  has_byte c s = true -> exists a b, s = a +:+ String c "" +:+ b.
Proof.
  induction s as [|d s IH]; [done|]. simpl.
  destruct (Ascii.eqb_spec d c) as [->|Hne]; simpl.
  - intros _. by exists "", s.
  - intros H. destruct (IH H) as (a & b & ->). by exists (String d a), b.
Qed.

Lemma cut_at_first_byte c a b :
  has_byte c a = false -> cut_at_first (a +:+ String c "" +:+ b) a (String c "") b.
Proof.
  intros Ha. split; [done|]. intros a' b' H.
  destruct (Nat.le_gt_cases (String.length a) (String.length a')) as [|Hlt]; [done|].
  symmetry in H. destruct (str_app_eq_app _ _ _ _ H) as (m & -> & Hm); [lia|].
  rewrite str_length_app in Hlt.
  destruct m as [|d m]; [simpl in Hlt; lia|].
  rewrite !str_app_cons, str_app_nil_l in Hm. injection Hm as <- _.
  rewrite has_byte_app in Ha. simpl in Ha. rewrite Ascii.eqb_refl in Ha.
  by destruct (has_byte c a').
Qed.

Lemma index_first_byte_None c s :
  strings.index_first s (String c "") = None <-> has_byte c s = false.
Proof.
  split; intros H.
  - destruct (has_byte c s) eqn:Hb; [|done].
    apply has_byte_true in Hb as (a & b & ->).
    by apply index_first_None with (a := a) (b := b) in H.
  - destruct (strings.index_first s (String c "")) as [i|] eqn:Hi; [|done].
    apply index_first_Some in Hi as (a & b & [-> _] & _).
    rewrite !has_byte_app in H. simpl in H. rewrite Ascii.eqb_refl in H.
    by destruct (has_byte c a).
Qed.

Lemma Join_cons x y rest sep :
  strings.Join (x :: y :: rest) sep = x +:+ sep +:+ strings.Join (y :: rest) sep.
Proof. reflexivity. Qed.

Lemma genSplit_nonempty fuel s sep : strings.genSplit fuel s sep <> [].
Proof. destruct fuel; simpl; [done|]. by destruct (strings.index_first s sep). Qed.

Lemma genSplit_Join fuel s c :
  strings.Join (strings.genSplit fuel s (String c "")) (String c "") = s.
Proof.
  revert s. induction fuel as [|f IH]; intros s; simpl; [done|].
  destruct (strings.index_first s (String c "")) as [m|] eqn:Hm; [|done].
  apply index_first_Some in Hm as (a & b & [-> _] & <-).
  rewrite str_take_app.
  replace (String.length a + 1)%nat with (String.length (a +:+ String c ""))
    by (rewrite str_length_app; simpl; lia).
  rewrite <- str_app_assoc, str_drop_app.
  specialize (IH b). pose proof (genSplit_nonempty f b (String c "")) as Hne.
  destruct (strings.genSplit f b (String c "")) as [|y rest]; [done|].
  rewrite Join_cons, IH. by rewrite str_app_assoc.
Qed.

Lemma genSplit_no_sep fuel s c :
  (String.length s <= fuel)%nat ->
  Forall (fun x => has_byte c x = false) (strings.genSplit fuel s (String c "")).
Proof.
  revert s. induction fuel as [|f IH]; intros s Hlen; simpl.
  - assert (s = "") as -> by (apply str_length_zero; lia).
    by constructor.
  - destruct (strings.index_first s (String c "")) as [m|] eqn:Hm.
    + apply index_first_Some in Hm as (a & b & Hcut & <-).
      pose proof Hcut as [-> _]. rewrite str_take_app.
      replace (String.length a + 1)%nat with (String.length (a +:+ String c ""))
        by (rewrite str_length_app; simpl; lia).
      rewrite <- str_app_assoc, str_drop_app. constructor.
      * destruct (has_byte c a) eqn:Hb; [|done].
        apply has_byte_true in Hb as (a1 & a2 & ->).
        destruct Hcut as [_ Hmin].
        specialize (Hmin a1 (a2 +:+ String c "" +:+ b)).
        rewrite !str_length_app in Hmin. simpl in Hmin.
        rewrite !str_app_assoc in Hmin. specialize (Hmin eq_refl). lia.
      * apply IH. rewrite !str_length_app in Hlen. simpl in Hlen. lia.
    + constructor; [|constructor]. by apply index_first_byte_None.
Qed.

Lemma genSplit_segments fuel c segs :
  segs <> [] ->
  Forall (fun x => has_byte c x = false) segs ->
  (String.length (strings.Join segs (String c "")) <= fuel)%nat ->
  strings.genSplit fuel (strings.Join segs (String c "")) (String c "") = segs.
Proof.
  revert fuel. induction segs as [|x [|y rest] IH]; intros fuel Hne Hall Hlen; [done| |].
  - simpl. apply Forall_cons in Hall as [Hx _].
    apply index_first_byte_None in Hx.
    destruct fuel; simpl; [done|]. by rewrite Hx.
  - apply Forall_cons in Hall as [Hx Hall].
    rewrite Join_cons in *. rewrite !str_length_app in Hlen.
    change (String.length (String c "")) with 1%nat in Hlen.
    destruct fuel as [|f]; [lia|].
    change (strings.genSplit (S f) ?s ?sep) with
      (match strings.index_first s sep with
       | None => [s]
       | Some m =>
           strings.take m s
             :: strings.genSplit f (strings.drop (m + String.length sep) s) sep
       end).
    rewrite (index_first_cut _ _ _ _ (cut_at_first_byte c x _ Hx)).
    change (String.length (String c "")) with 1%nat.
    rewrite str_take_app.
    replace (String.length x + 1)%nat with (String.length (x +:+ String c ""))
      by (rewrite str_length_app; simpl; lia).
    rewrite <- str_app_assoc, str_drop_app.
    f_equal. apply IH; [done|done|lia].
Qed.

(** [strings.Split] on a one-byte separator returns exactly the pieces
    between its occurrences. *)
Lemma Split_segments c s segs :
  strings.Split s (String c "") = segs <-> segments c s segs.
Proof.
  unfold strings.Split, segments. split.
  - intros <-. split; [by rewrite genSplit_Join|].
    split; [apply genSplit_nonempty|]. by apply genSplit_no_sep.
  - intros (-> & Hne & Hall). by apply genSplit_segments.
Qed.

(** *** White space *)

Lemma rev_acc_rev_acc s a b :
  strings.rev_acc (strings.rev_acc s a) b = strings.rev_acc a (s +:+ b).
Proof.
  revert a b. induction s as [|c s IH]; intros a b; simpl; [done|].
  by rewrite IH.
Qed.

Lemma rev_involutive s : strings.rev (strings.rev s) = s.
Proof. unfold strings.rev. by rewrite rev_acc_rev_acc, str_app_nil_r. Qed.

Lemma plain_byte_inv c :
  plain_byte c = true -> (N_of_ascii c < 128)%N /\ strings.asciiSpace c = false.
Proof.
  unfold plain_byte. intros [Hlt Hsp]%andb_true_iff.
  apply N.ltb_lt in Hlt. by apply negb_true_iff in Hsp.
Qed.

Lemma plain_byte_not_lead2 c d : plain_byte c = true -> strings.space2 c d = false.
Proof.
  intros [Hlt _]%plain_byte_inv. unfold strings.space2.
  by rewrite (proj2 (N.eqb_neq _ 194)) by lia.
Qed.

Lemma plain_byte_not_lead3 c d e : plain_byte c = true -> strings.space3 c d e = false.
Proof.
  intros [Hlt _]%plain_byte_inv. unfold strings.space3.
  by rewrite (proj2 (N.eqb_neq _ 225)), !(proj2 (N.eqb_neq _ 226)),
    (proj2 (N.eqb_neq _ 227)) by lia.
Qed.

Lemma plain_byte_not_last2 c d : plain_byte d = true -> strings.space2 c d = false.
Proof.
  intros [Hlt _]%plain_byte_inv. unfold strings.space2.
  rewrite (proj2 (N.eqb_neq _ 133)), (proj2 (N.eqb_neq _ 160)) by lia.
  apply andb_false_r.
Qed.

Lemma plain_byte_not_last3 c d e : plain_byte e = true -> strings.space3 c d e = false.
Proof.
  intros [Hlt _]%plain_byte_inv. unfold strings.space3.
  rewrite !(proj2 (N.eqb_neq (N_of_ascii e) 128)), (proj2 (N.eqb_neq _ 159)),
    (proj2 (N.eqb_neq _ 168)), (proj2 (N.eqb_neq _ 169)),
    (proj2 (N.eqb_neq _ 175)), (proj2 (N.leb_gt 128 _)) by lia.
  by rewrite !andb_false_r.
Qed.

Lemma TrimLeftSpace_plain c r :
  plain_byte c = true -> strings.TrimLeftSpace (String c r) = String c r.
Proof.
  intros Hc. pose proof (plain_byte_inv c Hc) as [_ Hsp]. simpl. rewrite Hsp.
  destruct r as [|d [|e r]]; [done| |];
    by rewrite ?(plain_byte_not_lead2 c d Hc), ?(plain_byte_not_lead3 c d e Hc).
Qed.

Lemma TrimLeftSpaceRev_plain c r :
  plain_byte c = true -> strings.TrimLeftSpaceRev (String c r) = String c r.
Proof.
  intros Hc. pose proof (plain_byte_inv c Hc) as [_ Hsp]. simpl. rewrite Hsp.
  destruct r as [|d [|e r]]; [done| |];
    by rewrite ?(plain_byte_not_last2 d c Hc), ?(plain_byte_not_last3 e d c Hc).
Qed.

(** Trimming leaves alone a string with no white space at either end. *)
Lemma TrimSpace_plain_word s : plain_word s -> strings.TrimSpace s = s.
Proof.
  intros (c & r & d & r' & Hs & Hrev & Hc & Hd).
  unfold strings.TrimSpace, strings.TrimRightSpace.
  rewrite Hs, (TrimLeftSpace_plain c r Hc), <- Hs, Hrev.
  by rewrite (TrimLeftSpaceRev_plain d r' Hd), <- Hrev, rev_involutive.
Qed.

(** ** The key identifier validators *)

Lemma arn_not_alias rest name : "arn:aws:kms:" +:+ rest <> "alias/" +:+ name.
Proof. rewrite !str_app_cons. congruence. Qed.

Lemma validateAWSKeyID_total config id kt :
  validateAWSKeyID config id kt <> Panicked.
Proof.
  unfold validateAWSKeyID. case_decide; [done|].
  destruct (strings.HasPrefix id "arn:aws:kms:").
  - case_bool_decide; [done|].
    destruct (lookup_lt_is_Some_2 (strings.Split id ":") 3) as [p3 ->]; [lia|].
    simpl. by case_decide.
  - destruct (strings.HasPrefix id "alias/"); [|done]. by case_decide.
Qed.

Lemma validateAWSKeyID_spec config id kt :
  id <> "" ->
  validateAWSKeyID config id kt = Done tt <->
  aws_key_grammar (map_index (Options config) "aws-region") id.
Proof.
  intros Hid. unfold validateAWSKeyID, aws_key_grammar.
  case_decide; [done|].
  destruct (strings.HasPrefix id "arn:aws:kms:") eqn:Harn.
  - apply HasPrefix_spec in Harn as Hrest.
    pose proof (proj1 (Split_segments ":" id _) eq_refl) as Hseg.
    case_bool_decide as Hlen.
    + split; [done|]. intros [(_ & segs & Hsegs & Hl & _)|(name & -> & _)].
      * apply Split_segments in Hsegs. change (String ":" "") with ":" in Hsegs.
        rewrite Hsegs in Hlen. lia.
      * destruct Hrest as [rest Hrest]. symmetry in Hrest.
        by apply arn_not_alias in Hrest.
    + destruct (lookup_lt_is_Some_2 (strings.Split id ":") 3) as [p3 Hp3]; [lia|].
      rewrite Hp3. simpl. case_decide as Hreg.
      * split; [intros _|done]. left. split; [done|].
        exists (strings.Split id ":"). split; [done|]. split; [lia|]. by rewrite Hp3, Hreg.
      * split; [done|]. intros [(_ & segs & Hsegs & _ & H3)|(name & -> & _)].
        -- apply Split_segments in Hsegs. change (String ":" "") with ":" in Hsegs.
           rewrite Hsegs in Hp3. congruence.
        -- destruct Hrest as [rest Hrest]. symmetry in Hrest.
           by apply arn_not_alias in Hrest.
  - destruct (strings.HasPrefix id "alias/") eqn:Halias.
    + apply HasPrefix_spec in Halias as [name ->].
      unfold strings.TrimPrefix. rewrite HasPrefix_app.
      rewrite (str_drop_app "alias/" name).
      case_decide as Hname.
      * split; [done|]. intros [([rest Hrest] & _)|(name' & Heq & Hne)].
        -- symmetry in Hrest. by apply arn_not_alias in Hrest.
        -- apply str_app_inv_head in Heq. congruence.
      * split; [intros _|done]. right. by exists name.
    + split; [done|]. intros [(Hrest & _)|(name & -> & _)].
      * apply HasPrefix_spec in Hrest. congruence.
      * rewrite HasPrefix_app in Halias. done.
Qed.

Lemma checkComponents_total id kt reqs : checkComponents id kt reqs <> Panicked.
Proof.
  induction reqs as [|[component message] reqs IH]; simpl; [done|].
  by destruct (strings.Contains id component).
Qed.

Lemma checkComponents_spec id kt reqs :
  checkComponents id kt reqs = Done tt <-> Forall (contains id) (reqs.*1).
Proof.
  induction reqs as [|[component message] reqs IH]; simpl.
  - split; [constructor|done].
  - rewrite Forall_cons. destruct (strings.Contains id component) eqn:Hc; simpl.
    + apply Contains_spec in Hc. rewrite IH. tauto.
    + split; [done|]. intros [Hc' _]. apply Contains_spec in Hc'. congruence.
Qed.

Lemma validateGCPKeyID_total id kt : validateGCPKeyID id kt <> Panicked.
Proof. unfold validateGCPKeyID. case_decide; [done|]. apply checkComponents_total. Qed.

Lemma validateGCPKeyID_spec id kt :
  id <> "" -> validateGCPKeyID id kt = Done tt <-> gcp_key_grammar id.
Proof.
  intros Hid. unfold validateGCPKeyID. case_decide; [done|].
  apply checkComponents_spec.
Qed.

Lemma validateHashiVaultKeyID_total id kt : validateHashiVaultKeyID id kt <> Panicked.
Proof.
  unfold validateHashiVaultKeyID. case_decide; [done|].
  case_bool_decide; [done|].
  destruct (lookup_lt_is_Some_2 (strings.Split id "/") 0) as [p0 ->]; [lia|].
  destruct (lookup_lt_is_Some_2 (strings.Split id "/") 1) as [p1 ->]; [lia|].
  destruct (lookup_lt_is_Some_2 (strings.Split id "/") 2) as [p2 ->]; [lia|].
  simpl. destruct (_ || _); [done|]. by case_decide.
Qed.

Lemma validateHashiVaultKeyID_spec id kt :
  id <> "" -> validateHashiVaultKeyID id kt = Done tt <-> hashivault_key_grammar id.
Proof.
  intros Hid. unfold validateHashiVaultKeyID, hashivault_key_grammar.
  case_decide; [done|].
  pose proof (proj1 (Split_segments "/" id _) eq_refl) as Hseg.
  change (String "/" "") with "/" in Hseg.
  assert (Huniq : forall segs, segments "/" id segs -> segs = strings.Split id "/").
  { intros segs Hs. by apply Split_segments in Hs. }
  case_bool_decide as Hlen.
  { split; [done|]. intros (segs & name & Hs & Hl & _).
    apply Huniq in Hs as ->. lia. }
  destruct (lookup_lt_is_Some_2 (strings.Split id "/") 0) as [p0 Hp0]; [lia|].
  destruct (lookup_lt_is_Some_2 (strings.Split id "/") 1) as [p1 Hp1]; [lia|].
  destruct (lookup_lt_is_Some_2 (strings.Split id "/") 2) as [p2 Hp2]; [lia|].
  rewrite Hp0, Hp1, Hp2. simpl.
  case_bool_decide as H0; simpl.
  2:{ split; [done|]. intros (segs & name & Hs & _ & H0' & _).
      apply Huniq in Hs as ->. congruence. }
  case_bool_decide as H1; simpl.
  2:{ split; [done|]. intros (segs & name & Hs & _ & _ & H1' & _).
      apply Huniq in Hs as ->. congruence. }
  case_decide as H2.
  { split; [done|]. intros (segs & name & Hs & _ & _ & _ & H2' & Hne).
    apply Huniq in Hs as ->. congruence. }
  split; [intros _|done].
  exists (strings.Split id "/"), p2.
  split; [done|]. split; [lia|]. rewrite Hp0, Hp1, Hp2, H0, H1. done.
Qed.

Lemma cut_at_first_same_length s a sep b a' b' :
  cut_at_first s a sep b -> s = a' +:+ sep +:+ b' ->
  String.length a' = String.length a -> a' = a /\ b' = b.
Proof.
  intros [Hs _] Hs' Hlen. rewrite Hs in Hs'.
  destruct (str_app_eq_app _ _ _ _ Hs') as (m & -> & Hm); [lia|].
  rewrite str_length_app in Hlen.
  assert (m = "") as -> by (apply str_length_zero; lia).
  rewrite str_app_nil_r. split; [done|].
  rewrite str_app_nil_l in Hm. by apply str_app_inv_head in Hm.
Qed.

(** Behind the fixed prefix [azurekms:name=] (14 bytes, without [';']) the
    searches of the Azure code see only the rest of the identifier. *)
Lemma azure_index_name rest :
  strings.Index ("azurekms:name=" +:+ rest) "name=" = 9.
Proof. reflexivity. Qed.

Lemma azure_index_first_vault rest :
  strings.index_first ("azurekms:name=" +:+ rest) ";vault="
  = (fun i => (14 + i)%nat) <$> strings.index_first rest ";vault=".
Proof.
  assert (Hskip : forall c s,
             Ascii.eqb ";" c = false ->
             strings.index_first (String c s) ";vault="
             = S <$> strings.index_first s ";vault=").
  { intros c s Hc. cbn [strings.index_first strings.HasPrefix]. by rewrite Hc. }
  rewrite !str_app_cons, str_app_nil_l.
  rewrite !Hskip by reflexivity.
  by destruct (strings.index_first rest ";vault=").
Qed.

Lemma azure_cut_prefix rest n v :
  cut_at_first ("azurekms:name=" +:+ rest) ("azurekms:name=" +:+ n) ";vault=" v
  <-> cut_at_first rest n ";vault=" v.
Proof.
  split; intros Hcut.
  - pose proof (index_first_cut _ _ _ _ Hcut) as Hi.
    rewrite azure_index_first_vault, str_length_app in Hi.
    destruct (strings.index_first rest ";vault=") as [i|] eqn:Hr; [|done].
    simpl in Hi. injection Hi as Hi.
    apply index_first_Some in Hr as (a & b & Hab & Hlen).
    destruct Hcut as [Hs _]. rewrite str_app_assoc in Hs.
    apply str_app_inv_head in Hs.
    destruct (cut_at_first_same_length _ _ _ _ n v Hab Hs) as [-> ->]; [lia|done].
  - pose proof (index_first_cut _ _ _ _ Hcut) as Hi.
    assert (Hi' : strings.index_first ("azurekms:name=" +:+ rest) ";vault="
                  = Some (14 + String.length n)%nat)
      by (by rewrite azure_index_first_vault, Hi).
    apply index_first_Some in Hi' as (a & b & Hab & Hlen).
    destruct Hcut as [Hs _].
    assert (Hs' : "azurekms:name=" +:+ rest
                  = ("azurekms:name=" +:+ n) +:+ ";vault=" +:+ v)
      by (by rewrite Hs, str_app_assoc).
    destruct (cut_at_first_same_length _ _ _ _ _ _ Hab Hs') as [<- <-]; [|done].
    rewrite str_length_app. simpl. lia.
Qed.

(** What the two slice expressions of the Azure code yield; both are in
    range. *)
Lemma azure_slices n v :
  let id := "azurekms:name=" +:+ n +:+ ";vault=" +:+ v in
  strings.slice id (9 + 5) (14 + Z.of_nat (String.length n)) = Some n /\
  strings.slice_from id (14 + Z.of_nat (String.length n) + 7) = Some v.
Proof.
  intros id. unfold strings.slice_from, strings.slice, strings.len.
  assert (Hlen : String.length id
                 = (14 + String.length n + 7 + String.length v)%nat).
  { unfold id. rewrite !str_length_app. simpl. lia. }
  rewrite !bool_decide_eq_true_2 by lia. split; f_equal.
  - replace (Z.to_nat (14 + Z.of_nat (String.length n) - (9 + 5)))
      with (String.length n) by lia.
    change (Z.to_nat (9 + 5)) with (String.length "azurekms:name=").
    unfold id. by rewrite str_drop_app, str_take_app.
  - replace (Z.to_nat (14 + Z.of_nat (String.length n) + 7))
      with (String.length ("azurekms:name=" +:+ n +:+ ";vault="))
      by (rewrite !str_length_app; simpl; lia).
    replace (Z.to_nat (Z.of_nat (String.length id)
                       - (14 + Z.of_nat (String.length n) + 7)))
      with (String.length v) by lia.
    unfold id.
    replace ("azurekms:name=" +:+ n +:+ ";vault=" +:+ v)
      with (("azurekms:name=" +:+ n +:+ ";vault=") +:+ v)
      by (by rewrite !str_app_assoc).
    by rewrite str_drop_app, str_take_all.
Qed.

(** [validateAzureKeyID] by cases on the shape of the identifier. *)
Lemma validateAzureKeyID_cut n v kt :
  cut_at_first ("azurekms:name=" +:+ n +:+ ";vault=" +:+ v) ("azurekms:name=" +:+ n)
    ";vault=" v ->
  validateAzureKeyID ("azurekms:name=" +:+ n +:+ ";vault=" +:+ v) kt
  = if decide (strings.TrimSpace n = "")
    then Fail (errorString ("key name cannot be empty for " +:+ kt))
    else if decide (strings.TrimSpace v = "")
         then Fail (errorString ("vault name cannot be empty for " +:+ kt))
         else Done tt.
Proof.
  intros Hcut. unfold validateAzureKeyID.
  rewrite decide_False by (by rewrite !str_app_cons).
  rewrite HasPrefix_app. simpl negb. cbv iota.
  rewrite azure_index_name. unfold strings.Index.
  rewrite (index_first_cut _ _ _ _ Hcut), str_length_app.
  change (String.length "azurekms:name=") with 14%nat.
  rewrite decide_False by lia.
  destruct (azure_slices n v) as [Hname Hvault].
  replace (Z.of_nat (14 + String.length n)) with (14 + Z.of_nat (String.length n)) by lia.
  rewrite Hname. simpl. case_decide; [done|].
  rewrite Hvault. simpl. by case_decide.
Qed.

Lemma azure_Index_vault rest :
  strings.Index ("azurekms:name=" +:+ rest) ";vault="
  = match strings.index_first rest ";vault=" with
    | Some i => 14 + Z.of_nat i
    | None => -1
    end.
Proof.
  unfold strings.Index. rewrite azure_index_first_vault.
  destruct (strings.index_first rest ";vault="); simpl; lia.
Qed.

Lemma validateAzureKeyID_no_vault rest kt :
  strings.index_first rest ";vault=" = None ->
  validateAzureKeyID ("azurekms:name=" +:+ rest) kt
  = Fail (errorString ("azurekms " +:+ kt +:+ " must contain ';vault=' parameter")).
Proof.
  intros Hi. unfold validateAzureKeyID.
  rewrite decide_False by (by rewrite !str_app_cons).
  rewrite HasPrefix_app. simpl negb. cbv iota.
  rewrite azure_Index_vault, Hi. by rewrite decide_True.
Qed.

Lemma validateAzureKeyID_total id kt : validateAzureKeyID id kt <> Panicked.
Proof.
  destruct (strings.HasPrefix id "azurekms:name=") eqn:Hp.
  - apply HasPrefix_spec in Hp as [rest ->].
    destruct (strings.index_first rest ";vault=") as [i|] eqn:Hi.
    + apply index_first_Some in Hi as (n & v & Hcut & <-).
      pose proof Hcut as [-> _].
      apply (proj2 (azure_cut_prefix _ _ _)) in Hcut.
      rewrite (validateAzureKeyID_cut n v kt Hcut). by repeat case_decide.
    + by rewrite validateAzureKeyID_no_vault.
  - unfold validateAzureKeyID. case_decide; [done|]. by rewrite Hp.
Qed.

Lemma validateAzureKeyID_spec id kt :
  id <> "" -> validateAzureKeyID id kt = Done tt <-> azure_key_grammar non_blank id.
Proof.
  intros Hid. unfold azure_key_grammar, non_blank.
  destruct (strings.HasPrefix id "azurekms:name=") eqn:Hp.
  - apply HasPrefix_spec in Hp as [rest ->].
    destruct (strings.index_first rest ";vault=") as [i|] eqn:Hi.
    + apply index_first_Some in Hi as (n & v & Hcut & <-).
      pose proof Hcut as [-> _].
      apply (proj2 (azure_cut_prefix _ _ _)) in Hcut.
      rewrite (validateAzureKeyID_cut n v kt Hcut).
      split.
      * intros H. exists n, v. by repeat case_decide.
      * intros (n' & v' & Hcut' & Hn & Hv).
        destruct (cut_at_first_unique _ _ _ _ _ _ Hcut Hcut') as [Hnn ->].
        apply str_app_inv_head in Hnn as <-.
        by rewrite !decide_False.
    + rewrite validateAzureKeyID_no_vault by done. split; [done|].
      intros (n & v & Hcut & _).
      apply (proj1 (azure_cut_prefix _ _ _)) in Hcut as [Hs _].
      exfalso. by apply index_first_None with (a := n) (b := v) in Hi.
  - split.
    + unfold validateAzureKeyID. rewrite decide_False by done. by rewrite Hp.
    + intros (n & v & [-> _] & _).
      rewrite str_app_assoc, HasPrefix_app in Hp. done.
Qed.

(** ** ValidateKMSConfig *)

Lemma and_then_Done (r k : res unit) :
  and_then r k = Done tt <-> r = Done tt /\ k = Done tt.
Proof. destruct r as [[]|e|]; simpl; intuition congruence. Qed.

Lemma validateKeyIDs_Done validate config :
  validateKeyIDs validate config = Done tt <->
  validate (RootKeyID config) "RootKeyID" = Done tt /\
  validate (IntermediateKeyID config) "IntermediateKeyID" = Done tt /\
  validate (LeafKeyID config) "LeafKeyID" = Done tt.
Proof. unfold validateKeyIDs. by rewrite !and_then_Done. Qed.

Lemma validateKeyIDs_total validate config :
  (forall id kt, validate id kt <> Panicked) ->
  validateKeyIDs validate config <> Panicked.
Proof.
  intros Htot. unfold validateKeyIDs, and_then, res_bind.
  pose proof (Htot (RootKeyID config) "RootKeyID").
  pose proof (Htot (IntermediateKeyID config) "IntermediateKeyID").
  pose proof (Htot (LeafKeyID config) "LeafKeyID").
  repeat case_match; congruence.
Qed.

(** The verdict of a provider case followed by the two final checks, when
    the provider's closure decides the grammar [G]. *)
Lemma keys_checked validate (G : string -> Prop) config :
  (forall kt, validate "" kt = Done tt) ->
  (forall id kt, id <> "" -> validate id kt = Done tt <-> G id) ->
  and_then (validateKeyIDs validate config)
    (if decide (RootKeyID config = "")
     then Fail (errorString "RootKeyID must be specified")
     else if decide (LeafKeyID config = "")
          then Fail (errorString "LeafKeyID must be specified")
          else Done tt) = Done tt
  <-> RootKeyID config <> "" /\ LeafKeyID config <> "" /\
      Forall (fun id => id <> "" -> G id)
        [RootKeyID config; IntermediateKeyID config; LeafKeyID config].
Proof.
  intros Hempty Hspec.
  assert (Hv : forall id kt, validate id kt = Done tt <-> (id <> "" -> G id)).
  { intros id kt. destruct (decide (id = "")) as [->|Hne].
    - rewrite Hempty. tauto.
    - rewrite (Hspec id kt Hne). tauto. }
  rewrite and_then_Done, validateKeyIDs_Done, !Hv, !Forall_cons, Forall_nil.
  repeat case_decide; intuition congruence.
Qed.

Lemma validateAWSKeyID_empty config kt : validateAWSKeyID config "" kt = Done tt.
Proof. reflexivity. Qed.
Lemma validateGCPKeyID_empty kt : validateGCPKeyID "" kt = Done tt.
Proof. reflexivity. Qed.
Lemma validateAzureKeyID_empty kt : validateAzureKeyID "" kt = Done tt.
Proof. reflexivity. Qed.
Lemma validateHashiVaultKeyID_empty kt : validateHashiVaultKeyID "" kt = Done tt.
Proof. reflexivity. Qed.

Lemma is_nil_false m : m <> None -> is_nil m = false.
Proof. by destruct m. Qed.

Lemma ValidateKMSConfig_known config :
  known_type (Type' config) -> options_present config ->
  ValidateKMSConfig config
  = and_then
      (if decide (Type' config = "awskms")
       then validateKeyIDs (validateAWSKeyID config) config
       else if decide (Type' config = "gcpkms")
            then validateKeyIDs validateGCPKeyID config
            else if decide (Type' config = "azurekms")
                 then validateKeyIDs validateAzureKeyID config
                 else validateKeyIDs validateHashiVaultKeyID config)
      (if decide (RootKeyID config = "")
       then Fail (errorString "RootKeyID must be specified")
       else if decide (LeafKeyID config = "")
            then Fail (errorString "LeafKeyID must be specified")
            else Done tt).
Proof.
  intros Hknown [Hnil Hreq]. unfold ValidateKMSConfig.
  apply is_nil_false in Hnil. rewrite Hnil. unfold required_options in Hreq.
  destruct Hknown as [Ht|[Ht|[Ht|Ht]]]; rewrite Ht in *;
    repeat (first [rewrite decide_True in Hreq by done
                  |rewrite decide_False in Hreq by done]);
    repeat (first [rewrite (decide_True (P := _ = _)) by done
                  |rewrite (decide_False (P := _ = _)) by done]).
  all: repeat match goal with
         | H : Forall _ (_ :: _) |- _ => apply Forall_cons in H as [? H]
         end.
  all: simpl orb.
  all: repeat (first [rewrite bool_decide_eq_false_2 by done
                     |rewrite decide_False by done]).
  all: done.
Qed.

Lemma ValidateKMSConfig_total config : ValidateKMSConfig config <> Panicked.
Proof.
  unfold ValidateKMSConfig.
  pose proof (validateKeyIDs_total _ config (validateAWSKeyID_total config)).
  pose proof (validateKeyIDs_total _ config validateGCPKeyID_total).
  pose proof (validateKeyIDs_total _ config validateAzureKeyID_total).
  pose proof (validateKeyIDs_total _ config validateHashiVaultKeyID_total).
  unfold and_then, res_bind. repeat case_match; congruence.
Qed.

Lemma cut_at_first_index s a sep b :
  strings.index_first s sep = Some (String.length a) ->
  s = a +:+ sep +:+ b -> cut_at_first s a sep b.
Proof.
  intros Hi Hs. apply index_first_Some in Hi as (a' & b' & Hcut & Hlen).
  by destruct (cut_at_first_same_length _ _ _ _ _ _ Hcut Hs) as [<- <-].
Qed.

(** C2 (as stated, with "non-empty" read literally) fails: the Azure root
    key [azurekms:name= ;vault=v] has the non-empty name [" "], yet
    validation rejects it, because the code trims white space first. *)
Lemma ValidateKMSConfig_literal_grammar_counterexample :
  ~ (forall config,
       known_type (Type' config) -> options_present config ->
       ValidateKMSConfig config = Done tt <-> keys_well_formed non_empty config).
Proof.
  intros H.
  assert (Hk : known_type (Type' blank_name_config)) by (right; right; by left).
  assert (Ho : options_present blank_name_config).
  { split; [done|]. repeat constructor. by vm_compute. }
  destruct (H blank_name_config Hk Ho) as [_ Hacc].
  assert (Hrej : ValidateKMSConfig blank_name_config
                 = Fail (errorString "key name cannot be empty for RootKeyID"))
    by (by vm_compute).
  rewrite Hrej in Hacc.
  enough (Hwf : keys_well_formed non_empty blank_name_config)
    by (by specialize (Hacc Hwf)).
  split; [done|]. split; [done|].
  repeat constructor; intros Hne; unfold key_grammar; simpl.
  - exists " ", "v". split; [by apply cut_at_first_index|by split].
  - done.
  - exists "leaf", "v". split; [by apply cut_at_first_index|by split].
Qed.

(** C2 (amended): for a known provider whose required options are present,
    [ValidateKMSConfig] accepts exactly when the root and leaf identifiers
    are set and every non-empty identifier follows the provider's grammar,
    where the Azure name and vault parts must be non-empty after white
    space is trimmed. *)
Theorem ValidateKMSConfig_accepts_iff_grammar config :
  known_type (Type' config) -> options_present config ->
  ValidateKMSConfig config = Done tt <-> keys_well_formed non_blank config.
Proof.
  intros Hknown Hopt. rewrite (ValidateKMSConfig_known config Hknown Hopt).
  unfold keys_well_formed, key_grammar.
  destruct (decide (Type' config = "awskms")) as [Haws|Haws].
  { apply keys_checked; [apply validateAWSKeyID_empty|apply validateAWSKeyID_spec]. }
  destruct (decide (Type' config = "gcpkms")) as [Hgcp|Hgcp].
  { apply keys_checked; [apply validateGCPKeyID_empty|apply validateGCPKeyID_spec]. }
  destruct (decide (Type' config = "azurekms")) as [Haz|Haz].
  { apply keys_checked; [apply validateAzureKeyID_empty|apply validateAzureKeyID_spec]. }
  destruct (decide (Type' config = "hashivault")) as [Hhv|Hhv].
  { apply keys_checked;
      [apply validateHashiVaultKeyID_empty|apply validateHashiVaultKeyID_spec]. }
  unfold known_type in Hknown. tauto.
Qed.

Lemma ValidateKMSConfig_accepts_iff_grammar_witness :
  known_type (Type' sample_config) /\ options_present sample_config /\
  (ValidateKMSConfig sample_config = Done tt <->
   keys_well_formed non_blank sample_config).
Proof.
  assert (Hk : known_type (Type' sample_config)) by (right; right; by right).
  assert (Ho : options_present sample_config).
  { split; [done|]. repeat constructor; by vm_compute. }
  split; [exact Hk|]. split; [exact Ho|].
  exact (ValidateKMSConfig_accepts_iff_grammar sample_config Hk Ho).
Defined.

(** *** Which error comes first *)

Ltac not_key_required :=
  intros [He|He]; rewrite ?str_app_cons in He; congruence.

Lemma validateAWSKeyID_error config id kt e :
  validateAWSKeyID config id kt = Fail e -> ~ is_key_required_error e.
Proof.
  unfold validateAWSKeyID.
  unfold mbind, res_mbind, res_bind, checked.
  repeat (first [case_decide|case_bool_decide|case_match]);
    try done; intros [= <-]; not_key_required.
Qed.

Lemma checkComponents_error id kt reqs e :
  checkComponents id kt reqs = Fail e -> ~ is_key_required_error e.
Proof.
  induction reqs as [|[component message] reqs IH]; simpl; [done|].
  destruct (strings.Contains id component); simpl; [exact IH|].
  intros [= <-]. not_key_required.
Qed.

Lemma validateGCPKeyID_error id kt e :
  validateGCPKeyID id kt = Fail e -> ~ is_key_required_error e.
Proof.
  unfold validateGCPKeyID. case_decide; [done|]. apply checkComponents_error.
Qed.

Lemma validateAzureKeyID_error id kt e :
  validateAzureKeyID id kt = Fail e -> ~ is_key_required_error e.
Proof.
  unfold validateAzureKeyID.
  unfold mbind, res_mbind, res_bind, checked.
  repeat (first [case_decide|case_bool_decide|case_match]);
    try done; intros [= <-]; not_key_required.
Qed.

Lemma validateHashiVaultKeyID_error id kt e :
  validateHashiVaultKeyID id kt = Fail e -> ~ is_key_required_error e.
Proof.
  unfold validateHashiVaultKeyID.
  unfold mbind, res_mbind, res_bind, checked.
  repeat (first [case_decide|case_bool_decide|case_match]);
    try done; intros [= <-]; not_key_required.
Qed.

Lemma validateKeyIDs_error validate config e :
  (forall id kt e, validate id kt = Fail e -> ~ is_key_required_error e) ->
  validateKeyIDs validate config = Fail e -> ~ is_key_required_error e.
Proof.
  intros Hv. unfold validateKeyIDs, and_then, res_bind.
  repeat case_match; try done; [apply Hv|intros [= <-]; eauto..].
Qed.

Ltac decide_literals :=
  repeat match goal with
    | |- context [decide (String ?a ?s = ?t)] =>
        destruct (decide (String a s = t)) as [?Heq|?Hne];
        [try discriminate|try (exfalso; by auto)]
    end.

Lemma ValidateKMSConfig_unknown_type config :
  ~ known_type (Type' config) ->
  exists e, ValidateKMSConfig config = Fail e /\ is_type_error config e /\
            ~ is_key_required_error e.
Proof.
  intros Hunknown. unfold ValidateKMSConfig, known_type in *.
  destruct (decide (Type' config = "")).
  { eexists. split; [done|]. split; [by left|not_key_required]. }
  repeat (case_decide; [tauto|]).
  eexists. split; [done|]. split; [by right|not_key_required].
Qed.

Lemma ValidateKMSConfig_missing_option config :
  known_type (Type' config) -> ~ options_present config ->
  exists e, ValidateKMSConfig config = Fail e /\ is_option_error e /\
            ~ is_key_required_error e.
Proof.
  intros Hknown Hmissing.
  assert (Hopt : forall e, e ∈ option_errors ->
                           is_option_error e /\ ~ is_key_required_error e).
  { intros e He. split; [done|].
    unfold option_errors in He. rewrite !list_elem_of_fmap in He.
    destruct He as (msg & -> & Hmsg).
    repeat (apply elem_of_cons in Hmsg as [->|Hmsg]; [not_key_required|]).
    by apply elem_of_nil in Hmsg. }
  unfold ValidateKMSConfig, options_present, required_options in *.
  destruct Hknown as [Ht|[Ht|[Ht|Ht]]]; rewrite Ht in *; decide_literals;
    destruct (Options config) as [m|] eqn:Hm; simpl is_nil; simpl orb.
  all: try (eexists; split; [reflexivity|];
            apply Hopt; apply list_elem_of_In; simpl; tauto).
  all: repeat first [case_bool_decide|case_decide].
  all: try (eexists; split; [reflexivity|];
            apply Hopt; apply list_elem_of_In; simpl; tauto).
  all: exfalso; apply Hmissing; split; [done|]; by repeat constructor.
Qed.

(** C3: the two key-required checks come last.  An unknown type yields the
    type error and a missing provider option yields the option error, never
    a key-required error, whatever the key fields hold; and a key-required
    error is returned only when the type is known, the options are present
    and the provider's checks of all three identifiers have passed. *)
Theorem ValidateKMSConfig_error_priority config :
  (~ known_type (Type' config) ->
   exists e, ValidateKMSConfig config = Fail e /\ is_type_error config e /\
             ~ is_key_required_error e) /\
  (known_type (Type' config) -> ~ options_present config ->
   exists e, ValidateKMSConfig config = Fail e /\ is_option_error e /\
             ~ is_key_required_error e) /\
  (forall e, ValidateKMSConfig config = Fail e -> is_key_required_error e ->
             known_type (Type' config) /\ options_present config /\
             provider_checks_pass config).
Proof.
  split; [apply ValidateKMSConfig_unknown_type|].
  split; [apply ValidateKMSConfig_missing_option|].
  intros e HV Hkey.
  destruct (decide (known_type (Type' config))) as [Hk|Hk].
  2:{ destruct (ValidateKMSConfig_unknown_type _ Hk) as (e' & He' & _ & Hn).
      congruence. }
  destruct (decide (options_present config)) as [Ho|Ho].
  2:{ destruct (ValidateKMSConfig_missing_option _ Hk Ho) as (e' & He' & _ & Hn).
      congruence. }
  split; [done|]. split; [done|].
  rewrite (ValidateKMSConfig_known _ Hk Ho) in HV. unfold provider_checks_pass.
  assert (Hlast : forall validate,
             (forall id kt e, validate id kt = Fail e -> ~ is_key_required_error e) ->
             and_then (validateKeyIDs validate config)
               (if decide (RootKeyID config = "")
                then Fail (errorString "RootKeyID must be specified")
                else if decide (LeafKeyID config = "")
                     then Fail (errorString "LeafKeyID must be specified")
                     else Done tt) = Fail e ->
             validateKeyIDs validate config = Done tt).
  { intros validate Hv. pose proof (validateKeyIDs_error validate config) as Herr.
    destruct (validateKeyIDs validate config) as [[]|e0|]; simpl; [done| |done].
    intros [= ->]. by destruct (Herr e Hv eq_refl). }
  destruct (decide (Type' config = "awskms"));
    [by apply Hlast; [apply validateAWSKeyID_error|]|].
  destruct (decide (Type' config = "gcpkms"));
    [by apply Hlast; [apply validateGCPKeyID_error|]|].
  destruct (decide (Type' config = "azurekms"));
    [by apply Hlast; [apply validateAzureKeyID_error|]|].
  by apply Hlast; [apply validateHashiVaultKeyID_error|].
Qed.

Lemma ValidateKMSConfig_error_priority_witness :
  (exists e, ValidateKMSConfig (bare_config "nokms") = Fail e /\
             is_type_error (bare_config "nokms") e /\ ~ is_key_required_error e) /\
  (exists e, ValidateKMSConfig (bare_config "awskms") = Fail e /\
             is_option_error e /\ ~ is_key_required_error e).
Proof.
  split.
  - apply (proj1 (ValidateKMSConfig_error_priority (bare_config "nokms"))).
    unfold known_type. simpl. intros [H|[H|[H|H]]]; discriminate H.
  - apply (proj1 (proj2 (ValidateKMSConfig_error_priority (bare_config "awskms")))).
    + by left.
    + intros [H _]. by apply H.
Defined.

(** ** InitKMS *)

(** C4: when validation fails, [InitKMS] returns that error wrapped as an
    invalid-configuration error and leaves the world as it was: no
    [kms.Get] call is recorded and no environment variable is set. *)
Theorem InitKMS_invalid_config X config w :
  ValidateKMSConfig config <> Done tt ->
  exists err,
    ValidateKMSConfig config = Fail err /\
    InitKMS X config w
    = (Fail (wrapError ("invalid KMS configuration: " +:+ Error err) err), w).
Proof.
  intros Hinvalid. unfold InitKMS.
  pose proof (ValidateKMSConfig_total config) as Htotal.
  destruct (ValidateKMSConfig config) as [[]|err|]; [done| |done].
  by exists err.
Qed.

Lemma InitKMS_invalid_config_witness :
  exists err,
    ValidateKMSConfig (bare_config "awskms") = Fail err /\
    InitKMS sample_externals (bare_config "awskms") empty_world
    = (Fail (wrapError ("invalid KMS configuration: " +:+ Error err) err),
       empty_world).
Proof.
  apply (InitKMS_invalid_config sample_externals (bare_config "awskms") empty_world).
  vm_compute. discriminate.
Defined.

Lemma azure_Index_cut n v :
  cut_at_first ("azurekms:name=" +:+ n +:+ ";vault=" +:+ v)
    ("azurekms:name=" +:+ n) ";vault=" v ->
  strings.Index ("azurekms:name=" +:+ n +:+ ";vault=" +:+ v) ";vault="
  = 14 + Z.of_nat (String.length n).
Proof.
  intros Hcut. unfold strings.Index.
  rewrite (index_first_cut _ _ _ _ Hcut), str_length_app.
  change (String.length "azurekms:name=") with 14%nat. lia.
Qed.

Lemma azure_keyURI_cut id n v :
  cut_at_first id ("azurekms:name=" +:+ n) ";vault=" v ->
  azure_keyURI id
  = Done ("azurekms://" +:+ strings.TrimSpace v +:+ ".vault.azure.net/"
          +:+ strings.TrimSpace n).
Proof.
  intros Hcut. pose proof Hcut as [Hid _]. rewrite str_app_assoc in Hid.
  subst id. unfold azure_keyURI.
  rewrite HasPrefix_app, (azure_Index_cut n v Hcut), azure_index_name.
  rewrite decide_False by lia.
  destruct (azure_slices n v) as [Hname Hvault].
  by rewrite Hname, Hvault.
Qed.

Lemma azure_keyURI_other id :
  strings.HasPrefix id "azurekms:name=" = false \/ ~ contains id ";vault=" ->
  azure_keyURI id = Done id.
Proof.
  intros Hother. unfold azure_keyURI.
  destruct (strings.HasPrefix id "azurekms:name=") eqn:Hp; [|done].
  destruct Hother as [|Hno]; [done|].
  assert (Hi : strings.Index id ";vault=" = -1).
  { unfold strings.Index.
    destruct (strings.index_first id ";vault=") as [i|] eqn:Hi; [|done].
    apply index_first_Some in Hi as (a & b & [Hid _] & _).
    destruct Hno. by exists a, b. }
  by rewrite decide_True.
Qed.

Lemma os_Setenv_trace key value w :
  (os_Setenv key value w).1 = Done tt /\
  trace (os_Setenv key value w).2 = trace w.
Proof. unfold os_Setenv. by destruct (_ || _). Qed.

Lemma azure_keyURI_total id : exists keyURI, azure_keyURI id = Done keyURI.
Proof.
  destruct (strings.HasPrefix id "azurekms:name=") eqn:Hp.
  - apply HasPrefix_spec in Hp as [rest ->].
    destruct (strings.index_first rest ";vault=") as [i|] eqn:Hi.
    + apply index_first_Some in Hi as (n & v & Hcut & _).
      apply (proj2 (azure_cut_prefix _ _ _)) in Hcut.
      rewrite (azure_keyURI_cut _ n v Hcut). eauto.
    + exists ("azurekms:name=" +:+ rest). apply azure_keyURI_other. right.
      intros (a & b & Hab).
      destruct (strings.index_first ("azurekms:name=" +:+ rest) ";vault=") eqn:Hi'.
      * rewrite azure_index_first_vault, Hi in Hi'. done.
      * by apply index_first_None with (a := a) (b := b) in Hi'.
  - exists id. apply azure_keyURI_other. by left.
Qed.

(** C5 (as stated) fails: the key name [" root "] is passed on without its
    spaces, as [azurekms://v.vault.azure.net/root]. *)
Lemma InitKMS_azure_untrimmed_counterexample :
  ~ (forall X config w n v,
       Type' config = "azurekms" -> ValidateKMSConfig config = Done tt ->
       cut_at_first (RootKeyID config) ("azurekms:name=" +:+ n) ";vault=" v ->
       trace (InitKMS X config w).2
       = trace w ++ [EvKmsGet ("azurekms://" +:+ v +:+ ".vault.azure.net/" +:+ n)]).
Proof.
  intros H.
  specialize (H sample_externals padded_name_config empty_world " root " "v").
  assert (Hcut : cut_at_first (RootKeyID padded_name_config)
                   ("azurekms:name=" +:+ " root ") ";vault=" "v")
    by (by apply cut_at_first_index).
  specialize (H eq_refl ltac:(by vm_compute) Hcut).
  vm_compute in H. discriminate H.
Qed.

(** C5 (amended): the reference handed to [kms.Get] for an Azure
    configuration is [azure_keyURI] of the root key identifier.  For the
    short form [azurekms:name=<n>;vault=<v>], with [n] the text up to the
    first [;vault=], it is [azurekms://<v'>.vault.azure.net/<n'>], where
    [n'] and [v'] are [n] and [v] without leading and trailing white space
    (so [n] and [v] themselves when they start and end with plain bytes);
    an identifier without the prefix or without [;vault=] is left as it
    is. *)
Theorem InitKMS_azure_keyURI X config w :
  (forall id n v,
     cut_at_first id ("azurekms:name=" +:+ n) ";vault=" v ->
     azure_keyURI id
     = Done ("azurekms://" +:+ strings.TrimSpace v +:+ ".vault.azure.net/"
             +:+ strings.TrimSpace n)) /\
  (forall id n v,
     cut_at_first id ("azurekms:name=" +:+ n) ";vault=" v ->
     plain_word n -> plain_word v ->
     azure_keyURI id = Done ("azurekms://" +:+ v +:+ ".vault.azure.net/" +:+ n)) /\
  (forall id,
     strings.HasPrefix id "azurekms:name=" = false \/ ~ contains id ";vault=" ->
     azure_keyURI id = Done id) /\
  (Type' config = "azurekms" -> ValidateKMSConfig config = Done tt ->
   exists keyURI,
     azure_keyURI (RootKeyID config) = Done keyURI /\
     trace (InitKMS X config w).2 = trace w ++ [EvKmsGet keyURI]).
Proof.
  split; [apply azure_keyURI_cut|].
  split.
  { intros id n v Hcut Hn Hv. rewrite (azure_keyURI_cut id n v Hcut).
    by rewrite !TrimSpace_plain_word. }
  split; [apply azure_keyURI_other|].
  intros Ht HV. destruct (azure_keyURI_total (RootKeyID config)) as [keyURI Huri].
  exists keyURI. split; [done|].
  unfold InitKMS. rewrite HV, Ht. decide_literals. rewrite Huri.
  unfold mbind, M_mbind, M_bind, lift, kms_Get_call, mbind, M_mbind, M_bind,
    emit, ask, mret, M_mret, M_ret, fail.
  repeat match goal with
         | |- context [os_Setenv ?k ?v ?w] =>
             let H1 := fresh in let H2 := fresh in
             destruct (os_Setenv_trace k v w) as [H1 H2];
             destruct (os_Setenv k v w) as [r w'] eqn:?; simpl in H1, H2;
             subst r
         | |- context [if ?b then _ else _] => destruct b
         end;
    simpl; repeat case_match; simplify_eq/=; congruence.
Qed.

Lemma InitKMS_azure_keyURI_witness :
  exists keyURI,
    azure_keyURI (RootKeyID padded_name_config) = Done keyURI /\
    trace (InitKMS sample_externals padded_name_config empty_world).2
    = trace empty_world ++ [EvKmsGet keyURI].
Proof.
  apply (proj2 (proj2 (proj2 (InitKMS_azure_keyURI sample_externals
                                padded_name_config empty_world)))).
  - reflexivity.
  - by vm_compute.
Defined.

(** ** WriteCertificateToFile *)

(** C6: a nil certificate, or one without raw bytes, is refused with an
    error before anything is done: the world, and so the file system, is
    exactly as before. *)
Theorem WriteCertificateToFile_rejects X filename w :
  WriteCertificateToFile X None filename w
  = (Fail (errorString "certificate is nil"), w) /\
  (forall cert, Raw cert = "" ->
     WriteCertificateToFile X (Some cert) filename w
     = (Fail (errorString "certificate has no raw data"), w)).
Proof.
  split; [done|]. intros cert Hraw. unfold WriteCertificateToFile.
  by rewrite Hraw, decide_True.
Qed.

Lemma WriteCertificateToFile_rejects_witness :
  WriteCertificateToFile sample_externals (Some empty_cert) "leaf.pem" empty_world
  = (Fail (errorString "certificate has no raw data"), empty_world).
Proof.
  apply (proj2 (WriteCertificateToFile_rejects sample_externals "leaf.pem"
                  empty_world)).
  reflexivity.
Defined.

Lemma len_nonzero s : s <> "" -> strings.len s <> 0.
Proof. destruct s; [done|]. intros _. unfold strings.len. simpl. lia. Qed.

(** The run of the writer once the two guards and [os.Create] have passed. *)
Lemma WriteCertificateToFile_created X cert filename w :
  Raw cert <> "" -> os_Create X w filename = None ->
  let w1 := set_stdout (fun out => out +:+ status_line (certType X cert) filename)
              (set_fs (insert filename "") w) in
  let r := pem_Encode X w1 filename (Raw cert) in
  WriteCertificateToFile X (Some cert) filename w
  = (match r.2 with Some err => Fail err | None => Done tt end,
     set_fs (insert filename r.1) w1).
Proof.
  intros Hraw Hcreate. unfold WriteCertificateToFile.
  rewrite decide_False by (by apply len_nonzero).
  unfold mbind, M_mbind, M_bind, ask, modify, fmt_Printf, modify.
  rewrite Hcreate. cbv zeta. unfold status_line.
  by destruct (pem_Encode X _ filename (Raw cert)) as [written [err|]].
Qed.

(** C7: the kind named in the status line.  A CA certificate that verifies
    against itself is a root, a CA certificate that does not is an
    intermediate, and a certificate that is not a CA is a leaf. *)
Theorem WriteCertificateToFile_classification X cert filename w :
  Raw cert <> "" -> os_Create X w filename = None ->
  let out := stdout (WriteCertificateToFile X (Some cert) filename w).2 in
  (IsCA cert = true -> CheckSignatureFrom X cert cert = None ->
   out = stdout w +:+ status_line "root" filename) /\
  (IsCA cert = true -> CheckSignatureFrom X cert cert <> None ->
   out = stdout w +:+ status_line "intermediate" filename) /\
  (IsCA cert = false ->
   out = stdout w +:+ status_line "leaf" filename).
Proof.
  intros Hraw Hcreate. rewrite (WriteCertificateToFile_created X cert filename w Hraw Hcreate).
  simpl. unfold certType.
  split; [|split].
  - by intros -> ->.
  - intros -> Hcheck. by destruct (CheckSignatureFrom X cert cert).
  - by intros ->.
Qed.

Lemma WriteCertificateToFile_classification_witness :
  stdout (WriteCertificateToFile sample_externals (Some sample_intermediate_cert)
            "int.pem" empty_world).2
  = stdout empty_world +:+ status_line "intermediate" "int.pem".
Proof.
  apply (proj1 (proj2 (WriteCertificateToFile_classification sample_externals
                         sample_intermediate_cert "int.pem" empty_world
                         ltac:(discriminate) eq_refl))).
  - reflexivity.
  - discriminate.
Defined.

(** C10: the file is created and the status line printed before the PEM
    text is written.  If [pem.Encode] then fails, the error is returned
    while the line stays printed and the file stays on disk, holding
    whatever reached it; other files are untouched. *)
Theorem WriteCertificateToFile_encode_failure X cert filename w written err :
  Raw cert <> "" -> os_Create X w filename = None ->
  pem_Encode X
    (set_stdout (fun out => out +:+ status_line (certType X cert) filename)
       (set_fs (insert filename "") w))
    filename (Raw cert) = (written, Some err) ->
  exists w',
    WriteCertificateToFile X (Some cert) filename w = (Fail err, w') /\
    stdout w' = stdout w +:+ status_line (certType X cert) filename /\
    fs w' !! filename = Some written /\
    (forall path, path <> filename -> fs w' !! path = fs w !! path).
Proof.
  intros Hraw Hcreate Hencode.
  rewrite (WriteCertificateToFile_created X cert filename w Hraw Hcreate).
  cbv zeta. rewrite Hencode. eexists. split; [reflexivity|]. simpl.
  split; [done|]. split; [by rewrite lookup_insert_eq|].
  intros path Hpath. by rewrite !lookup_insert_ne.
Qed.

Lemma WriteCertificateToFile_encode_failure_witness :
  exists w',
    WriteCertificateToFile sample_externals_full_disk (Some sample_cert)
      "leaf.pem" empty_world
    = (Fail (errorString "write: no space left on device"), w') /\
    stdout w' = stdout empty_world
                +:+ status_line (certType sample_externals_full_disk sample_cert)
                      "leaf.pem" /\
    fs w' !! "leaf.pem" = Some "" /\
    (forall path, path <> "leaf.pem" -> fs w' !! path = fs empty_world !! path).
Proof.
  apply (WriteCertificateToFile_encode_failure sample_externals_full_disk
           sample_cert "leaf.pem" empty_world "").
  - discriminate.
  - reflexivity.
  - reflexivity.
Defined.

(** ** Runs of the orchestrator *)

Lemma bind_Done_inv {A B} (c : M A) (k : A -> M B) w b w' :
  (c ≫= k) w = (Done b, w') ->
  exists a w1, c w = (Done a, w1) /\ k a w1 = (Done b, w').
Proof.
  unfold mbind, M_mbind, M_bind.
  destruct (c w) as [[a|e|] w1]; [eauto|done..].
Qed.

Lemma bind_Done {A B} (c : M A) (k : A -> M B) w a w1 :
  c w = (Done a, w1) -> (c ≫= k) w = k a w1.
Proof. unfold mbind, M_mbind, M_bind. by intros ->. Qed.

Lemma bind_Fail {A B} (c : M A) (k : A -> M B) w e w1 :
  c w = (Fail e, w1) -> (c ≫= k) w = (Fail e, w1).
Proof. unfold mbind, M_mbind, M_bind. by intros ->. Qed.

Lemma bind_ext {A B} (c : M A) (k k' : A -> M B) w :
  (forall a w1, k a w1 = k' a w1) -> (c ≫= k) w = (c ≫= k') w.
Proof.
  intros Hk. unfold mbind, M_mbind, M_bind.
  by destruct (c w) as [[a|e|] w1].
Qed.

Lemma try_Done_inv {A} (r : A + error) wrap w a w1 :
  try r wrap w = (Done a, w1) -> r = inl a /\ w1 = w.
Proof. destruct r; simpl; unfold M_ret, fail; naive_solver. Qed.

Lemma ask_Done_inv {A} (f : World -> A) w a w1 :
  ask f w = (Done a, w1) -> a = f w /\ w1 = w.
Proof. unfold ask. naive_solver. Qed.

Lemma emit_Done_inv e w a w1 :
  emit e w = (Done a, w1) -> w1 = set_trace (fun t => t ++ [e]) w.
Proof. unfold emit. naive_solver. Qed.

Lemma wrap_err_Done_inv {A} (c : M A) wrap w a w1 :
  wrap_err c wrap w = (Done a, w1) -> c w = (Done a, w1).
Proof. unfold wrap_err. by destruct (c w) as [[?|?|] ?]. Qed.

Lemma mret_Done_inv {A} (x : A) w a w1 :
  (mret x : M A) w = (Done a, w1) -> a = x /\ w1 = w.
Proof. unfold mret, M_mret, M_ret. naive_solver. Qed.

Lemma capability_Done_inv (sv : SignerVerifier) msg w a w1 :
  match CryptoSigner sv with
  | None => fail (errorString msg)
  | Some c => mret c
  end w = (Done a, w1) ->
  CryptoSigner sv = Some a /\ w1 = w.
Proof.
  destruct (CryptoSigner sv); unfold fail, mret, M_mret, M_ret; naive_solver.
Qed.

(** Resolving a template (default or file) reads, and changes nothing. *)
Lemma template_Done_inv X path stage wrap1 wrap2 w (t : string) w1 :
  (if decide (path = "") then try (GetDefaultTemplate X stage) wrap1
   else content ← ask (fun w => os_ReadFile X w path); try content wrap2) w
  = (Done t, w1) ->
  w1 = w.
Proof.
  case_decide.
  - by intros [_ ->]%try_Done_inv.
  - intros (c & w2 & [_ ->]%ask_Done_inv & [_ ->]%try_Done_inv)%bind_Done_inv.
    done.
Qed.

(** A successful write got a certificate, and records no collaborator call. *)
Lemma WriteCertificateToFile_Done_inv X cert filename w w1 :
  WriteCertificateToFile X cert filename w = (Done tt, w1) ->
  (exists c, cert = Some c) /\ trace w1 = trace w.
Proof.
  unfold WriteCertificateToFile. destruct cert as [c|]; [|done].
  case_decide; [done|].
  unfold mbind, M_mbind, M_bind, ask, modify, fmt_Printf, modify.
  destruct (os_Create X w filename); [done|].
  destruct (pem_Encode X _ filename (Raw c)) as [written [err|]]; [done|].
  intros [= <-]. eauto.
Qed.

Ltac inv_prim H :=
  first
    [ apply wrap_err_Done_inv in H
    | apply try_Done_inv in H as [H ->]
    | apply ask_Done_inv in H as [-> ->]
    | apply emit_Done_inv in H as ->
    | apply capability_Done_inv in H as [H ->]
    | apply template_Done_inv in H as ->
    | apply mret_Done_inv in H as [-> ->] ].

Ltac inv_bind H :=
  let a := fresh "a" in
  let w := fresh "w" in
  let Hc := fresh "Hc" in
  apply bind_Done_inv in H as (a & w & Hc & H); cbv zeta in H;
  inv_prim Hc.

Lemma createLeaf_Done_inv X hook config signingCert signingKey
    leafTemplatePath leafCertPath leafLifetime w w' :
  createLeaf X hook config signingCert signingKey
    leafTemplatePath leafCertPath leafLifetime w = (Done tt, w') ->
  exists leafSV w1 leafPubKey leafSigner leafTmpl alg,
    hook (with_RootKeyID (LeafKeyID config) config) w = (Done leafSV, w1) /\
    PublicKey_of leafSV = inl leafPubKey /\
    CryptoSigner leafSV = Some (inl leafSigner) /\
    ToSignatureAlgorithm X signingKey = inl alg /\
    SignatureAlgorithm leafTmpl = alg /\
    trace w' = trace w1 ++ [EvToSignatureAlgorithm signingKey;
                            EvCreateCertificate leafTmpl signingCert
                              leafPubKey signingKey].
Proof.
  intros H. unfold createLeaf in H. cbv zeta in H.
  do 12 inv_bind H.
  apply wrap_err_Done_inv, WriteCertificateToFile_Done_inv in H as [_ Htrace].
  subst. eexists _, _, _, _, (set_SignatureAlgorithm _ _), _.
  split; [eassumption|]. split; [eassumption|]. split; [eassumption|].
  split; [eassumption|]. split; [reflexivity|].
  rewrite Htrace. simpl. by rewrite <- app_assoc.
Qed.

Lemma createRoot_Done_inv X sv config rootTemplatePath rootCertPath rootLifetime
    w rootCert rootSigner w' :
  createRoot X sv config rootTemplatePath rootCertPath rootLifetime w
  = (Done (rootCert, rootSigner), w') ->
  CryptoSigner sv = Some (inl rootSigner) /\ exists cert, rootCert = Some cert.
Proof.
  intros H. unfold createRoot in H. cbv zeta in H.
  do 11 inv_bind H.
  apply bind_Done_inv in H as ([] & w3 & Hwrite & H).
  apply mret_Done_inv in H as [[= <- <-] ->].
  apply wrap_err_Done_inv, WriteCertificateToFile_Done_inv in Hwrite as [Hcert _].
  subst. done.
Qed.

Lemma CreateCertificates_Done_inv X hook sv config
    rootTemplatePath leafTemplatePath rootCertPath leafCertPath
    intermediateKeyID intermediateTemplatePath intermediateCertPath
    rootLifetime intermediateLifetime leafLifetime w w' :
  CreateCertificates X hook sv config rootTemplatePath leafTemplatePath
    rootCertPath leafCertPath intermediateKeyID intermediateTemplatePath
    intermediateCertPath rootLifetime intermediateLifetime leafLifetime w
  = (Done tt, w') ->
  exists rootCert rootSigner w1 signingCert signingKey w2,
    createRoot X sv config rootTemplatePath rootCertPath rootLifetime w
    = (Done (rootCert, rootSigner), w1) /\
    createIntermediate X hook config rootCert rootSigner intermediateKeyID
      intermediateTemplatePath intermediateCertPath intermediateLifetime w1
    = (Done (signingCert, signingKey), w2) /\
    createLeaf X hook config signingCert signingKey
      leafTemplatePath leafCertPath leafLifetime w2 = (Done tt, w').
Proof.
  intros H. unfold CreateCertificates in H.
  apply bind_Done_inv in H as ([rootCert rootSigner] & w1 & Hroot & H).
  apply bind_Done_inv in H as ([signingCert signingKey] & w2 & Hint & H).
  by eexists _, _, _, _, _, _.
Qed.

Lemma template_Done_source X path stage wrap1 wrap2 w (t : string) w1 :
  (if decide (path = "") then try (GetDefaultTemplate X stage) wrap1
   else content ← ask (fun w => os_ReadFile X w path); try content wrap2) w
  = (Done t, w1) ->
  template_source X stage path w = inl t /\ w1 = w.
Proof.
  unfold template_source. case_decide.
  - by intros [-> ->]%try_Done_inv.
  - intros (c & w2 & [-> ->]%ask_Done_inv & [-> ->]%try_Done_inv)%bind_Done_inv.
    done.
Qed.

Lemma logged_two a b w :
  set_trace (fun t => t ++ [b]) (set_trace (fun t => t ++ [a]) w) = logged [a; b] w.
Proof. unfold logged, set_trace. simpl. by rewrite <- app_assoc. Qed.

(** The signing step shared by the three stages, from [ParseTemplate] to
    [x509util.CreateCertificate], inverted in a hypothesis. *)
Ltac inv_sign H parsed alg cert Hparse Halg Hcreate :=
  let w1 := fresh "w" in
  let created := fresh "created" in
  apply bind_Done_inv in H as (parsed & w1 & [Hparse ->]%try_Done_inv & H);
  apply bind_Done_inv in H as ([] & w1 & ->%emit_Done_inv & H);
  apply bind_Done_inv in H as (alg & w1 & [Halg ->]%try_Done_inv & H);
  cbv zeta in H;
  apply bind_Done_inv in H as ([] & w1 & ->%emit_Done_inv & H);
  apply bind_Done_inv in H as (created & w1 & [-> ->]%ask_Done_inv & H);
  apply bind_Done_inv in H as (cert & w1 & [Hcreate ->]%try_Done_inv & H);
  rewrite logged_two in Hcreate, H.

Lemma write_Done_inv X cert path wrap w w' :
  wrap_err (WriteCertificateToFile X cert path) wrap w = (Done tt, w') ->
  exists c, cert = Some c /\
            WriteCertificateToFile X (Some c) path w = (Done tt, w').
Proof.
  intros H%wrap_err_Done_inv.
  destruct (WriteCertificateToFile_Done_inv _ _ _ _ _ H) as [[c ->] _]. eauto.
Qed.

(** The intermediate stage of a successful run, call by call. *)
Lemma createIntermediate_Done_calls X hook config rootCert rootSigner
    intermediateKeyID intermediateTemplatePath intermediateCertPath
    intermediateLifetime w signingCert signingKey w' :
  intermediateKeyID <> "" ->
  createIntermediate X hook config rootCert rootSigner intermediateKeyID
    intermediateTemplatePath intermediateCertPath intermediateLifetime w
  = (Done (signingCert, signingKey), w') ->
  exists intermediateSV w1 intermediatePubKey source parsed alg cert,
    hook (with_RootKeyID intermediateKeyID config) w = (Done intermediateSV, w1) /\
    PublicKey_of intermediateSV = inl intermediatePubKey /\
    CryptoSigner intermediateSV = Some (inl signingKey) /\
    template_source X "intermediate" intermediateTemplatePath w1 = inl source /\
    ParseTemplate X source rootCert (time_Now_Add X w1 intermediateLifetime)
      intermediatePubKey (CommonName config) = inl parsed /\
    ToSignatureAlgorithm X signingKey = inl alg /\
    signingCert = Some cert /\
    let intermediateTmpl := set_SignatureAlgorithm alg parsed in
    let signing := logged [EvToSignatureAlgorithm signingKey;
                           EvCreateCertificate intermediateTmpl rootCert
                             intermediatePubKey rootSigner] w1 in
    x509util_CreateCertificate X signing intermediateTmpl rootCert
      intermediatePubKey rootSigner = inl (Some cert) /\
    WriteCertificateToFile X (Some cert) intermediateCertPath signing
    = (Done tt, w').
Proof.
  intros Hid H. unfold createIntermediate in H.
  rewrite decide_False in H by done. cbv zeta in H.
  apply bind_Done_inv in H as (isv & w1 & Hhook%wrap_err_Done_inv & H).
  apply bind_Done_inv in H as (pub & w2 & [Hpub ->]%try_Done_inv & H).
  apply bind_Done_inv in H as (c & w2 & [Hcap ->]%capability_Done_inv & H).
  apply bind_Done_inv in H as (signer & w2 & [-> ->]%try_Done_inv & H).
  apply bind_Done_inv in H as (source & w2 & [Hsrc ->]%template_Done_source & H).
  apply bind_Done_inv in H as (notAfter & w2 & [-> ->]%ask_Done_inv & H).
  inv_sign H parsed alg cert Hparse Halg Hcreate.
  apply bind_Done_inv in H as ([] & w2 & (c & -> & Hwrite)%write_Done_inv & H).
  apply mret_Done_inv in H as [[= -> ->] ->].
  by exists isv, w1, pub, source, parsed, alg, c.
Qed.

(** The leaf stage of a successful run, call by call. *)
Lemma createLeaf_Done_calls X hook config signingCert signingKey
    leafTemplatePath leafCertPath leafLifetime w w' :
  createLeaf X hook config signingCert signingKey
    leafTemplatePath leafCertPath leafLifetime w = (Done tt, w') ->
  exists leafSV w1 leafPubKey leafSigner source parsed alg leafCert,
    hook (with_RootKeyID (LeafKeyID config) config) w = (Done leafSV, w1) /\
    PublicKey_of leafSV = inl leafPubKey /\
    CryptoSigner leafSV = Some (inl leafSigner) /\
    template_source X "leaf" leafTemplatePath w1 = inl source /\
    ParseTemplate X source signingCert (time_Now_Add X w1 leafLifetime)
      leafPubKey (CommonName config) = inl parsed /\
    ToSignatureAlgorithm X signingKey = inl alg /\
    let leafTmpl := set_SignatureAlgorithm alg parsed in
    let signing := logged [EvToSignatureAlgorithm signingKey;
                           EvCreateCertificate leafTmpl signingCert
                             leafPubKey signingKey] w1 in
    x509util_CreateCertificate X signing leafTmpl signingCert
      leafPubKey signingKey = inl (Some leafCert) /\
    WriteCertificateToFile X (Some leafCert) leafCertPath signing = (Done tt, w').
Proof.
  intros H. unfold createLeaf in H. cbv zeta in H.
  apply bind_Done_inv in H as (lsv & w1 & Hhook%wrap_err_Done_inv & H).
  apply bind_Done_inv in H as (pub & w2 & [Hpub ->]%try_Done_inv & H).
  apply bind_Done_inv in H as (c & w2 & [Hcap ->]%capability_Done_inv & H).
  apply bind_Done_inv in H as (signer & w2 & [-> ->]%try_Done_inv & H).
  apply bind_Done_inv in H as (source & w2 & [Hsrc ->]%template_Done_source & H).
  apply bind_Done_inv in H as (notAfter & w2 & [-> ->]%ask_Done_inv & H).
  inv_sign H parsed alg cert Hparse Halg Hcreate.
  apply write_Done_inv in H as (c & -> & Hwrite).
  by exists lsv, w1, pub, signer, source, parsed, alg, c.
Qed.

Lemma WriteCertificateToFile_Done_trace X cert filename w w1 :
  WriteCertificateToFile X cert filename w = (Done tt, w1) -> trace w1 = trace w.
Proof. by intros [_ ?]%WriteCertificateToFile_Done_inv. Qed.

(** C1 (as stated) fails: in the sample chain the leaf certificate is
    signed by the intermediate signer, not by the root signer. *)
Lemma CreateCertificates_leaf_root_signer_counterexample :
  ~ (forall X hook sv config rootTemplatePath leafTemplatePath
       rootCertPath leafCertPath intermediateKeyID intermediateTemplatePath
       intermediateCertPath rootLifetime intermediateLifetime leafLifetime
       w w' rootSigner,
       intermediateKeyID <> "" ->
       CreateCertificates X hook sv config rootTemplatePath leafTemplatePath
         rootCertPath leafCertPath intermediateKeyID intermediateTemplatePath
         intermediateCertPath rootLifetime intermediateLifetime leafLifetime w
       = (Done tt, w') ->
       CryptoSigner sv = Some (inl rootSigner) ->
       exists pre leafTmpl intermediateCert leafPubKey,
         trace w' = pre ++ [EvToSignatureAlgorithm rootSigner;
                            EvCreateCertificate leafTmpl intermediateCert
                              leafPubKey rootSigner]).
Proof.
  intros H.
  pose (run := CreateCertificates sample_externals (InitKMS sample_externals)
                 (sample_sv "hashivault://transit/keys/root") sample_config
                 "" "" "root.pem" "leaf.pem" "transit/keys/int" "" "int.pem"
                 10 20 30 empty_world).
  destruct (H sample_externals (InitKMS sample_externals)
              (sample_sv "hashivault://transit/keys/root") sample_config
              "" "" "root.pem" "leaf.pem" "transit/keys/int" "" "int.pem"
              10 20 30 empty_world run.2
              (mkSigner "hashivault://transit/keys/root"))
    as (pre & leafTmpl & intermediateCert & leafPubKey & Htrace).
  - discriminate.
  - by vm_compute.
  - reflexivity.
  - apply (f_equal last) in Htrace.
    change (pre ++ [?a; ?b]) with (pre ++ [a] ++ [b]) in Htrace.
    rewrite app_assoc, last_snoc in Htrace.
    vm_compute in Htrace. discriminate Htrace.
Qed.

(** C1 (amended): with a non-empty [intermediateKeyID], in every
    successful run the intermediate certificate is the one
    [x509util.CreateCertificate] returns for the intermediate template, the
    root certificate as parent, the intermediate public key and the root
    signer, and it is written to [intermediateCertPath]; this certificate
    and the intermediate signer are the pair the intermediate block leaves
    as [signingCert] and [signingKey]; and the leaf certificate is the one
    [x509util.CreateCertificate] returns for the leaf template, issuer
    certificate = that intermediate certificate and signing key = the
    intermediate signer, the leaf template carrying the signature algorithm
    derived from the intermediate signer.  Every world is the one the run
    passes through: [w1] after the root stage, [w2] after [InitKMS] for the
    intermediate key, [w3] after the intermediate certificate is written,
    [w4] after [InitKMS] for the leaf key, [w'] at the end. *)
Theorem CreateCertificates_leaf_signed_by_intermediate X hook sv config
    rootTemplatePath leafTemplatePath rootCertPath leafCertPath
    intermediateKeyID intermediateTemplatePath intermediateCertPath
    rootLifetime intermediateLifetime leafLifetime w w' :
  intermediateKeyID <> "" ->
  CreateCertificates X hook sv config rootTemplatePath leafTemplatePath
    rootCertPath leafCertPath intermediateKeyID intermediateTemplatePath
    intermediateCertPath rootLifetime intermediateLifetime leafLifetime w
  = (Done tt, w') ->
  exists rootCert rootSigner w1
         intermediateSV w2 intermediatePubKey intermediateSigner
         intermediateSource intermediateParsed intermediateCert w3
         leafSV w4 leafPubKey leafSource leafParsed leafCert alg,
    (* the root stage *)
    createRoot X sv config rootTemplatePath rootCertPath rootLifetime w
    = (Done (Some rootCert, rootSigner), w1) /\
    CryptoSigner sv = Some (inl rootSigner) /\
    (* the intermediate key *)
    hook (with_RootKeyID intermediateKeyID config) w1 = (Done intermediateSV, w2) /\
    PublicKey_of intermediateSV = inl intermediatePubKey /\
    CryptoSigner intermediateSV = Some (inl intermediateSigner) /\
    ToSignatureAlgorithm X intermediateSigner = inl alg /\
    (* the intermediate certificate, signed by the root signer under the
       root certificate, and persisted *)
    template_source X "intermediate" intermediateTemplatePath w2
    = inl intermediateSource /\
    ParseTemplate X intermediateSource (Some rootCert)
      (time_Now_Add X w2 intermediateLifetime) intermediatePubKey
      (CommonName config) = inl intermediateParsed /\
    (let intermediateTmpl := set_SignatureAlgorithm alg intermediateParsed in
     let signing := logged [EvToSignatureAlgorithm intermediateSigner;
                            EvCreateCertificate intermediateTmpl (Some rootCert)
                              intermediatePubKey rootSigner] w2 in
     x509util_CreateCertificate X signing intermediateTmpl (Some rootCert)
       intermediatePubKey rootSigner = inl (Some intermediateCert) /\
     WriteCertificateToFile X (Some intermediateCert) intermediateCertPath signing
     = (Done tt, w3) /\
     trace w3 = trace w2 ++ [EvToSignatureAlgorithm intermediateSigner;
                             EvCreateCertificate intermediateTmpl (Some rootCert)
                               intermediatePubKey rootSigner]) /\
    (* the active pair *)
    createIntermediate X hook config (Some rootCert) rootSigner intermediateKeyID
      intermediateTemplatePath intermediateCertPath intermediateLifetime w1
    = (Done (Some intermediateCert, intermediateSigner), w3) /\
    (* the leaf certificate *)
    hook (with_RootKeyID (LeafKeyID config) config) w3 = (Done leafSV, w4) /\
    PublicKey_of leafSV = inl leafPubKey /\
    template_source X "leaf" leafTemplatePath w4 = inl leafSource /\
    ParseTemplate X leafSource (Some intermediateCert)
      (time_Now_Add X w4 leafLifetime) leafPubKey (CommonName config)
    = inl leafParsed /\
    (let leafTmpl := set_SignatureAlgorithm alg leafParsed in
     let signing := logged [EvToSignatureAlgorithm intermediateSigner;
                            EvCreateCertificate leafTmpl (Some intermediateCert)
                              leafPubKey intermediateSigner] w4 in
     SignatureAlgorithm leafTmpl = alg /\
     x509util_CreateCertificate X signing leafTmpl (Some intermediateCert)
       leafPubKey intermediateSigner = inl (Some leafCert) /\
     WriteCertificateToFile X (Some leafCert) leafCertPath signing = (Done tt, w') /\
     trace w' = trace w4 ++ [EvToSignatureAlgorithm intermediateSigner;
                             EvCreateCertificate leafTmpl (Some intermediateCert)
                               leafPubKey intermediateSigner]).
Proof.
  intros Hid Hrun.
  apply CreateCertificates_Done_inv in Hrun
    as (rootCert & rootSigner & w1 & signingCert & signingKey & w3
        & Hroot & Hint & Hleaf).
  destruct (createRoot_Done_inv _ _ _ _ _ _ _ _ _ _ Hroot) as [Hsigner [cert ->]].
  destruct (createIntermediate_Done_calls _ _ _ _ _ _ _ _ _ _ _ _ _ Hid Hint)
    as (intermediateSV & w2 & intermediatePubKey & intermediateSource
        & intermediateParsed & alg & intermediateCert
        & Hhook & Hpub & Hcap & Hsrc & Hparse & Halg & -> & Hcreate & Hwrite).
  destruct (createLeaf_Done_calls _ _ _ _ _ _ _ _ _ _ Hleaf)
    as (leafSV & w4 & leafPubKey & leafSigner & leafSource & leafParsed & alg'
        & leafCert & Hhook' & Hpub' & _ & Hsrc' & Hparse' & Halg'
        & Hcreate' & Hwrite').
  rewrite Halg in Halg'. injection Halg' as <-.
  exists cert, rootSigner, w1, intermediateSV, w2, intermediatePubKey, signingKey,
    intermediateSource, intermediateParsed, intermediateCert, w3,
    leafSV, w4, leafPubKey, leafSource, leafParsed, leafCert, alg.
  cbv zeta.
  rewrite (WriteCertificateToFile_Done_trace _ _ _ _ _ Hwrite),
    (WriteCertificateToFile_Done_trace _ _ _ _ _ Hwrite').
  by repeat split.
Qed.

Lemma CreateCertificates_leaf_signed_by_intermediate_witness :
  exists rootCert rootSigner w1
         intermediateSV w2 intermediatePubKey intermediateSigner
         intermediateSource intermediateParsed intermediateCert w3
         leafSV w4 leafPubKey leafSource leafParsed leafCert alg,
    createRoot sample_externals (sample_sv "hashivault://transit/keys/root")
      sample_config "" "root.pem" 10 empty_world
    = (Done (Some rootCert, rootSigner), w1) /\
    CryptoSigner (sample_sv "hashivault://transit/keys/root")
    = Some (inl rootSigner) /\
    InitKMS sample_externals (with_RootKeyID "transit/keys/int" sample_config) w1
    = (Done intermediateSV, w2) /\
    PublicKey_of intermediateSV = inl intermediatePubKey /\
    CryptoSigner intermediateSV = Some (inl intermediateSigner) /\
    ToSignatureAlgorithm sample_externals intermediateSigner = inl alg /\
    template_source sample_externals "intermediate" "" w2
    = inl intermediateSource /\
    ParseTemplate sample_externals intermediateSource (Some rootCert)
      (time_Now_Add sample_externals w2 20) intermediatePubKey
      (CommonName sample_config) = inl intermediateParsed /\
    (let intermediateTmpl := set_SignatureAlgorithm alg intermediateParsed in
     let signing := logged [EvToSignatureAlgorithm intermediateSigner;
                            EvCreateCertificate intermediateTmpl (Some rootCert)
                              intermediatePubKey rootSigner] w2 in
     x509util_CreateCertificate sample_externals signing intermediateTmpl
       (Some rootCert) intermediatePubKey rootSigner
     = inl (Some intermediateCert) /\
     WriteCertificateToFile sample_externals (Some intermediateCert) "int.pem"
       signing = (Done tt, w3) /\
     trace w3 = trace w2 ++ [EvToSignatureAlgorithm intermediateSigner;
                             EvCreateCertificate intermediateTmpl (Some rootCert)
                               intermediatePubKey rootSigner]) /\
    createIntermediate sample_externals (InitKMS sample_externals) sample_config
      (Some rootCert) rootSigner "transit/keys/int" "" "int.pem" 20 w1
    = (Done (Some intermediateCert, intermediateSigner), w3) /\
    InitKMS sample_externals
      (with_RootKeyID (LeafKeyID sample_config) sample_config) w3
    = (Done leafSV, w4) /\
    PublicKey_of leafSV = inl leafPubKey /\
    template_source sample_externals "leaf" "" w4 = inl leafSource /\
    ParseTemplate sample_externals leafSource (Some intermediateCert)
      (time_Now_Add sample_externals w4 30) leafPubKey (CommonName sample_config)
    = inl leafParsed /\
    (let leafTmpl := set_SignatureAlgorithm alg leafParsed in
     let signing := logged [EvToSignatureAlgorithm intermediateSigner;
                            EvCreateCertificate leafTmpl (Some intermediateCert)
                              leafPubKey intermediateSigner] w4 in
     SignatureAlgorithm leafTmpl = alg /\
     x509util_CreateCertificate sample_externals signing leafTmpl
       (Some intermediateCert) leafPubKey intermediateSigner
     = inl (Some leafCert) /\
     WriteCertificateToFile sample_externals (Some leafCert) "leaf.pem" signing
     = (Done tt, sample_chain_run.2) /\
     trace sample_chain_run.2
     = trace w4 ++ [EvToSignatureAlgorithm intermediateSigner;
                    EvCreateCertificate leafTmpl (Some intermediateCert)
                      leafPubKey intermediateSigner]).
Proof.
  apply (CreateCertificates_leaf_signed_by_intermediate sample_externals
           (InitKMS sample_externals)
           (sample_sv "hashivault://transit/keys/root") sample_config
           "" "" "root.pem" "leaf.pem" "transit/keys/int" "" "int.pem"
           10 20 30 empty_world sample_chain_run.2).
  - discriminate.
  - vm_compute. reflexivity.
Defined.

(** ** What the orchestrator does with the configuration *)

Lemma wrap_err_Done {A} (c : M A) wrap w a w1 :
  c w = (Done a, w1) -> wrap_err c wrap w = (Done a, w1).
Proof. unfold wrap_err. by intros ->. Qed.

Lemma wrap_err_Fail {A} (c : M A) wrap w e w1 :
  c w = (Fail e, w1) -> wrap_err c wrap w = (Fail (wrap e), w1).
Proof. unfold wrap_err. by intros ->. Qed.

Lemma wrap_err_ext {A} (c c' : M A) wrap w :
  c w = c' w -> wrap_err c wrap w = wrap_err c' wrap w.
Proof. unfold wrap_err. by intros ->. Qed.

Lemma bind_ext_l {A B} (c c' : M A) (k : A -> M B) w :
  c w = c' w -> (c ≫= k) w = (c' ≫= k) w.
Proof. unfold mbind, M_mbind, M_bind. by intros ->. Qed.

Lemma createIntermediate_hook_ext X hook hook' config rootCert rootSigner
    intermediateKeyID intermediateTemplatePath intermediateCertPath
    intermediateLifetime w :
  (intermediateKeyID <> "" ->
   forall w1, hook' (with_RootKeyID intermediateKeyID config) w1
              = hook (with_RootKeyID intermediateKeyID config) w1) ->
  createIntermediate X hook' config rootCert rootSigner intermediateKeyID
    intermediateTemplatePath intermediateCertPath intermediateLifetime w
  = createIntermediate X hook config rootCert rootSigner intermediateKeyID
      intermediateTemplatePath intermediateCertPath intermediateLifetime w.
Proof.
  intros Hhook. unfold createIntermediate. case_decide; [done|].
  cbv zeta. apply bind_ext_l, wrap_err_ext, Hhook. done.
Qed.

Lemma createLeaf_hook_ext X hook hook' config signingCert signingKey
    leafTemplatePath leafCertPath leafLifetime w :
  hook' (with_RootKeyID (LeafKeyID config) config) w
  = hook (with_RootKeyID (LeafKeyID config) config) w ->
  createLeaf X hook' config signingCert signingKey
    leafTemplatePath leafCertPath leafLifetime w
  = createLeaf X hook config signingCert signingKey
      leafTemplatePath leafCertPath leafLifetime w.
Proof.
  intros Hhook. unfold createLeaf.
  cbv zeta. by apply bind_ext_l, wrap_err_ext.
Qed.

Lemma bind_Panicked {A B} (c : M A) (k : A -> M B) w w1 :
  c w = (Panicked, w1) -> (c ≫= k) w = (Panicked, w1).
Proof. unfold mbind, M_mbind, M_bind. by intros ->. Qed.

Lemma wrap_err_Panicked {A} (c : M A) wrap w w1 :
  c w = (Panicked, w1) -> wrap_err c wrap w = (Panicked, w1).
Proof. unfold wrap_err. by intros ->. Qed.

(** The leaf block calls [InitKMS] once, on the copy of the configuration
    with [RootKeyID := config.LeafKeyID], in the world it starts in; what
    follows uses the answer and no other configuration. *)
Lemma createLeaf_InitKMS_call X hook config signingCert signingKey
    leafTemplatePath leafCertPath leafLifetime w :
  createLeaf X hook config signingCert signingKey
    leafTemplatePath leafCertPath leafLifetime w
  = match hook (with_RootKeyID (LeafKeyID config) config) w with
    | (Done leafSV, w1) =>
        createLeaf X (fun _ w => (Done leafSV, w)) config signingCert signingKey
          leafTemplatePath leafCertPath leafLifetime w1
    | (Fail e, w1) => (Fail (Errorf_w "error initializing leaf KMS: " e), w1)
    | (Panicked, w1) => (Panicked, w1)
    end.
Proof.
  unfold createLeaf. cbv zeta.
  destruct (hook _ w) as [[leafSV|e|] w1] eqn:Hhook.
  - by rewrite (bind_Done _ _ _ _ _ (wrap_err_Done _ _ _ _ _ Hhook)).
  - by rewrite (bind_Fail _ _ _ _ _ (wrap_err_Fail _ _ _ _ _ Hhook)).
  - by rewrite (bind_Panicked _ _ _ _ (wrap_err_Panicked _ _ _ _ Hhook)).
Qed.

(** The intermediate block, when it runs, calls [InitKMS] once, on the copy
    with [RootKeyID := intermediateKeyID], in the world it starts in. *)
Lemma createIntermediate_InitKMS_call X hook config rootCert rootSigner
    intermediateKeyID intermediateTemplatePath intermediateCertPath
    intermediateLifetime w :
  intermediateKeyID <> "" ->
  createIntermediate X hook config rootCert rootSigner intermediateKeyID
    intermediateTemplatePath intermediateCertPath intermediateLifetime w
  = match hook (with_RootKeyID intermediateKeyID config) w with
    | (Done intermediateSV, w1) =>
        createIntermediate X (fun _ w => (Done intermediateSV, w)) config
          rootCert rootSigner intermediateKeyID
          intermediateTemplatePath intermediateCertPath intermediateLifetime w1
    | (Fail e, w1) =>
        (Fail (Errorf_w "error initializing intermediate KMS: " e), w1)
    | (Panicked, w1) => (Panicked, w1)
    end.
Proof.
  intros Hid. unfold createIntermediate. rewrite !decide_False by done. cbv zeta.
  destruct (hook _ w) as [[intermediateSV|e|] w1] eqn:Hhook.
  - rewrite (bind_Done _ _ _ _ _ (wrap_err_Done _ _ _ _ _ Hhook)).
    rewrite (decide_False (P := intermediateKeyID = "")) by done. reflexivity.
  - by rewrite (bind_Fail _ _ _ _ _ (wrap_err_Fail _ _ _ _ _ Hhook)).
  - by rewrite (bind_Panicked _ _ _ _ (wrap_err_Panicked _ _ _ _ Hhook)).
Qed.

(** C8: the orchestrator does not look at [config.IntermediateKeyID].
    Changing that field is the same as changing it only in the copies
    handed to [InitKMS]; the intermediate block runs or not by the
    [intermediateKeyID] parameter alone; [InitKMS] is called on nothing but
    the copy with [RootKeyID := intermediateKeyID] (when that is non-empty)
    and the copy with [RootKeyID := config.LeafKeyID]; such a copy agrees
    with [config] on every other field; and both calls are made: once the
    root stage is done, the run is what [InitKMS] answers on the
    intermediate copy in the world the root stage left (when
    [intermediateKeyID] is non-empty), followed by what it answers on the
    leaf copy in the world the intermediate block left, each answer being
    an error returned wrapped or a handle the rest of the stage works
    with. *)
Theorem CreateCertificates_config_frame X hook sv config
    rootTemplatePath leafTemplatePath rootCertPath leafCertPath
    intermediateKeyID intermediateTemplatePath intermediateCertPath
    rootLifetime intermediateLifetime leafLifetime w :
  (forall k,
     CreateCertificates X hook sv (with_IntermediateKeyID k config)
       rootTemplatePath leafTemplatePath rootCertPath leafCertPath
       intermediateKeyID intermediateTemplatePath intermediateCertPath
       rootLifetime intermediateLifetime leafLifetime w
     = CreateCertificates X (fun c => hook (with_IntermediateKeyID k c)) sv config
         rootTemplatePath leafTemplatePath rootCertPath leafCertPath
         intermediateKeyID intermediateTemplatePath intermediateCertPath
         rootLifetime intermediateLifetime leafLifetime w) /\
  (forall rootCert rootSigner,
     (intermediateKeyID = "" ->
      createIntermediate X hook config rootCert rootSigner intermediateKeyID
        intermediateTemplatePath intermediateCertPath intermediateLifetime w
      = (Done (rootCert, rootSigner), w)) /\
     (intermediateKeyID <> "" ->
      forall e w1,
        hook (with_RootKeyID intermediateKeyID config) w = (Fail e, w1) ->
        createIntermediate X hook config rootCert rootSigner intermediateKeyID
          intermediateTemplatePath intermediateCertPath intermediateLifetime w
        = (Fail (Errorf_w "error initializing intermediate KMS: " e), w1))) /\
  (forall hook',
     (intermediateKeyID <> "" ->
      forall w1, hook' (with_RootKeyID intermediateKeyID config) w1
                 = hook (with_RootKeyID intermediateKeyID config) w1) ->
     (forall w1, hook' (with_RootKeyID (LeafKeyID config) config) w1
                 = hook (with_RootKeyID (LeafKeyID config) config) w1) ->
     CreateCertificates X hook' sv config
       rootTemplatePath leafTemplatePath rootCertPath leafCertPath
       intermediateKeyID intermediateTemplatePath intermediateCertPath
       rootLifetime intermediateLifetime leafLifetime w
     = CreateCertificates X hook sv config
         rootTemplatePath leafTemplatePath rootCertPath leafCertPath
         intermediateKeyID intermediateTemplatePath intermediateCertPath
         rootLifetime intermediateLifetime leafLifetime w) /\
  (forall k,
     RootKeyID (with_RootKeyID k config) = k /\
     CommonName (with_RootKeyID k config) = CommonName config /\
     Type' (with_RootKeyID k config) = Type' config /\
     IntermediateKeyID (with_RootKeyID k config) = IntermediateKeyID config /\
     LeafKeyID (with_RootKeyID k config) = LeafKeyID config /\
     Options (with_RootKeyID k config) = Options config) /\
  (forall rootCert rootSigner w1,
     createRoot X sv config rootTemplatePath rootCertPath rootLifetime w
     = (Done (rootCert, rootSigner), w1) ->
     let run :=
       CreateCertificates X hook sv config
         rootTemplatePath leafTemplatePath rootCertPath leafCertPath
         intermediateKeyID intermediateTemplatePath intermediateCertPath
         rootLifetime intermediateLifetime leafLifetime w in
     (* the leaf stage, entered in [w2] with the pair [signingCert],
        [signingKey] *)
     let leaf signingCert signingKey w2 :=
       match hook (with_RootKeyID (LeafKeyID config) config) w2 with
       | (Done leafSV, w3) =>
           createLeaf X (fun _ w => (Done leafSV, w)) config signingCert signingKey
             leafTemplatePath leafCertPath leafLifetime w3
       | (Fail e, w3) => (Fail (Errorf_w "error initializing leaf KMS: " e), w3)
       | (Panicked, w3) => (Panicked, w3)
       end in
     (intermediateKeyID = "" -> run = leaf rootCert rootSigner w1) /\
     (intermediateKeyID <> "" ->
      match hook (with_RootKeyID intermediateKeyID config) w1 with
      | (Done intermediateSV, w2) =>
          match createIntermediate X (fun _ w => (Done intermediateSV, w)) config
                  rootCert rootSigner intermediateKeyID intermediateTemplatePath
                  intermediateCertPath intermediateLifetime w2 with
          | (Done (signingCert, signingKey), w3) =>
              run = leaf signingCert signingKey w3
          | (Fail e, w3) => run = (Fail e, w3)
          | (Panicked, w3) => run = (Panicked, w3)
          end
      | (Fail e, w2) =>
          run = (Fail (Errorf_w "error initializing intermediate KMS: " e), w2)
      | (Panicked, w2) => run = (Panicked, w2)
      end)).
Proof.
  split; [done|]. split; [|split; [|split; [done|]]].
  - intros rootCert rootSigner. unfold createIntermediate. split.
    + intros ->. done.
    + intros Hid e w1 Hhook. rewrite decide_False by done. cbv zeta.
      by apply bind_Fail, wrap_err_Fail.
  - intros hook' Hint Hleaf. unfold CreateCertificates.
    apply bind_ext. intros root w1.
    rewrite (bind_ext_l _ _ _ _
               (createIntermediate_hook_ext X hook hook' config root.1 root.2
                  intermediateKeyID intermediateTemplatePath intermediateCertPath
                  intermediateLifetime w1 Hint)).
    apply bind_ext. intros signing w2. by apply createLeaf_hook_ext.
  - intros rootCert rootSigner w1 Hroot. cbv zeta.
    unfold CreateCertificates. rewrite (bind_Done _ _ _ _ _ Hroot). cbn [fst snd].
    split.
    + intros ->. unfold createIntermediate. rewrite decide_True by done.
      rewrite (bind_Done _ _ w1 (rootCert, rootSigner) w1 eq_refl). cbn [fst snd].
      apply createLeaf_InitKMS_call.
    + intros Hid.
      pose proof (createIntermediate_InitKMS_call X hook config rootCert rootSigner
                    intermediateKeyID intermediateTemplatePath
                    intermediateCertPath intermediateLifetime w1 Hid) as Hcall.
      destruct (hook (with_RootKeyID intermediateKeyID config) w1)
        as [[intermediateSV|e|] w2].
      * destruct (createIntermediate X (fun _ w => (Done intermediateSV, w)) config
                    rootCert rootSigner intermediateKeyID intermediateTemplatePath
                    intermediateCertPath intermediateLifetime w2)
          as [[[signingCert signingKey]|e|] w3].
        -- rewrite (bind_Done _ _ _ _ _ Hcall). cbn [fst snd].
           apply createLeaf_InitKMS_call.
        -- by rewrite (bind_Fail _ _ _ _ _ Hcall).
        -- by rewrite (bind_Panicked _ _ _ _ Hcall).
      * by rewrite (bind_Fail _ _ _ _ _ Hcall).
      * by rewrite (bind_Panicked _ _ _ _ Hcall).
Qed.

Lemma CreateCertificates_config_frame_witness :
  createIntermediate sample_externals (InitKMS sample_externals)
    (with_IntermediateKeyID "transit/keys/int" sample_config)
    (Some sample_root_cert) (mkSigner "hashivault://transit/keys/root")
    "" "" "int.pem" 20 sample_world_after_root
  = (Done (Some sample_root_cert, mkSigner "hashivault://transit/keys/root"),
     sample_world_after_root) /\
  CreateCertificates sample_externals (InitKMS sample_externals)
    (sample_sv "hashivault://transit/keys/root") bad_leaf_config
    "" "" "root.pem" "leaf.pem" "" "" "int.pem" 10 20 30 empty_world
  = match InitKMS sample_externals
            (with_RootKeyID (LeafKeyID bad_leaf_config) bad_leaf_config)
            sample_world_after_root with
    | (Done leafSV, w3) =>
        createLeaf sample_externals (fun _ w => (Done leafSV, w)) bad_leaf_config
          (Some sample_root_cert) (mkSigner "hashivault://transit/keys/root")
          "" "leaf.pem" 30 w3
    | (Fail e, w3) => (Fail (Errorf_w "error initializing leaf KMS: " e), w3)
    | (Panicked, w3) => (Panicked, w3)
    end.
Proof.
  split.
  - apply (proj1 (proj2 (CreateCertificates_config_frame sample_externals
                           (InitKMS sample_externals)
                           (sample_sv "hashivault://transit/keys/root")
                           (with_IntermediateKeyID "transit/keys/int" sample_config)
                           "" "" "root.pem" "leaf.pem" "" "" "int.pem" 10 20 30
                           sample_world_after_root))).
    reflexivity.
  - refine (proj1 (proj2 (proj2 (proj2 (proj2
              (CreateCertificates_config_frame sample_externals
                 (InitKMS sample_externals)
                 (sample_sv "hashivault://transit/keys/root") bad_leaf_config
                 "" "" "root.pem" "leaf.pem" "" "" "int.pem" 10 20 30
                 empty_world))))
              (Some sample_root_cert) (mkSigner "hashivault://transit/keys/root")
              sample_world_after_root _) _).
    + vm_compute. reflexivity.
    + reflexivity.
Defined.

(** The leaf block once [InitKMS] has returned a handle with a public key. *)
Lemma createLeaf_after_InitKMS X hook config signingCert signingKey
    leafTemplatePath leafCertPath leafLifetime w leafSV w1 leafPubKey :
  hook (with_RootKeyID (LeafKeyID config) config) w = (Done leafSV, w1) ->
  PublicKey_of leafSV = inl leafPubKey ->
  createLeaf X hook config signingCert signingKey
    leafTemplatePath leafCertPath leafLifetime w
  = match CryptoSigner leafSV with
    | None => (Fail (errorString "leaf signer does not implement CryptoSigner"), w1)
    | Some (inr err) => (Fail (Errorf_w "error getting leaf crypto signer: " err), w1)
    | Some (inl _) =>
        createLeaf X (fun _ w => (Done {| PublicKey_of := inl leafPubKey;
                                          CryptoSigner := Some (inl signingKey) |},
                                  w))
          config signingCert signingKey leafTemplatePath leafCertPath leafLifetime w1
    end.
Proof.
  intros Hhook Hpub. unfold createLeaf. cbv zeta.
  rewrite (bind_Done _ _ _ _ _ (wrap_err_Done _ _ _ _ _ Hhook)).
  rewrite Hpub. destruct (CryptoSigner leafSV) as [[leafSigner|err]|]; done.
Qed.

(** C9: once the leaf handle is obtained, the build stops with an error
    if the handle lacks the [CryptoSigner] capability or if its
    [CryptoSigner] call fails.  When the call succeeds its result is not
    used: any other handle with the same public key and a working
    [CryptoSigner] gives the same run, and in a successful run the leaf
    certificate is signed by the active signing key under the active
    signing certificate. *)
Theorem CreateCertificates_leaf_signer_required X hook sv config
    rootTemplatePath leafTemplatePath rootCertPath leafCertPath
    intermediateKeyID intermediateTemplatePath intermediateCertPath
    rootLifetime intermediateLifetime leafLifetime
    w rootCert rootSigner w1 signingCert signingKey w2 leafSV w3 leafPubKey :
  createRoot X sv config rootTemplatePath rootCertPath rootLifetime w
  = (Done (rootCert, rootSigner), w1) ->
  createIntermediate X hook config rootCert rootSigner intermediateKeyID
    intermediateTemplatePath intermediateCertPath intermediateLifetime w1
  = (Done (signingCert, signingKey), w2) ->
  hook (with_RootKeyID (LeafKeyID config) config) w2 = (Done leafSV, w3) ->
  PublicKey_of leafSV = inl leafPubKey ->
  let run hook :=
    CreateCertificates X hook sv config rootTemplatePath leafTemplatePath
      rootCertPath leafCertPath intermediateKeyID intermediateTemplatePath
      intermediateCertPath rootLifetime intermediateLifetime leafLifetime w in
  (CryptoSigner leafSV = None ->
   run hook
   = (Fail (errorString "leaf signer does not implement CryptoSigner"), w3)) /\
  (forall err,
     CryptoSigner leafSV = Some (inr err) ->
     run hook
     = (Fail (wrapError ("error getting leaf crypto signer: " +:+ Error err) err),
        w3)) /\
  (forall leafSigner,
     CryptoSigner leafSV = Some (inl leafSigner) ->
     (forall hook' leafSV' leafSigner',
        createIntermediate X hook' config rootCert rootSigner intermediateKeyID
          intermediateTemplatePath intermediateCertPath intermediateLifetime w1
        = (Done (signingCert, signingKey), w2) ->
        hook' (with_RootKeyID (LeafKeyID config) config) w2 = (Done leafSV', w3) ->
        PublicKey_of leafSV' = inl leafPubKey ->
        CryptoSigner leafSV' = Some (inl leafSigner') ->
        run hook' = run hook) /\
     (forall w',
        run hook = (Done tt, w') ->
        exists leafTmpl,
          trace w' = trace w3 ++ [EvToSignatureAlgorithm signingKey;
                                  EvCreateCertificate leafTmpl signingCert
                                    leafPubKey signingKey])).
Proof.
  intros Hroot Hint Hhook Hpub run.
  assert (Hrun : forall hook' leafSV',
             createIntermediate X hook' config rootCert rootSigner intermediateKeyID
               intermediateTemplatePath intermediateCertPath intermediateLifetime w1
             = (Done (signingCert, signingKey), w2) ->
             hook' (with_RootKeyID (LeafKeyID config) config) w2
             = (Done leafSV', w3) ->
             PublicKey_of leafSV' = inl leafPubKey ->
             run hook'
             = match CryptoSigner leafSV' with
               | None =>
                   (Fail (errorString "leaf signer does not implement CryptoSigner"),
                    w3)
               | Some (inr err) =>
                   (Fail (Errorf_w "error getting leaf crypto signer: " err), w3)
               | Some (inl _) =>
                   createLeaf X
                     (fun _ w => (Done {| PublicKey_of := inl leafPubKey;
                                          CryptoSigner := Some (inl signingKey) |},
                                  w))
                     config signingCert signingKey
                     leafTemplatePath leafCertPath leafLifetime w3
               end).
  { intros hook' leafSV' Hint' Hhook' Hpub'. unfold run, CreateCertificates.
    rewrite (bind_Done _ _ _ _ _ Hroot). simpl.
    rewrite (bind_Done _ _ _ _ _ Hint'). simpl.
    by apply createLeaf_after_InitKMS. }
  split; [|split].
  - intros Hcap. by rewrite (Hrun hook leafSV Hint Hhook Hpub), Hcap.
  - intros err Hcap. by rewrite (Hrun hook leafSV Hint Hhook Hpub), Hcap.
  - intros leafSigner Hcap. split.
    + intros hook' leafSV' leafSigner' Hint' Hhook' Hpub' Hcap'.
      by rewrite (Hrun hook leafSV Hint Hhook Hpub),
        (Hrun hook' leafSV' Hint' Hhook' Hpub'), Hcap, Hcap'.
    + intros w' Hdone. unfold run, CreateCertificates in Hdone.
      rewrite (bind_Done _ _ _ _ _ Hroot) in Hdone. simpl in Hdone.
      rewrite (bind_Done _ _ _ _ _ Hint) in Hdone. simpl in Hdone.
      apply createLeaf_Done_inv in Hdone
        as (leafSV0 & w4 & leafPubKey0 & leafSigner0 & leafTmpl & alg
            & Hhook0 & Hpub0 & _ & _ & _ & Htrace).
      rewrite Hhook in Hhook0. injection Hhook0 as <- <-.
      rewrite Hpub in Hpub0. injection Hpub0 as <-.
      by exists leafTmpl.
Qed.

Lemma CreateCertificates_leaf_signer_required_witness :
  CreateCertificates sample_externals sample_hook_no_signer
    (sample_sv "hashivault://transit/keys/root") sample_config
    "" "" "root.pem" "leaf.pem" "" "" "int.pem" 10 20 30 empty_world
  = (Fail (errorString "leaf signer does not implement CryptoSigner"),
     sample_world_after_root).
Proof.
  refine (proj1 (CreateCertificates_leaf_signer_required sample_externals
                   sample_hook_no_signer
                   (sample_sv "hashivault://transit/keys/root") sample_config
                   "" "" "root.pem" "leaf.pem" "" "" "int.pem" 10 20 30
                   empty_world (Some sample_root_cert)
                   (mkSigner "hashivault://transit/keys/root")
                   sample_world_after_root (Some sample_root_cert)
                   (mkSigner "hashivault://transit/keys/root")
                   sample_world_after_root
                   {| PublicKey_of := inl (mkPublicKey "transit/keys/leaf");
                      CryptoSigner := None |}
                   sample_world_after_root (mkPublicKey "transit/keys/leaf")
                   _ _ _ _) _).
  - vm_compute. reflexivity.
  - reflexivity.
  - reflexivity.
  - reflexivity.
  - reflexivity.
Defined.

(** * Further properties *)

(** ** ValidateKMSConfig: which verdict *)

Lemma and_then_Done_l (k : res unit) : and_then (Done tt) k = k.
Proof. reflexivity. Qed.

Lemma validate_by_grammar (validate : string -> string -> res unit)
    (G : string -> Prop) id kt :
  validate "" kt = Done tt ->
  (id <> "" -> validate id kt = Done tt <-> G id) ->
  (id <> "" -> G id) -> validate id kt = Done tt.
Proof.
  intros Hempty Hspec HG. destruct (decide (id = "")) as [->|Hne]; [done|].
  apply Hspec; auto.
Qed.

(** X1: when every identifier that is set follows the provider's grammar,
    the verdict depends only on which of the two required identifiers is
    missing: the root identifier is reported first, then the leaf
    identifier, and an empty intermediate identifier is never an error. *)
Theorem ValidateKMSConfig_required_keys config :
  known_type (Type' config) -> options_present config ->
  Forall (fun id => id <> "" -> key_grammar non_blank config id)
    [RootKeyID config; IntermediateKeyID config; LeafKeyID config] ->
  ValidateKMSConfig config
  = if decide (RootKeyID config = "")
    then Fail (errorString "RootKeyID must be specified")
    else if decide (LeafKeyID config = "")
         then Fail (errorString "LeafKeyID must be specified")
         else Done tt.
Proof.
  intros Hknown Hopt Hkeys. rewrite (ValidateKMSConfig_known config Hknown Hopt).
  apply Forall_cons in Hkeys as [Hroot Hkeys].
  apply Forall_cons in Hkeys as [Hint Hkeys].
  apply Forall_cons in Hkeys as [Hleaf _].
  unfold key_grammar in *.
  assert (Hpass : forall (validate : string -> string -> res unit)
                          (G : string -> Prop),
             (forall kt, validate "" kt = Done tt) ->
             (forall id kt, id <> "" -> validate id kt = Done tt <-> G id) ->
             (RootKeyID config <> "" -> G (RootKeyID config)) ->
             (IntermediateKeyID config <> "" -> G (IntermediateKeyID config)) ->
             (LeafKeyID config <> "" -> G (LeafKeyID config)) ->
             validateKeyIDs validate config = Done tt).
  { intros validate G Hempty Hspec H1 H2 H3. apply validateKeyIDs_Done.
    repeat split; eapply validate_by_grammar; eauto. }
  destruct (decide (Type' config = "awskms")).
  { rewrite (Hpass _ _ (validateAWSKeyID_empty config)
               (validateAWSKeyID_spec config) Hroot Hint Hleaf).
    apply and_then_Done_l. }
  destruct (decide (Type' config = "gcpkms")).
  { rewrite (Hpass _ _ validateGCPKeyID_empty validateGCPKeyID_spec
               Hroot Hint Hleaf).
    apply and_then_Done_l. }
  destruct (decide (Type' config = "azurekms")).
  { rewrite (Hpass _ _ validateAzureKeyID_empty validateAzureKeyID_spec
               Hroot Hint Hleaf).
    apply and_then_Done_l. }
  destruct (decide (Type' config = "hashivault")).
  { rewrite (Hpass _ _ validateHashiVaultKeyID_empty validateHashiVaultKeyID_spec
               Hroot Hint Hleaf).
    apply and_then_Done_l. }
  unfold known_type in Hknown. tauto.
Qed.

Lemma ValidateKMSConfig_required_keys_witness :
  ValidateKMSConfig (with_RootKeyID "" sample_config)
  = Fail (errorString "RootKeyID must be specified").
Proof.
  refine (ValidateKMSConfig_required_keys (with_RootKeyID "" sample_config) _ _ _).
  - right; right; by right.
  - split; [done|]. repeat constructor; by vm_compute.
  - repeat constructor; intros Hne; unfold key_grammar; simpl; [done|done|].
    exists ["transit"; "keys"; "leaf"], "leaf".
    split; [by apply Split_segments|]. repeat split; done.
Defined.

Lemma and_then_Fail_l e (k : res unit) : and_then (Fail e) k = Fail e.
Proof. reflexivity. Qed.

(** X2: an AWS root key given as an ARN with at least six segments whose
    region segment differs from the configured region is rejected with the
    region-mismatch error naming both regions, whatever the intermediate
    and leaf identifiers are (the root identifier is checked first). *)
Theorem ValidateKMSConfig_region_mismatch config rest segs region :
  Type' config = "awskms" -> options_present config ->
  RootKeyID config = "arn:aws:kms:" +:+ rest ->
  segments ":" (RootKeyID config) segs -> (6 <= length segs)%nat ->
  segs !! 3%nat = Some region ->
  region <> map_index (Options config) "aws-region" ->
  ValidateKMSConfig config
  = Fail (errorString
            ("region in ARN (" +:+ region
             +:+ ") does not match configured region ("
             +:+ map_index (Options config) "aws-region" +:+ ")")).
Proof.
  intros Ht Hopt Hroot Hsegs Hlen H3 Hregion.
  rewrite (ValidateKMSConfig_known config (or_introl Ht) Hopt).
  rewrite decide_True by done.
  apply Split_segments in Hsegs. change (String ":" "") with ":" in Hsegs.
  assert (Hfail : validateAWSKeyID config (RootKeyID config) "RootKeyID"
                  = Fail (errorString
                            ("region in ARN (" +:+ region
                             +:+ ") does not match configured region ("
                             +:+ map_index (Options config) "aws-region" +:+ ")"))).
  { unfold validateAWSKeyID.
    rewrite decide_False by (rewrite Hroot, !str_app_cons; done).
    rewrite Hroot at 1. rewrite HasPrefix_app, Hsegs.
    rewrite bool_decide_eq_false_2 by lia. rewrite H3. simpl.
    by rewrite decide_False. }
  unfold validateKeyIDs. by rewrite Hfail.
Qed.

Lemma ValidateKMSConfig_region_mismatch_witness :
  ValidateKMSConfig wrong_region_config
  = Fail (errorString
            "region in ARN (us-west-2) does not match configured region (us-east-1)").
Proof.
  refine (ValidateKMSConfig_region_mismatch wrong_region_config
            "us-west-2:123456789012:key/root"
            ["arn"; "aws"; "kms"; "us-west-2"; "123456789012"; "key/root"]
            "us-west-2" eq_refl _ eq_refl _ _ eq_refl _).
  - split; [done|]. repeat constructor; by vm_compute.
  - by apply Split_segments.
  - simpl. lia.
  - by vm_compute.
Defined.

Lemma validateAWSKeyID_region c1 c2 id kt :
  map_index (Options c1) "aws-region" = map_index (Options c2) "aws-region" ->
  validateAWSKeyID c1 id kt = validateAWSKeyID c2 id kt.
Proof. intros Hr. unfold validateAWSKeyID. by rewrite Hr. Qed.

(** X3: the verdict depends on the type, the three key identifiers,
    whether the options map is nil, and the values of the options the
    provider requires; the common name and every other option are
    irrelevant. *)
Theorem ValidateKMSConfig_frame c1 c2 :
  Type' c1 = Type' c2 ->
  RootKeyID c1 = RootKeyID c2 ->
  IntermediateKeyID c1 = IntermediateKeyID c2 ->
  LeafKeyID c1 = LeafKeyID c2 ->
  is_nil (Options c1) = is_nil (Options c2) ->
  Forall (fun k => map_index (Options c1) k = map_index (Options c2) k)
    (required_options (Type' c1)) ->
  ValidateKMSConfig c1 = ValidateKMSConfig c2.
Proof.
  intros Ht Hroot Hint Hleaf Hnil Hreq.
  assert (Hkeys : forall v1 v2 : string -> string -> res unit,
             (forall id kt, v1 id kt = v2 id kt) ->
             validateKeyIDs v1 c1 = validateKeyIDs v2 c2).
  { intros v1 v2 Hv. unfold validateKeyIDs.
    by rewrite Hroot, Hint, Hleaf, !Hv. }
  unfold ValidateKMSConfig, required_options in *.
  rewrite <- Ht, <- Hroot, <- Hleaf, <- Hnil.
  destruct (decide (Type' c1 = "")); [done|]. f_equal.
  destruct (decide (Type' c1 = "awskms")).
  { apply Forall_cons in Hreq as [Hregion _]. rewrite <- Hregion.
    destruct (_ || _); [done|].
    apply Hkeys. intros id kt. by apply validateAWSKeyID_region. }
  destruct (decide (Type' c1 = "gcpkms")).
  { apply Forall_cons in Hreq as [Hcreds _]. rewrite <- Hcreds.
    destruct (_ || _); [done|]. by apply Hkeys. }
  destruct (decide (Type' c1 = "azurekms")).
  { apply Forall_cons in Hreq as [Htenant _]. rewrite <- Htenant.
    destruct (is_nil _); [done|]. case_decide; [done|]. by apply Hkeys. }
  destruct (decide (Type' c1 = "hashivault")); [|by rewrite Ht].
  apply Forall_cons in Hreq as [Htoken Hreq].
  apply Forall_cons in Hreq as [Haddr _]. rewrite <- Htoken, <- Haddr.
  destruct (is_nil _); [done|]. repeat (case_decide; [done|]). by apply Hkeys.
Qed.

Lemma ValidateKMSConfig_frame_witness :
  ValidateKMSConfig
    {| CommonName := "another name";
       Type' := "azurekms";
       RootKeyID := RootKeyID padded_name_config;
       IntermediateKeyID := "";
       LeafKeyID := LeafKeyID padded_name_config;
       Options := Some (<["unused-option" := "x"]> azure_options) |}
  = ValidateKMSConfig padded_name_config.
Proof.
  apply ValidateKMSConfig_frame; try reflexivity.
  repeat constructor.
Defined.

(** ** InitKMS on a valid configuration *)

Lemma ValidateKMSConfig_Done_inv config :
  ValidateKMSConfig config = Done tt ->
  known_type (Type' config) /\ options_present config.
Proof.
  intros HV.
  destruct (decide (known_type (Type' config))) as [Hk|Hk].
  2:{ destruct (ValidateKMSConfig_unknown_type _ Hk) as (e & He & _). congruence. }
  destruct (decide (options_present config)) as [Ho|Ho]; [done|].
  destruct (ValidateKMSConfig_missing_option _ Hk Ho) as (e & He & _). congruence.
Qed.

Lemma os_Setenv_eta key value w :
  os_Setenv key value w = (Done tt, (os_Setenv key value w).2).
Proof. unfold os_Setenv. by destruct (_ || _). Qed.

Lemma os_Setenv_frame key value w :
  fs (os_Setenv key value w).2 = fs w /\
  stdout (os_Setenv key value w).2 = stdout w /\
  trace (os_Setenv key value w).2 = trace w.
Proof. unfold os_Setenv. by destruct (_ || _). Qed.

Lemma os_Setenv_fs key value w : fs (os_Setenv key value w).2 = fs w.
Proof. apply os_Setenv_frame. Qed.

Lemma os_Setenv_stdout key value w : stdout (os_Setenv key value w).2 = stdout w.
Proof. apply os_Setenv_frame. Qed.

Lemma os_Setenv_trace_eq key value w : trace (os_Setenv key value w).2 = trace w.
Proof. apply os_Setenv_frame. Qed.

Lemma kms_Get_call_run X ref (k : option SignerVerifier * option error -> M (option SignerVerifier)) w :
  (kms_Get_call X ref ≫= k) w = k (kms_Get X (at_call ref w) ref) (at_call ref w).
Proof. reflexivity. Qed.

Lemma InitKMS_finish label (r : option SignerVerifier * option error) w :
  (match r.2 with
   | Some err => fail (Errorf_w ("failed to initialize " +:+ label +:+ " KMS: ") err)
   | None => mret r.1
   end ≫= fun sv : option SignerVerifier =>
            match sv with
            | None => fail (errorString "KMS returned nil signer")
            | Some sv => mret sv
            end) w
  = (kms_result label r, w).
Proof. unfold kms_result. by destruct r as [[sv|] [err|]]. Qed.

Lemma os_Setenv_Done key value w : (os_Setenv key value w).1 = Done tt.
Proof. unfold os_Setenv. by destruct (_ || _). Qed.

Ltac setenv_step :=
  match goal with
  | |- context [os_Setenv ?k ?v ?w] =>
      lazymatch w with
      | context [os_Setenv] => fail
      | _ => idtac
      end;
      let H := fresh in
      let r := fresh in
      let w' := fresh "w" in
      pose proof (os_Setenv_Done k v w) as H;
      destruct (os_Setenv k v w) as [r w'];
      cbn [fst] in H; subst r; cbv beta iota; cbn [fst snd]
  end.

Ltac InitKMS_unfold :=
  unfold mbind, M_mbind, M_bind, kms_Get_call, emit, ask, lift, mret, M_mret,
    M_ret, fail, kms_result, at_call, mbind, M_mbind, M_bind;
  repeat setenv_step; cbn [fst snd];
  by match goal with
     | |- context [kms_Get ?X ?w ?ref] =>
         destruct (kms_Get X w ref) as [[?|] [?|]]
     end.

Lemma InitKMS_aws X config w :
  ValidateKMSConfig config = Done tt -> Type' config = "awskms" ->
  let ref := "awskms:///" +:+ RootKeyID config in
  let w1 := (os_Setenv "AWS_REGION" (map_index (Options config) "aws-region") w).2 in
  InitKMS X config w
  = (kms_result "AWS" (kms_Get X (at_call ref w1) ref), at_call ref w1).
Proof.
  intros HV Ht ref w1.
  destruct (ValidateKMSConfig_Done_inv config HV) as [_ [_ Hreq]].
  unfold required_options in Hreq. rewrite Ht in Hreq.
  apply Forall_cons in Hreq as [Hregion _].
  unfold InitKMS. rewrite HV, Ht. rewrite decide_True by done. cbv zeta.
  rewrite decide_False by done. subst ref w1.
  InitKMS_unfold.
Qed.

Lemma InitKMS_gcp X config w :
  ValidateKMSConfig config = Done tt -> Type' config = "gcpkms" ->
  let ref := "gcpkms://" +:+ RootKeyID config in
  let w1 := (os_Setenv "GCP_CREDENTIALS_FILE"
               (map_index (Options config) "gcp-credentials-file") w).2 in
  InitKMS X config w
  = (kms_result "GCP" (kms_Get X (at_call ref w1) ref), at_call ref w1).
Proof.
  intros HV Ht ref w1.
  destruct (ValidateKMSConfig_Done_inv config HV) as [_ [_ Hreq]].
  unfold required_options in Hreq. rewrite Ht in Hreq.
  apply Forall_cons in Hreq as [Hcreds _].
  unfold InitKMS. rewrite HV, Ht. decide_literals. cbv zeta.
  rewrite decide_False by done. subst ref w1. InitKMS_unfold.
Qed.

Lemma InitKMS_azure X config w keyURI :
  ValidateKMSConfig config = Done tt -> Type' config = "azurekms" ->
  azure_keyURI (RootKeyID config) = Done keyURI ->
  let w1 := (os_Setenv "AZURE_AUTHORITY_HOST" "https://login.microsoftonline.com/"
               (os_Setenv "AZURE_ADDITIONALLY_ALLOWED_TENANTS" "*"
                  (os_Setenv "AZURE_TENANT_ID"
                     (map_index (Options config) "azure-tenant-id") w).2).2).2 in
  InitKMS X config w
  = (kms_result "Azure" (kms_Get X (at_call keyURI w1) keyURI), at_call keyURI w1).
Proof.
  intros HV Ht Huri w1.
  destruct (ValidateKMSConfig_Done_inv config HV) as [_ [Hnil Hreq]].
  unfold required_options in Hreq. rewrite Ht in Hreq.
  apply Forall_cons in Hreq as [Htenant _].
  unfold InitKMS. rewrite HV, Ht. decide_literals. rewrite Huri.
  rewrite (is_nil_false _ Hnil), bool_decide_eq_false_2 by done.
  simpl negb. simpl andb. cbv iota zeta. subst w1.
  InitKMS_unfold.
Qed.

Lemma InitKMS_hashivault X config w :
  ValidateKMSConfig config = Done tt -> Type' config = "hashivault" ->
  let ref := "hashivault://" +:+ RootKeyID config in
  let w1 := (os_Setenv "VAULT_ADDR" (map_index (Options config) "vault-address")
               (os_Setenv "VAULT_TOKEN"
                  (map_index (Options config) "vault-token") w).2).2 in
  InitKMS X config w
  = (kms_result "HashiVault" (kms_Get X (at_call ref w1) ref), at_call ref w1).
Proof.
  intros HV Ht ref w1.
  destruct (ValidateKMSConfig_Done_inv config HV) as [_ [Hnil Hreq]].
  unfold required_options in Hreq. rewrite Ht in Hreq.
  apply Forall_cons in Hreq as [Htoken Hreq].
  apply Forall_cons in Hreq as [Haddr _].
  unfold InitKMS. rewrite HV, Ht. decide_literals.
  rewrite (is_nil_false _ Hnil). simpl negb. cbv iota zeta.
  rewrite !decide_False by done. subst ref w1. InitKMS_unfold.
Qed.

Lemma InitKMS_validation_failure X config w err :
  ValidateKMSConfig config = Fail err ->
  InitKMS X config w = (Fail (Errorf_w "invalid KMS configuration: " err), w).
Proof. intros HV. unfold InitKMS. by rewrite HV. Qed.

(** The run of [InitKMS] on a valid configuration, whatever the provider. *)
Lemma InitKMS_valid X config w :
  ValidateKMSConfig config = Done tt ->
  exists ref w1,
    InitKMS X config w
    = (kms_result (provider_label (Type' config)) (kms_Get X (at_call ref w1) ref),
       at_call ref w1) /\
    fs w1 = fs w /\ stdout w1 = stdout w /\ trace w1 = trace w /\
    (Type' config = "awskms" ->
     ref = "awskms:///" +:+ RootKeyID config /\
     w1 = (os_Setenv "AWS_REGION" (map_index (Options config) "aws-region") w).2) /\
    (Type' config = "gcpkms" ->
     ref = "gcpkms://" +:+ RootKeyID config /\
     w1 = (os_Setenv "GCP_CREDENTIALS_FILE"
             (map_index (Options config) "gcp-credentials-file") w).2) /\
    (Type' config = "azurekms" ->
     azure_keyURI (RootKeyID config) = Done ref /\
     w1 = (os_Setenv "AZURE_AUTHORITY_HOST" "https://login.microsoftonline.com/"
             (os_Setenv "AZURE_ADDITIONALLY_ALLOWED_TENANTS" "*"
                (os_Setenv "AZURE_TENANT_ID"
                   (map_index (Options config) "azure-tenant-id") w).2).2).2) /\
    (Type' config = "hashivault" ->
     ref = "hashivault://" +:+ RootKeyID config /\
     w1 = (os_Setenv "VAULT_ADDR" (map_index (Options config) "vault-address")
             (os_Setenv "VAULT_TOKEN"
                (map_index (Options config) "vault-token") w).2).2).
Proof.
  intros HV. destruct (ValidateKMSConfig_Done_inv config HV) as [Hknown _].
  destruct Hknown as [Ht|[Ht|[Ht|Ht]]].
  - eexists _, _. split; [rewrite (InitKMS_aws X config w HV Ht), Ht; reflexivity|].
    rewrite Ht.
    repeat split; try discriminate; try done;
      by rewrite ?os_Setenv_fs, ?os_Setenv_stdout, ?os_Setenv_trace_eq.
  - eexists _, _. split; [rewrite (InitKMS_gcp X config w HV Ht), Ht; reflexivity|].
    rewrite Ht.
    repeat split; try discriminate; try done;
      by rewrite ?os_Setenv_fs, ?os_Setenv_stdout, ?os_Setenv_trace_eq.
  - destruct (azure_keyURI_total (RootKeyID config)) as [keyURI Huri].
    eexists _, _.
    split; [rewrite (InitKMS_azure X config w keyURI HV Ht Huri), Ht; reflexivity|].
    rewrite Ht.
    repeat split; try discriminate; try done;
      by rewrite ?os_Setenv_fs, ?os_Setenv_stdout, ?os_Setenv_trace_eq.
  - eexists _, _.
    split; [rewrite (InitKMS_hashivault X config w HV Ht), Ht; reflexivity|].
    rewrite Ht.
    repeat split; try discriminate; try done;
      by rewrite ?os_Setenv_fs, ?os_Setenv_stdout, ?os_Setenv_trace_eq.
Qed.

(** X4: on a valid configuration [InitKMS] calls [kms.Get] exactly once, and
    the reference it passes is the provider's scheme followed by the active
    key identifier ([awskms:///], [gcpkms://], [hashivault://]; for Azure
    the rewritten vault URI). *)
Theorem InitKMS_reference X config w :
  ValidateKMSConfig config = Done tt ->
  exists ref,
    trace (InitKMS X config w).2 = trace w ++ [EvKmsGet ref] /\
    (Type' config = "awskms" -> ref = "awskms:///" +:+ RootKeyID config) /\
    (Type' config = "gcpkms" -> ref = "gcpkms://" +:+ RootKeyID config) /\
    (Type' config = "hashivault" -> ref = "hashivault://" +:+ RootKeyID config) /\
    (Type' config = "azurekms" -> azure_keyURI (RootKeyID config) = Done ref).
Proof.
  intros HV.
  destruct (InitKMS_valid X config w HV)
    as (ref & w1 & -> & _ & _ & Htrace & Haws & Hgcp & Hazure & Hhashi).
  exists ref. simpl. rewrite Htrace. split; [done|].
  repeat split; intros Ht; [apply Haws|apply Hgcp|apply Hhashi|apply Hazure]; done.
Qed.

Lemma InitKMS_reference_witness :
  exists ref,
    trace (InitKMS sample_externals sample_config empty_world).2
    = trace empty_world ++ [EvKmsGet ref] /\
    (Type' sample_config = "awskms" -> ref = "awskms:///" +:+ RootKeyID sample_config) /\
    (Type' sample_config = "gcpkms" -> ref = "gcpkms://" +:+ RootKeyID sample_config) /\
    (Type' sample_config = "hashivault" ->
     ref = "hashivault://" +:+ RootKeyID sample_config) /\
    (Type' sample_config = "azurekms" ->
     azure_keyURI (RootKeyID sample_config) = Done ref).
Proof.
  apply (InitKMS_reference sample_externals sample_config empty_world).
  by vm_compute.
Defined.

Lemma os_Setenv_sets key value w :
  bool_decide (key = "") || has_byte "="%char key || has_byte "000"%char key = false ->
  env_value value ->
  env (os_Setenv key value w).2 = <[key := value]> (env w).
Proof. intros Hkey Hvalue. unfold os_Setenv. by rewrite Hkey, Hvalue. Qed.

Lemma os_Setenv_env_at_call ref w : env (at_call ref w) = env w.
Proof. reflexivity. Qed.

(** X5: on a valid configuration [InitKMS] exports the provider's options
    to the process environment before it calls the provider: [kms.Get] is
    applied to the world [called], whose environment already holds
    [AWS_REGION]; [GCP_CREDENTIALS_FILE]; [AZURE_TENANT_ID],
    [AZURE_ADDITIONALLY_ALLOWED_TENANTS] (set to ["*"]) and
    [AZURE_AUTHORITY_HOST]; [VAULT_TOKEN] and [VAULT_ADDR].  Nothing else in
    the environment changes, and [called] is also the world [InitKMS]
    leaves, so the variables stay set whether or not the call succeeds.
    (A value holding a NUL byte is refused by [os.Setenv]; the values are
    assumed free of it.) *)
Theorem InitKMS_environment X config w :
  ValidateKMSConfig config = Done tt ->
  exists ref called,
    InitKMS X config w
    = (kms_result (provider_label (Type' config)) (kms_Get X called ref), called) /\
    trace called = trace w ++ [EvKmsGet ref] /\
    fs called = fs w /\ stdout called = stdout w /\
    let seen := env called in
    let after := env (InitKMS X config w).2 in
    after = seen /\
    (Type' config = "awskms" ->
     env_value (map_index (Options config) "aws-region") ->
     seen = <["AWS_REGION" := map_index (Options config) "aws-region"]> (env w)) /\
    (Type' config = "gcpkms" ->
     env_value (map_index (Options config) "gcp-credentials-file") ->
     seen = <["GCP_CREDENTIALS_FILE" :=
                map_index (Options config) "gcp-credentials-file"]> (env w)) /\
    (Type' config = "azurekms" ->
     env_value (map_index (Options config) "azure-tenant-id") ->
     seen = <["AZURE_AUTHORITY_HOST" := "https://login.microsoftonline.com/"]>
              (<["AZURE_ADDITIONALLY_ALLOWED_TENANTS" := "*"]>
                 (<["AZURE_TENANT_ID" :=
                      map_index (Options config) "azure-tenant-id"]> (env w)))) /\
    (Type' config = "hashivault" ->
     env_value (map_index (Options config) "vault-token") ->
     env_value (map_index (Options config) "vault-address") ->
     seen = <["VAULT_ADDR" := map_index (Options config) "vault-address"]>
              (<["VAULT_TOKEN" := map_index (Options config) "vault-token"]>
                 (env w))).
Proof.
  intros HV.
  destruct (InitKMS_valid X config w HV)
    as (ref & w1 & Hrun & Hfs & Hout & Htrace & Haws & Hgcp & Hazure & Hhashi).
  exists ref, (at_call ref w1). rewrite Hrun. cbv zeta. cbn [snd].
  split; [done|]. split; [by simpl; rewrite Htrace|].
  split; [done|]. split; [done|]. split; [done|].
  rewrite os_Setenv_env_at_call.
  split; [|split; [|split]].
  - intros Ht Hv. destruct (Haws Ht) as [_ ->]. by apply os_Setenv_sets.
  - intros Ht Hv. destruct (Hgcp Ht) as [_ ->]. by apply os_Setenv_sets.
  - intros Ht Hv. destruct (Hazure Ht) as [_ ->].
    rewrite !os_Setenv_sets; done.
  - intros Ht Hv1 Hv2. destruct (Hhashi Ht) as [_ ->].
    rewrite !os_Setenv_sets; done.
Qed.

Lemma InitKMS_environment_witness :
  exists ref called,
    InitKMS sample_externals sample_config empty_world
    = (kms_result "HashiVault" (kms_Get sample_externals called ref), called) /\
    trace called = trace empty_world ++ [EvKmsGet ref] /\
    env (InitKMS sample_externals sample_config empty_world).2 = env called /\
    env called
    = <["VAULT_ADDR" := map_index (Options sample_config) "vault-address"]>
        (<["VAULT_TOKEN" := map_index (Options sample_config) "vault-token"]>
           (env empty_world)).
Proof.
  destruct (InitKMS_environment sample_externals sample_config empty_world)
    as (ref & called & Hrun & Htrace & _ & _ & Hafter & _ & _ & _ & Hvault).
  - by vm_compute.
  - exists ref, called. split; [exact Hrun|]. split; [exact Htrace|].
    split; [exact Hafter|]. apply Hvault; reflexivity.
Defined.

Lemma kms_result_not_Panicked label r : kms_result label r <> Panicked.
Proof. unfold kms_result. by destruct r as [[sv|] [err|]]. Qed.

(** X6: whatever the configuration and whatever the provider answers,
    [InitKMS] neither panics (every slice and index of the validator and of
    the Azure rewrite is in range) nor touches the file system or standard
    output. *)
Theorem InitKMS_safe X config w :
  ValidateKMSConfig config <> Panicked /\
  (InitKMS X config w).1 <> Panicked /\
  fs (InitKMS X config w).2 = fs w /\
  stdout (InitKMS X config w).2 = stdout w.
Proof.
  split; [apply ValidateKMSConfig_total|].
  pose proof (ValidateKMSConfig_total config) as Htotal.
  destruct (ValidateKMSConfig config) as [[]|err|] eqn:HV; [| |done].
  - destruct (InitKMS_valid X config w HV) as (ref & w1 & -> & Hfs & Hout & _).
    simpl. split; [apply kms_result_not_Panicked|done].
  - by rewrite (InitKMS_validation_failure X config w err HV).
Qed.

(** X7: on a valid configuration the result of [InitKMS] is decided by the
    answer of [kms.Get] alone, and nothing happens after the call.  An
    error is returned wrapped with the provider's name, even when a signer
    comes with it; no error and no signer gives the nil-signer error; a
    signer without error is returned as it is. *)
Theorem InitKMS_result X config w :
  ValidateKMSConfig config = Done tt ->
  exists ref,
    let r := (InitKMS X config w).1 in
    let answer := kms_Get X (InitKMS X config w).2 ref in
    last (trace (InitKMS X config w).2) = Some (EvKmsGet ref) /\
    (forall err,
       answer.2 = Some err ->
       r = Fail (wrapError
                   ("failed to initialize " +:+ provider_label (Type' config)
                    +:+ " KMS: " +:+ Error err) err)) /\
    (answer = (None, None) -> r = Fail (errorString "KMS returned nil signer")) /\
    (forall sv, answer = (Some sv, None) -> r = Done sv).
Proof.
  intros HV.
  destruct (InitKMS_valid X config w HV) as (ref & w1 & -> & _).
  exists ref. simpl. split; [by rewrite last_snoc|]. unfold kms_result.
  split; [|split].
  - intros err ->. unfold Errorf_w. by rewrite !str_app_assoc.
  - by intros ->.
  - by intros sv ->.
Qed.

Lemma InitKMS_result_witness :
  exists ref,
    let r := (InitKMS sample_externals sample_config empty_world).1 in
    let answer :=
      kms_Get sample_externals
        (InitKMS sample_externals sample_config empty_world).2 ref in
    last (trace (InitKMS sample_externals sample_config empty_world).2)
    = Some (EvKmsGet ref) /\
    (forall err,
       answer.2 = Some err ->
       r = Fail (wrapError
                   ("failed to initialize " +:+ provider_label (Type' sample_config)
                    +:+ " KMS: " +:+ Error err) err)) /\
    (answer = (None, None) -> r = Fail (errorString "KMS returned nil signer")) /\
    (forall sv, answer = (Some sv, None) -> r = Done sv).
Proof.
  apply (InitKMS_result sample_externals sample_config empty_world).
  by vm_compute.
Defined.

Lemma validateKeyIDs_pass (validate : string -> string -> res unit)
    (G : string -> Prop) config :
  (forall kt, validate "" kt = Done tt) ->
  (forall id kt, id <> "" -> validate id kt = Done tt <-> G id) ->
  validateKeyIDs validate config = Done tt <->
  Forall (fun id => id <> "" -> G id)
    [RootKeyID config; IntermediateKeyID config; LeafKeyID config].
Proof.
  intros Hempty Hspec.
  assert (Hv : forall id kt, validate id kt = Done tt <-> (id <> "" -> G id)).
  { intros id kt. destruct (decide (id = "")) as [->|Hne].
    - rewrite Hempty. tauto.
    - rewrite (Hspec id kt Hne). tauto. }
  rewrite validateKeyIDs_Done, !Hv, !Forall_cons, Forall_nil. tauto.
Qed.

(** A valid configuration: the provider checks passed on all identifiers
    and root and leaf are set. *)
Lemma ValidateKMSConfig_Done_keys config :
  ValidateKMSConfig config = Done tt ->
  RootKeyID config <> "" /\ LeafKeyID config <> "" /\
  Forall (fun id => id <> "" -> key_grammar non_blank config id)
    [RootKeyID config; IntermediateKeyID config; LeafKeyID config].
Proof.
  intros HV. destruct (ValidateKMSConfig_Done_inv config HV) as [Hknown Hopt].
  rewrite (ValidateKMSConfig_known config Hknown Hopt) in HV.
  unfold key_grammar.
  destruct (decide (Type' config = "awskms")).
  { by apply (keys_checked _ _ config (validateAWSKeyID_empty config)
                (validateAWSKeyID_spec config)). }
  destruct (decide (Type' config = "gcpkms")).
  { by apply (keys_checked _ _ config validateGCPKeyID_empty validateGCPKeyID_spec). }
  destruct (decide (Type' config = "azurekms")).
  { by apply (keys_checked _ _ config validateAzureKeyID_empty
                validateAzureKeyID_spec). }
  destruct (decide (Type' config = "hashivault")).
  { by apply (keys_checked _ _ config validateHashiVaultKeyID_empty
                validateHashiVaultKeyID_spec). }
  unfold known_type in Hknown. tauto.
Qed.

(** X8: validation and the Azure rewrite fit together: for a valid Azure
    configuration the root identifier always has the short form, so the
    reference given to [kms.Get] is always the rewritten vault URI, and its
    vault and key names are not empty. *)
Theorem InitKMS_azure_valid_reference X config w :
  Type' config = "azurekms" -> ValidateKMSConfig config = Done tt ->
  exists n v,
    cut_at_first (RootKeyID config) ("azurekms:name=" +:+ n) ";vault=" v /\
    strings.TrimSpace n <> "" /\ strings.TrimSpace v <> "" /\
    trace (InitKMS X config w).2
    = trace w ++ [EvKmsGet ("azurekms://" +:+ strings.TrimSpace v
                            +:+ ".vault.azure.net/" +:+ strings.TrimSpace n)].
Proof.
  intros Ht HV.
  destruct (ValidateKMSConfig_Done_keys config HV) as (Hroot & _ & Hkeys).
  apply Forall_cons in Hkeys as [Hgrammar _]. specialize (Hgrammar Hroot).
  unfold key_grammar in Hgrammar. rewrite Ht in Hgrammar.
  repeat (rewrite decide_False in Hgrammar by done).
  rewrite decide_True in Hgrammar by done.
  destruct Hgrammar as (n & v & Hcut & Hn & Hv).
  exists n, v. split; [done|]. split; [done|]. split; [done|].
  destruct (InitKMS_valid X config w HV)
    as (ref & w1 & -> & _ & _ & Htrace & _ & _ & Hazure & _).
  destruct (Hazure Ht) as [Huri _].
  rewrite (azure_keyURI_cut _ n v Hcut) in Huri. injection Huri as <-.
  simpl. by rewrite Htrace.
Qed.

Lemma InitKMS_azure_valid_reference_witness :
  exists n v,
    cut_at_first (RootKeyID padded_name_config) ("azurekms:name=" +:+ n) ";vault=" v /\
    strings.TrimSpace n <> "" /\ strings.TrimSpace v <> "" /\
    trace (InitKMS sample_externals padded_name_config empty_world).2
    = trace empty_world
      ++ [EvKmsGet ("azurekms://" +:+ strings.TrimSpace v
                    +:+ ".vault.azure.net/" +:+ strings.TrimSpace n)].
Proof.
  apply (InitKMS_azure_valid_reference sample_externals padded_name_config
           empty_world).
  - reflexivity.
  - by vm_compute.
Defined.

(** ** WriteCertificateToFile: the other outcomes *)

(** X9: when [os.Create] fails, its error is returned as it is (not
    wrapped), nothing is printed and the world is unchanged. *)
Theorem WriteCertificateToFile_create_failure X cert filename w err :
  Raw cert <> "" -> os_Create X w filename = Some err ->
  WriteCertificateToFile X (Some cert) filename w = (Fail err, w).
Proof.
  intros Hraw Hcreate. unfold WriteCertificateToFile.
  rewrite decide_False by (by apply len_nonzero).
  unfold mbind, M_mbind, M_bind, ask. by rewrite Hcreate.
Qed.

(** X10: a successful write returns nil, leaves in the file exactly what
    [pem.Encode] wrote (whatever the file held before), appends one status
    line to standard output, and changes neither the environment nor any
    other file. *)
Theorem WriteCertificateToFile_success X cert filename w written :
  Raw cert <> "" -> os_Create X w filename = None ->
  pem_Encode X
    (set_stdout (fun out => out +:+ status_line (certType X cert) filename)
       (set_fs (insert filename "") w))
    filename (Raw cert) = (written, None) ->
  exists w',
    WriteCertificateToFile X (Some cert) filename w = (Done tt, w') /\
    fs w' = <[filename := written]> (fs w) /\
    stdout w' = stdout w +:+ status_line (certType X cert) filename /\
    env w' = env w /\ trace w' = trace w.
Proof.
  intros Hraw Hcreate Hencode.
  rewrite (WriteCertificateToFile_created X cert filename w Hraw Hcreate).
  cbv zeta. rewrite Hencode. eexists. split; [reflexivity|]. simpl.
  by rewrite insert_insert_eq.
Qed.

(** X11: whatever happens, [WriteCertificateToFile] changes no file other
    than the one named, and leaves the environment alone. *)
Theorem WriteCertificateToFile_frame X cert filename w :
  let w' := (WriteCertificateToFile X cert filename w).2 in
  env w' = env w /\ trace w' = trace w /\
  (forall path, path <> filename -> fs w' !! path = fs w !! path).
Proof.
  destruct cert as [cert|]; [|done]. cbv zeta.
  destruct (decide (Raw cert = "")) as [Hraw|Hraw].
  { unfold WriteCertificateToFile. by rewrite Hraw, decide_True. }
  destruct (os_Create X w filename) as [err|] eqn:Hcreate.
  { assert (Hfail : WriteCertificateToFile X (Some cert) filename w = (Fail err, w)).
    { unfold WriteCertificateToFile.
      rewrite decide_False by (by apply len_nonzero).
      unfold mbind, M_mbind, M_bind, ask. by rewrite Hcreate. }
    by rewrite Hfail. }
  rewrite (WriteCertificateToFile_created X cert filename w Hraw Hcreate).
  cbn [snd set_fs set_stdout env trace fs]. split; [done|]. split; [done|].
  intros path Hpath. by rewrite !lookup_insert_ne.
Qed.

Lemma WriteCertificateToFile_create_failure_witness :
  WriteCertificateToFile sample_externals_read_only (Some sample_cert)
    "leaf.pem" empty_world
  = (Fail (errorString "open leaf.pem: permission denied"), empty_world).
Proof.
  apply (WriteCertificateToFile_create_failure sample_externals_read_only
           sample_cert "leaf.pem" empty_world).
  - discriminate.
  - reflexivity.
Defined.

Lemma WriteCertificateToFile_success_witness :
  exists w',
    WriteCertificateToFile sample_externals (Some sample_cert) "leaf.pem"
      empty_world = (Done tt, w') /\
    fs w' = <["leaf.pem" := "PEM:DER:leaf:ca"]> (fs empty_world) /\
    stdout w' = stdout empty_world
                +:+ status_line (certType sample_externals sample_cert) "leaf.pem" /\
    env w' = env empty_world /\ trace w' = trace empty_world.
Proof.
  apply (WriteCertificateToFile_success sample_externals sample_cert "leaf.pem"
           empty_world "PEM:DER:leaf:ca").
  - discriminate.
  - reflexivity.
  - reflexivity.
Defined.

(** ** The stages of CreateCertificates, with the world they leave *)

Lemma WriteCertificateToFile_Done_world X cert filename w w' :
  WriteCertificateToFile X cert filename w = (Done tt, w') ->
  exists c written,
    cert = Some c /\ Raw c <> "" /\
    fs w' = <[filename := written]> (fs w) /\
    stdout w' = stdout w +:+ status_line (certType X c) filename /\
    env w' = env w /\ trace w' = trace w.
Proof.
  destruct cert as [c|]; [|done].
  destruct (decide (Raw c = "")) as [Hraw|Hraw].
  { unfold WriteCertificateToFile. by rewrite Hraw, decide_True. }
  destruct (os_Create X w filename) as [err|] eqn:Hcreate.
  { unfold WriteCertificateToFile. rewrite decide_False by (by apply len_nonzero).
    unfold mbind, M_mbind, M_bind, ask. by rewrite Hcreate. }
  rewrite (WriteCertificateToFile_created X c filename w Hraw Hcreate). cbv zeta.
  destruct (pem_Encode X _ filename (Raw c)) as [written [err|]]; [done|].
  intros [= <-]. exists c, written. simpl. by rewrite insert_insert_eq.
Qed.

Lemma createRoot_Done_world X sv config rootTemplatePath rootCertPath rootLifetime
    w rootCert rootSigner w1 :
  createRoot X sv config rootTemplatePath rootCertPath rootLifetime w
  = (Done (rootCert, rootSigner), w1) ->
  exists rootPubKey rootTmpl alg cert written,
    PublicKey_of sv = inl rootPubKey /\
    CryptoSigner sv = Some (inl rootSigner) /\
    ToSignatureAlgorithm X rootSigner = inl alg /\
    SignatureAlgorithm rootTmpl = alg /\
    rootCert = Some cert /\
    trace w1 = trace w ++ [EvToSignatureAlgorithm rootSigner;
                           EvCreateCertificate rootTmpl (Some rootTmpl)
                             rootPubKey rootSigner] /\
    env w1 = env w /\
    fs w1 = <[rootCertPath := written]> (fs w) /\
    stdout w1 = stdout w +:+ status_line (certType X cert) rootCertPath.
Proof.
  intros H. unfold createRoot in H. cbv zeta in H.
  do 11 inv_bind H.
  apply bind_Done_inv in H as ([] & w3 & Hwrite & H).
  apply mret_Done_inv in H as [[= <- <-] ->].
  apply wrap_err_Done_inv, WriteCertificateToFile_Done_world in Hwrite
    as (cert & written & -> & _ & Hfs & Hout & Henv & Htrace).
  subst. eexists _, (set_SignatureAlgorithm _ _), _, cert, written.
  split; [eassumption|]. split; [eassumption|]. split; [eassumption|].
  split; [reflexivity|]. split; [reflexivity|].
  rewrite Htrace, Henv, Hfs, Hout. simpl. by rewrite <- app_assoc.
Qed.

Lemma createIntermediate_Done_world X hook config rootCert rootSigner
    intermediateKeyID intermediateTemplatePath intermediateCertPath
    intermediateLifetime w signingCert signingKey w' :
  intermediateKeyID <> "" ->
  createIntermediate X hook config rootCert rootSigner intermediateKeyID
    intermediateTemplatePath intermediateCertPath intermediateLifetime w
  = (Done (signingCert, signingKey), w') ->
  exists intermediateSV w1 intermediatePubKey intermediateTmpl alg cert written,
    hook (with_RootKeyID intermediateKeyID config) w = (Done intermediateSV, w1) /\
    PublicKey_of intermediateSV = inl intermediatePubKey /\
    CryptoSigner intermediateSV = Some (inl signingKey) /\
    ToSignatureAlgorithm X signingKey = inl alg /\
    SignatureAlgorithm intermediateTmpl = alg /\
    signingCert = Some cert /\
    trace w' = trace w1 ++ [EvToSignatureAlgorithm signingKey;
                            EvCreateCertificate intermediateTmpl rootCert
                              intermediatePubKey rootSigner] /\
    env w' = env w1 /\
    fs w' = <[intermediateCertPath := written]> (fs w1) /\
    stdout w' = stdout w1 +:+ status_line (certType X cert) intermediateCertPath.
Proof.
  intros Hid H. unfold createIntermediate in H.
  rewrite decide_False in H by done. cbv zeta in H.
  do 12 inv_bind H.
  apply bind_Done_inv in H as ([] & w3 & Hwrite & H).
  apply mret_Done_inv in H as [[= <- <-] ->].
  apply wrap_err_Done_inv, WriteCertificateToFile_Done_world in Hwrite
    as (cert & written & -> & _ & Hfs & Hout & Henv & Htrace).
  subst. eexists _, _, _, (set_SignatureAlgorithm _ _), _, cert, written.
  split; [eassumption|]. split; [eassumption|]. split; [eassumption|].
  split; [eassumption|]. split; [reflexivity|]. split; [reflexivity|].
  rewrite Htrace, Henv, Hfs, Hout. cbn [trace env fs stdout set_trace].
  by rewrite <- app_assoc.
Qed.

Lemma createLeaf_Done_world X hook config signingCert signingKey
    leafTemplatePath leafCertPath leafLifetime w w' :
  createLeaf X hook config signingCert signingKey
    leafTemplatePath leafCertPath leafLifetime w = (Done tt, w') ->
  exists leafSV w1 leafPubKey leafTmpl alg cert written,
    hook (with_RootKeyID (LeafKeyID config) config) w = (Done leafSV, w1) /\
    PublicKey_of leafSV = inl leafPubKey /\
    ToSignatureAlgorithm X signingKey = inl alg /\
    SignatureAlgorithm leafTmpl = alg /\
    trace w' = trace w1 ++ [EvToSignatureAlgorithm signingKey;
                            EvCreateCertificate leafTmpl signingCert
                              leafPubKey signingKey] /\
    env w' = env w1 /\
    fs w' = <[leafCertPath := written]> (fs w1) /\
    stdout w' = stdout w1 +:+ status_line (certType X cert) leafCertPath.
Proof.
  intros H. unfold createLeaf in H. cbv zeta in H.
  do 12 inv_bind H.
  apply wrap_err_Done_inv, WriteCertificateToFile_Done_world in H
    as (cert & written & -> & _ & Hfs & Hout & Henv & Htrace).
  subst. eexists _, _, _, (set_SignatureAlgorithm _ _), _, cert, written.
  split; [eassumption|]. split; [eassumption|]. split; [eassumption|].
  split; [reflexivity|].
  rewrite Htrace, Henv, Hfs, Hout. cbn [trace env fs stdout set_trace].
  by rewrite <- app_assoc.
Qed.

(** ** CreateCertificates: who signs what *)


(** X13: with a non-empty [intermediateKeyID], every successful run makes
    the intermediate certificate as follows.  [InitKMS] is called on the
    copy with [RootKeyID := intermediateKeyID] in the world [w1] the root
    stage left, giving the handle and the world [w2]; the template (the
    file read in [w2], or the default for ["intermediate"]) is parsed with
    the root certificate as parent and the handle's public key; its
    signature algorithm is the one derived from the intermediate signer,
    not from the root signer that signs; [x509util.CreateCertificate] is
    called with that template, the root certificate as parent, the
    intermediate public key and the root signer; its result is written to
    [intermediateCertPath], which leaves the world [w3]; and the leaf stage
    runs from [w3] to the final world with that certificate and the
    intermediate signer as its signing pair. *)
Theorem CreateCertificates_intermediate_signed_by_root X hook sv config
    rootTemplatePath leafTemplatePath rootCertPath leafCertPath
    intermediateKeyID intermediateTemplatePath intermediateCertPath
    rootLifetime intermediateLifetime leafLifetime w w' :
  intermediateKeyID <> "" ->
  CreateCertificates X hook sv config rootTemplatePath leafTemplatePath
    rootCertPath leafCertPath intermediateKeyID intermediateTemplatePath
    intermediateCertPath rootLifetime intermediateLifetime leafLifetime w
  = (Done tt, w') ->
  exists rootCert rootSigner w1 intermediateSV w2 intermediatePubKey
         intermediateSigner source parsed alg intermediateCert w3,
    createRoot X sv config rootTemplatePath rootCertPath rootLifetime w
    = (Done (Some rootCert, rootSigner), w1) /\
    hook (with_RootKeyID intermediateKeyID config) w1 = (Done intermediateSV, w2) /\
    PublicKey_of intermediateSV = inl intermediatePubKey /\
    CryptoSigner intermediateSV = Some (inl intermediateSigner) /\
    template_source X "intermediate" intermediateTemplatePath w2 = inl source /\
    ParseTemplate X source (Some rootCert)
      (time_Now_Add X w2 intermediateLifetime) intermediatePubKey
      (CommonName config) = inl parsed /\
    ToSignatureAlgorithm X intermediateSigner = inl alg /\
    (let intermediateTmpl := set_SignatureAlgorithm alg parsed in
     let signing := logged [EvToSignatureAlgorithm intermediateSigner;
                            EvCreateCertificate intermediateTmpl (Some rootCert)
                              intermediatePubKey rootSigner] w2 in
     SignatureAlgorithm intermediateTmpl = alg /\
     x509util_CreateCertificate X signing intermediateTmpl (Some rootCert)
       intermediatePubKey rootSigner = inl (Some intermediateCert) /\
     WriteCertificateToFile X (Some intermediateCert) intermediateCertPath signing
     = (Done tt, w3) /\
     trace w3 = trace w2 ++ [EvToSignatureAlgorithm intermediateSigner;
                             EvCreateCertificate intermediateTmpl (Some rootCert)
                               intermediatePubKey rootSigner]) /\
    createLeaf X hook config (Some intermediateCert) intermediateSigner
      leafTemplatePath leafCertPath leafLifetime w3 = (Done tt, w').
Proof.
  intros Hid Hrun.
  apply CreateCertificates_Done_inv in Hrun
    as (rootCert & rootSigner & w1 & signingCert & signingKey & w3
        & Hroot & Hint & Hleaf).
  destruct (createRoot_Done_inv _ _ _ _ _ _ _ _ _ _ Hroot) as [_ [cert ->]].
  destruct (createIntermediate_Done_calls _ _ _ _ _ _ _ _ _ _ _ _ _ Hid Hint)
    as (intermediateSV & w2 & intermediatePubKey & source & parsed & alg
        & intermediateCert
        & Hhook & Hpub & Hcap & Hsrc & Hparse & Halg & -> & Hcreate & Hwrite).
  exists cert, rootSigner, w1, intermediateSV, w2, intermediatePubKey, signingKey,
    source, parsed, alg, intermediateCert, w3.
  cbv zeta. rewrite (WriteCertificateToFile_Done_trace _ _ _ _ _ Hwrite).
  by repeat split.
Qed.

(** X14: with an empty [intermediateKeyID] no intermediate certificate is
    made: in every successful run the leaf certificate is signed by the
    root signer under the root certificate, its template carries the
    algorithm derived from the root signer, and [InitKMS] is called in the
    world the root stage left. *)
Theorem CreateCertificates_leaf_signed_by_root X hook sv config
    rootTemplatePath leafTemplatePath rootCertPath leafCertPath
    intermediateTemplatePath intermediateCertPath
    rootLifetime intermediateLifetime leafLifetime w w' :
  CreateCertificates X hook sv config rootTemplatePath leafTemplatePath
    rootCertPath leafCertPath "" intermediateTemplatePath
    intermediateCertPath rootLifetime intermediateLifetime leafLifetime w
  = (Done tt, w') ->
  exists rootCert rootSigner leafSV leafPubKey leafTmpl alg w1 w2,
    createRoot X sv config rootTemplatePath rootCertPath rootLifetime w
    = (Done (Some rootCert, rootSigner), w1) /\
    CryptoSigner sv = Some (inl rootSigner) /\
    hook (with_RootKeyID (LeafKeyID config) config) w1 = (Done leafSV, w2) /\
    PublicKey_of leafSV = inl leafPubKey /\
    ToSignatureAlgorithm X rootSigner = inl alg /\
    SignatureAlgorithm leafTmpl = alg /\
    trace w' = trace w2 ++ [EvToSignatureAlgorithm rootSigner;
                            EvCreateCertificate leafTmpl (Some rootCert)
                              leafPubKey rootSigner].
Proof.
  intros Hrun.
  apply CreateCertificates_Done_inv in Hrun
    as (rootCert & rootSigner & w1 & signingCert & signingKey & w2
        & Hroot & Hint & Hleaf).
  destruct (createRoot_Done_world _ _ _ _ _ _ _ _ _ _ Hroot)
    as (_ & _ & _ & cert & _ & _ & Hcap & _ & _ & -> & _).
  unfold createIntermediate in Hint. rewrite decide_True in Hint by done.
  apply mret_Done_inv in Hint as [[= -> ->] ->].
  destruct (createLeaf_Done_world _ _ _ _ _ _ _ _ _ _ Hleaf)
    as (leafSV & w3 & leafPubKey & leafTmpl & alg & lcert & written
        & Hhook & Hpub & Halg & Htmpl & Htrace & _).
  by exists cert, rootSigner, leafSV, leafPubKey, leafTmpl, alg, w1, w3.
Qed.


Lemma CreateCertificates_intermediate_signed_by_root_witness :
  exists rootCert rootSigner w1 intermediateSV w2 intermediatePubKey
         intermediateSigner source parsed alg intermediateCert w3,
    createRoot sample_externals (sample_sv "hashivault://transit/keys/root")
      sample_config "" "root.pem" 10 empty_world
    = (Done (Some rootCert, rootSigner), w1) /\
    InitKMS sample_externals (with_RootKeyID "transit/keys/int" sample_config) w1
    = (Done intermediateSV, w2) /\
    PublicKey_of intermediateSV = inl intermediatePubKey /\
    CryptoSigner intermediateSV = Some (inl intermediateSigner) /\
    template_source sample_externals "intermediate" "" w2 = inl source /\
    ParseTemplate sample_externals source (Some rootCert)
      (time_Now_Add sample_externals w2 20) intermediatePubKey
      (CommonName sample_config) = inl parsed /\
    ToSignatureAlgorithm sample_externals intermediateSigner = inl alg /\
    (let intermediateTmpl := set_SignatureAlgorithm alg parsed in
     let signing := logged [EvToSignatureAlgorithm intermediateSigner;
                            EvCreateCertificate intermediateTmpl (Some rootCert)
                              intermediatePubKey rootSigner] w2 in
     SignatureAlgorithm intermediateTmpl = alg /\
     x509util_CreateCertificate sample_externals signing intermediateTmpl
       (Some rootCert) intermediatePubKey rootSigner
     = inl (Some intermediateCert) /\
     WriteCertificateToFile sample_externals (Some intermediateCert) "int.pem"
       signing = (Done tt, w3) /\
     trace w3 = trace w2 ++ [EvToSignatureAlgorithm intermediateSigner;
                             EvCreateCertificate intermediateTmpl (Some rootCert)
                               intermediatePubKey rootSigner]) /\
    createLeaf sample_externals (InitKMS sample_externals) sample_config
      (Some intermediateCert) intermediateSigner "" "leaf.pem" 30 w3
    = (Done tt, sample_chain_run.2).
Proof.
  apply (CreateCertificates_intermediate_signed_by_root sample_externals
           (InitKMS sample_externals)
           (sample_sv "hashivault://transit/keys/root") sample_config
           "" "" "root.pem" "leaf.pem" "transit/keys/int" "" "int.pem"
           10 20 30 empty_world sample_chain_run.2).
  - discriminate.
  - vm_compute. reflexivity.
Defined.

Lemma CreateCertificates_leaf_signed_by_root_witness :
  exists rootCert rootSigner leafSV leafPubKey leafTmpl alg w1 w2,
    createRoot sample_externals (sample_sv "hashivault://transit/keys/root")
      sample_config "" "root.pem" 10 empty_world
    = (Done (Some rootCert, rootSigner), w1) /\
    CryptoSigner (sample_sv "hashivault://transit/keys/root")
    = Some (inl rootSigner) /\
    InitKMS sample_externals
      (with_RootKeyID (LeafKeyID sample_config) sample_config) w1
    = (Done leafSV, w2) /\
    PublicKey_of leafSV = inl leafPubKey /\
    ToSignatureAlgorithm sample_externals rootSigner = inl alg /\
    SignatureAlgorithm leafTmpl = alg /\
    trace sample_direct_run.2
    = trace w2 ++ [EvToSignatureAlgorithm rootSigner;
                   EvCreateCertificate leafTmpl (Some rootCert)
                     leafPubKey rootSigner].
Proof.
  apply (CreateCertificates_leaf_signed_by_root sample_externals
           (InitKMS sample_externals)
           (sample_sv "hashivault://transit/keys/root") sample_config
           "" "" "root.pem" "leaf.pem" "" "int.pem"
           10 20 30 empty_world sample_direct_run.2).
  vm_compute. reflexivity.
Defined.

(** ** CreateCertificates: failures of the root stage *)

Ltac run_root :=
  unfold CreateCertificates, createRoot;
  unfold mbind, M_mbind, M_bind, try, fail, ask, mret, M_mret, M_ret.

(** X15: the build stops before anything is read, signed or written when
    the supplied root signer cannot give its public key, does not implement
    [CryptoSigner], or fails to give its signing capability; the public key
    is asked first, so its error is the one reported when both are
    missing.  The world is left as it was. *)
Theorem CreateCertificates_root_signer_failure X hook sv config
    rootTemplatePath leafTemplatePath rootCertPath leafCertPath
    intermediateKeyID intermediateTemplatePath intermediateCertPath
    rootLifetime intermediateLifetime leafLifetime w :
  let run :=
    CreateCertificates X hook sv config rootTemplatePath leafTemplatePath
      rootCertPath leafCertPath intermediateKeyID intermediateTemplatePath
      intermediateCertPath rootLifetime intermediateLifetime leafLifetime w in
  (forall err,
     PublicKey_of sv = inr err ->
     run = (Fail (wrapError ("error getting root public key: " +:+ Error err) err),
            w)) /\
  (forall pub,
     PublicKey_of sv = inl pub -> CryptoSigner sv = None ->
     run = (Fail (errorString "signer does not implement CryptoSigner"), w)) /\
  (forall pub err,
     PublicKey_of sv = inl pub -> CryptoSigner sv = Some (inr err) ->
     run = (Fail (wrapError ("error getting root crypto signer: " +:+ Error err)
                    err), w)).
Proof.
  cbv zeta. split; [|split].
  - intros err Hpub. run_root. by rewrite Hpub.
  - intros pub Hpub Hcap. run_root. by rewrite Hpub, Hcap.
  - intros pub err Hpub Hcap. run_root. by rewrite Hpub, Hcap.
Qed.

Lemma CreateCertificates_root_signer_failure_witness :
  CreateCertificates sample_externals (InitKMS sample_externals)
    sample_sv_no_public_key sample_config
    "" "" "root.pem" "leaf.pem" "" "" "int.pem" 10 20 30 empty_world
  = (Fail (wrapError
             ("error getting root public key: "
              +:+ Error (errorString "kms: access denied"))
             (errorString "kms: access denied")), empty_world).
Proof.
  apply (proj1 (CreateCertificates_root_signer_failure sample_externals
                  (InitKMS sample_externals) sample_sv_no_public_key
                  sample_config "" "" "root.pem" "leaf.pem" "" "" "int.pem"
                  10 20 30 empty_world)).
  reflexivity.
Defined.

(** X16: the root template is the content of the file when a path is given
    and the built-in default for ["root"] otherwise.  A file that cannot be
    read stops the build with an error naming the path (the default is not
    used instead), and the template is parsed without a parent, with expiry
    now + [rootLifetime], the root public key and [config.CommonName]. *)
Theorem CreateCertificates_root_template X hook sv config
    rootTemplatePath leafTemplatePath rootCertPath leafCertPath
    intermediateKeyID intermediateTemplatePath intermediateCertPath
    rootLifetime intermediateLifetime leafLifetime w pub signer :
  PublicKey_of sv = inl pub -> CryptoSigner sv = Some (inl signer) ->
  let run :=
    CreateCertificates X hook sv config rootTemplatePath leafTemplatePath
      rootCertPath leafCertPath intermediateKeyID intermediateTemplatePath
      intermediateCertPath rootLifetime intermediateLifetime leafLifetime w in
  let parse source :=
    ParseTemplate X source None (time_Now_Add X w rootLifetime) pub
      (CommonName config) in
  (rootTemplatePath <> "" ->
   (forall err,
      os_ReadFile X w rootTemplatePath = inr err ->
      run = (Fail (wrapError
                     ("root template error: template not found at "
                      +:+ rootTemplatePath +:+ ": " +:+ Error err) err), w)) /\
   (forall content err,
      os_ReadFile X w rootTemplatePath = inl content ->
      parse content = inr err ->
      run = (Fail (wrapError ("error parsing root template: " +:+ Error err) err),
             w))) /\
  (rootTemplatePath = "" ->
   (forall err,
      GetDefaultTemplate X "root" = inr err ->
      run = (Fail (wrapError
                     ("error getting default root template: " +:+ Error err) err),
             w)) /\
   (forall source err,
      GetDefaultTemplate X "root" = inl source ->
      parse source = inr err ->
      run = (Fail (wrapError ("error parsing root template: " +:+ Error err) err),
             w))).
Proof.
  intros Hpub Hcap. cbv zeta. split.
  - intros Hpath. split.
    + intros err Hread. run_root. rewrite Hpub, Hcap, decide_False by done.
      rewrite Hread. unfold Errorf_w. by rewrite !str_app_assoc.
    + intros content err Hread Hparse. run_root.
      rewrite Hpub, Hcap, decide_False by done. by rewrite Hread, Hparse.
  - intros ->. split.
    + intros err Hdefault. run_root. rewrite Hpub, Hcap, decide_True by done.
      by rewrite Hdefault.
    + intros source err Hdefault Hparse. run_root.
      rewrite Hpub, Hcap, decide_True by done. by rewrite Hdefault, Hparse.
Qed.

Lemma CreateCertificates_root_template_witness :
  CreateCertificates sample_externals (InitKMS sample_externals)
    (sample_sv "hashivault://transit/keys/root") sample_config
    "missing.json" "" "root.pem" "leaf.pem" "" "" "int.pem" 10 20 30 empty_world
  = (Fail (wrapError
             ("root template error: template not found at " +:+ "missing.json"
              +:+ ": "
              +:+ Error (errorString "open missing.json: no such file or directory"))
             (errorString "open missing.json: no such file or directory")),
     empty_world).
Proof.
  refine (proj1 (proj1 (CreateCertificates_root_template sample_externals
                          (InitKMS sample_externals)
                          (sample_sv "hashivault://transit/keys/root")
                          sample_config
                          "missing.json" "" "root.pem" "leaf.pem" "" ""
                          "int.pem" 10 20 30 empty_world
                          (mkPublicKey "hashivault://transit/keys/root")
                          (mkSigner "hashivault://transit/keys/root")
                          eq_refl eq_refl) _) _ _).
  - discriminate.
  - reflexivity.
Defined.

(** ** CreateCertificates with the default [InitKMS] *)

Lemma InitKMS_frame X config w :
  fs (InitKMS X config w).2 = fs w /\ stdout (InitKMS X config w).2 = stdout w.
Proof.
  pose proof (ValidateKMSConfig_total config) as Htotal.
  destruct (ValidateKMSConfig config) as [[]|err|] eqn:HV; [| |done].
  - by destruct (InitKMS_valid X config w HV) as (ref & w1 & -> & Hfs & Hout & _).
  - by rewrite (InitKMS_validation_failure X config w err HV).
Qed.

Lemma InitKMS_Done_frame X config w sv w1 :
  InitKMS X config w = (Done sv, w1) -> fs w1 = fs w /\ stdout w1 = stdout w.
Proof.
  intros H. pose proof (InitKMS_frame X config w) as Hframe.
  by rewrite H in Hframe.
Qed.

Lemma createLeaf_invalid_config X config signingCert signingKey
    leafTemplatePath leafCertPath leafLifetime w err :
  ValidateKMSConfig (with_RootKeyID (LeafKeyID config) config) = Fail err ->
  createLeaf X (InitKMS X) config signingCert signingKey
    leafTemplatePath leafCertPath leafLifetime w
  = (Fail (Errorf_w "error initializing leaf KMS: "
             (Errorf_w "invalid KMS configuration: " err)), w).
Proof.
  intros HV. unfold createLeaf. cbv zeta.
  apply bind_Fail, wrap_err_Fail. by apply InitKMS_validation_failure.
Qed.

(** X17: nothing is rolled back, and the configuration of the later stages
    is only checked when they are reached.  Without an intermediate key, if
    the leaf configuration is invalid the build fails at the leaf stage
    with the validation error wrapped twice, in the very world the root
    stage left: the root certificate file is on disk. *)
Theorem CreateCertificates_no_rollback X sv config
    rootTemplatePath leafTemplatePath rootCertPath leafCertPath
    intermediateTemplatePath intermediateCertPath
    rootLifetime intermediateLifetime leafLifetime w rootCert rootSigner w1 err :
  createRoot X sv config rootTemplatePath rootCertPath rootLifetime w
  = (Done (rootCert, rootSigner), w1) ->
  ValidateKMSConfig (with_RootKeyID (LeafKeyID config) config) = Fail err ->
  CreateCertificates X (InitKMS X) sv config rootTemplatePath leafTemplatePath
    rootCertPath leafCertPath "" intermediateTemplatePath
    intermediateCertPath rootLifetime intermediateLifetime leafLifetime w
  = (Fail (wrapError
             ("error initializing leaf KMS: invalid KMS configuration: "
              +:+ Error err)
             (wrapError ("invalid KMS configuration: " +:+ Error err) err)),
     w1) /\
  is_Some (fs w1 !! rootCertPath).
Proof.
  intros Hroot HV. split.
  - unfold CreateCertificates.
    rewrite (bind_Done _ _ _ _ _ Hroot). cbn [fst snd].
    unfold createIntermediate. rewrite decide_True by done.
    unfold mbind at 1, M_mbind, M_bind at 1. unfold mret, M_mret, M_ret.
    cbn [fst snd].
    rewrite (createLeaf_invalid_config X config _ _ _ _ _ w1 err HV).
    unfold Errorf_w. cbn [Error]. by rewrite <- str_app_assoc.
  - destruct (createRoot_Done_world _ _ _ _ _ _ _ _ _ _ Hroot)
      as (_ & _ & _ & _ & written & _ & _ & _ & _ & _ & _ & _ & Hfs & _).
    rewrite Hfs, lookup_insert_eq. eauto.
Qed.

Lemma CreateCertificates_no_rollback_witness :
  CreateCertificates sample_externals (InitKMS sample_externals)
    (sample_sv "hashivault://transit/keys/root") bad_leaf_config
    "" "" "root.pem" "leaf.pem" "" "" "int.pem" 10 20 30 empty_world
  = (Fail (wrapError
             ("error initializing leaf KMS: invalid KMS configuration: "
              +:+ Error (errorString
                           "hashivault RootKeyID must start with 'transit/keys/'"))
             (wrapError
                ("invalid KMS configuration: "
                 +:+ Error (errorString
                              "hashivault RootKeyID must start with 'transit/keys/'"))
                (errorString
                   "hashivault RootKeyID must start with 'transit/keys/'"))),
     sample_world_after_root) /\
  is_Some (fs sample_world_after_root !! "root.pem").
Proof.
  apply (CreateCertificates_no_rollback sample_externals
           (sample_sv "hashivault://transit/keys/root") bad_leaf_config
           "" "" "root.pem" "leaf.pem" "" "int.pem" 10 20 30 empty_world
           (Some sample_root_cert) (mkSigner "hashivault://transit/keys/root")).
  - vm_compute. reflexivity.
  - vm_compute. reflexivity.
Defined.

(** X18: with the default [InitKMS], an empty [LeafKeyID] is reported at
    the leaf stage as a missing root identifier: the leaf copy of the
    configuration has its [RootKeyID] set to the (empty) leaf identifier,
    and validation of the copy says [RootKeyID must be specified].  The
    leaf stage fails before any provider call. *)
Theorem createLeaf_empty_LeafKeyID X config signingCert signingKey
    leafTemplatePath leafCertPath leafLifetime w :
  known_type (Type' config) -> options_present config ->
  LeafKeyID config = "" ->
  (IntermediateKeyID config <> "" ->
   key_grammar non_blank config (IntermediateKeyID config)) ->
  exists e,
    createLeaf X (InitKMS X) config signingCert signingKey
      leafTemplatePath leafCertPath leafLifetime w = (Fail e, w) /\
    Error e
    = "error initializing leaf KMS: invalid KMS configuration: RootKeyID must be specified".
Proof.
  intros Hknown Hopt Hleaf Hint.
  assert (HV : ValidateKMSConfig (with_RootKeyID (LeafKeyID config) config)
               = Fail (errorString "RootKeyID must be specified")).
  { rewrite (ValidateKMSConfig_known (with_RootKeyID (LeafKeyID config) config)
               Hknown Hopt).
    cbn [Type' RootKeyID LeafKeyID with_RootKeyID]. rewrite !Hleaf.
    assert (Hpass : forall (validate : string -> string -> res unit)
                           (G : string -> Prop),
               (forall kt, validate "" kt = Done tt) ->
               (forall id kt, id <> "" -> validate id kt = Done tt <-> G id) ->
               (IntermediateKeyID config <> "" -> G (IntermediateKeyID config)) ->
               validateKeyIDs validate (with_RootKeyID "" config) = Done tt).
    { intros validate G Hempty Hspec HG.
      apply (validateKeyIDs_pass validate G _ Hempty Hspec).
      cbn [RootKeyID IntermediateKeyID LeafKeyID with_RootKeyID]. rewrite Hleaf.
      by repeat constructor. }
    unfold key_grammar in Hint.
    destruct (decide (Type' config = "awskms")).
    { by rewrite (Hpass _ _ (validateAWSKeyID_empty _)
                    (validateAWSKeyID_spec (with_RootKeyID "" config)) Hint). }
    destruct (decide (Type' config = "gcpkms")).
    { by rewrite (Hpass _ _ validateGCPKeyID_empty validateGCPKeyID_spec Hint). }
    destruct (decide (Type' config = "azurekms")).
    { by rewrite (Hpass _ _ validateAzureKeyID_empty validateAzureKeyID_spec Hint). }
    by rewrite (Hpass _ _ validateHashiVaultKeyID_empty
                  validateHashiVaultKeyID_spec
                  ltac:(destruct (decide (Type' config = "hashivault"));
                        [exact Hint|unfold known_type in Hknown; tauto])). }
  eexists. split; [by apply createLeaf_invalid_config|reflexivity].
Qed.

Lemma createLeaf_empty_LeafKeyID_witness :
  exists e,
    createLeaf sample_externals (InitKMS sample_externals) no_leaf_config
      (Some sample_root_cert) (mkSigner "hashivault://transit/keys/root")
      "" "leaf.pem" 30 sample_world_after_root
    = (Fail e, sample_world_after_root) /\
    Error e
    = "error initializing leaf KMS: invalid KMS configuration: RootKeyID must be specified".
Proof.
  apply (createLeaf_empty_LeafKeyID sample_externals no_leaf_config).
  - right; right; by right.
  - split; [done|]. repeat constructor; by vm_compute.
  - reflexivity.
  - intros H. by destruct H.
Defined.

(** X19: with the default [InitKMS] the [IntermediateKeyID] field of the
    configuration is validated at the leaf stage although no stage uses it
    as a key: when it is set and malformed, a build without intermediate
    key writes the root certificate and then fails at the leaf stage with
    an invalid-configuration error. *)
Theorem CreateCertificates_malformed_intermediate_field X sv config
    rootTemplatePath leafTemplatePath rootCertPath leafCertPath
    intermediateTemplatePath intermediateCertPath
    rootLifetime intermediateLifetime leafLifetime w rootCert rootSigner w1 :
  createRoot X sv config rootTemplatePath rootCertPath rootLifetime w
  = (Done (rootCert, rootSigner), w1) ->
  IntermediateKeyID config <> "" ->
  ~ key_grammar non_blank config (IntermediateKeyID config) ->
  exists err,
    ValidateKMSConfig (with_RootKeyID (LeafKeyID config) config) = Fail err /\
    CreateCertificates X (InitKMS X) sv config rootTemplatePath leafTemplatePath
      rootCertPath leafCertPath "" intermediateTemplatePath
      intermediateCertPath rootLifetime intermediateLifetime leafLifetime w
    = (Fail (Errorf_w "error initializing leaf KMS: "
               (Errorf_w "invalid KMS configuration: " err)), w1).
Proof.
  intros Hroot Hset Hbad.
  pose proof (ValidateKMSConfig_total (with_RootKeyID (LeafKeyID config) config))
    as Htotal.
  destruct (ValidateKMSConfig (with_RootKeyID (LeafKeyID config) config))
    as [[]|err|] eqn:HV; [|clear Htotal|done].
  { destruct (ValidateKMSConfig_Done_keys _ HV) as (_ & _ & Hkeys).
    apply Forall_cons in Hkeys as [_ Hkeys].
    apply Forall_cons in Hkeys as [Hint _].
    destruct Hbad. by apply Hint. }
  exists err. split; [done|].
  unfold CreateCertificates.
  rewrite (bind_Done _ _ _ _ _ Hroot). cbn [fst snd].
  unfold createIntermediate. rewrite decide_True by done.
  unfold mbind at 1, M_mbind, M_bind at 1. unfold mret, M_mret, M_ret.
  cbn [fst snd].
  by apply createLeaf_invalid_config.
Qed.

Lemma CreateCertificates_malformed_intermediate_field_witness :
  exists err,
    ValidateKMSConfig
      (with_RootKeyID (LeafKeyID bad_intermediate_field_config)
         bad_intermediate_field_config) = Fail err /\
    CreateCertificates sample_externals (InitKMS sample_externals)
      (sample_sv "hashivault://transit/keys/root") bad_intermediate_field_config
      "" "" "root.pem" "leaf.pem" "" "" "int.pem" 10 20 30 empty_world
    = (Fail (Errorf_w "error initializing leaf KMS: "
               (Errorf_w "invalid KMS configuration: " err)),
       sample_world_after_root).
Proof.
  apply (CreateCertificates_malformed_intermediate_field sample_externals
           (sample_sv "hashivault://transit/keys/root")
           bad_intermediate_field_config
           "" "" "root.pem" "leaf.pem" "" "int.pem" 10 20 30 empty_world
           (Some sample_root_cert) (mkSigner "hashivault://transit/keys/root")).
  - vm_compute. reflexivity.
  - discriminate.
  - unfold key_grammar. simpl.
    intros (segs & name & Hsegs & _ & H0 & _).
    apply Split_segments in Hsegs. vm_compute in Hsegs. subst segs.
    discriminate H0.
Defined.

(** X20: what a successful build with the default [InitKMS] leaves behind.
    No file other than the certificate files named is changed; the root and
    leaf files exist; and standard output gains exactly one status line per
    certificate, in the order root, (intermediate,) leaf. *)
Theorem CreateCertificates_outputs X sv config
    rootTemplatePath leafTemplatePath rootCertPath leafCertPath
    intermediateKeyID intermediateTemplatePath intermediateCertPath
    rootLifetime intermediateLifetime leafLifetime w w' :
  CreateCertificates X (InitKMS X) sv config rootTemplatePath leafTemplatePath
    rootCertPath leafCertPath intermediateKeyID intermediateTemplatePath
    intermediateCertPath rootLifetime intermediateLifetime leafLifetime w
  = (Done tt, w') ->
  (forall path,
     path <> rootCertPath -> path <> leafCertPath ->
     intermediateKeyID = "" \/ path <> intermediateCertPath ->
     fs w' !! path = fs w !! path) /\
  is_Some (fs w' !! rootCertPath) /\
  is_Some (fs w' !! leafCertPath) /\
  (intermediateKeyID = "" ->
   exists rootCert leafCert,
     stdout w' = stdout w +:+ status_line (certType X rootCert) rootCertPath
                 +:+ status_line (certType X leafCert) leafCertPath) /\
  (intermediateKeyID <> "" ->
   is_Some (fs w' !! intermediateCertPath) /\
   exists rootCert intermediateCert leafCert,
     stdout w' = stdout w +:+ status_line (certType X rootCert) rootCertPath
                 +:+ status_line (certType X intermediateCert) intermediateCertPath
                 +:+ status_line (certType X leafCert) leafCertPath).
Proof.
  intros Hrun.
  apply CreateCertificates_Done_inv in Hrun
    as (rootCert & rootSigner & w1 & signingCert & signingKey & w2
        & Hroot & Hint & Hleaf).
  destruct (createRoot_Done_world _ _ _ _ _ _ _ _ _ _ Hroot)
    as (_ & _ & _ & rcert & rwritten & _ & _ & _ & _ & _ & _ & _ & Hfs1 & Hout1).
  destruct (createLeaf_Done_world _ _ _ _ _ _ _ _ _ _ Hleaf)
    as (leafSV & w3 & _ & _ & _ & lcert & lwritten
        & Hhook3 & _ & _ & _ & _ & _ & Hfs' & Hout').
  destruct (InitKMS_Done_frame _ _ _ _ _ Hhook3) as [Hfs3 Hout3].
  rewrite Hfs3 in Hfs'. rewrite Hout3 in Hout'.
  destruct (decide (intermediateKeyID = "")) as [Hid|Hid].
  - unfold createIntermediate in Hint. rewrite decide_True in Hint by done.
    apply mret_Done_inv in Hint as [_ ->].
    rewrite Hfs', Hfs1, Hout', Hout1.
    split; [|split; [|split; [|split]]].
    + intros path Hr Hl _. by rewrite !lookup_insert_ne.
    + destruct (decide (leafCertPath = rootCertPath)) as [->|Hne].
      * rewrite lookup_insert_eq. eauto.
      * rewrite lookup_insert_ne, lookup_insert_eq by done. eauto.
    + rewrite lookup_insert_eq. eauto.
    + intros _. exists rcert, lcert. by rewrite str_app_assoc.
    + done.
  - destruct (createIntermediate_Done_world _ _ _ _ _ _ _ _ _ _ _ _ _ Hid Hint)
      as (intermediateSV & w4 & _ & _ & _ & icert & iwritten
          & Hhook4 & _ & _ & _ & _ & _ & _ & _ & Hfs2 & Hout2).
    destruct (InitKMS_Done_frame _ _ _ _ _ Hhook4) as [Hfs4 Hout4].
    rewrite Hfs4 in Hfs2. rewrite Hout4 in Hout2.
    rewrite Hfs', Hfs2, Hfs1, Hout', Hout2, Hout1.
    assert (Hsome : forall (m : gmap string string) k k' v,
               is_Some (m !! k) -> is_Some (<[k' := v]> m !! k)).
    { intros m k k' v Hk. destruct (decide (k' = k)) as [->|Hne].
      - rewrite lookup_insert_eq. eauto.
      - by rewrite lookup_insert_ne. }
    split; [|split; [|split; [|split]]].
    + intros path Hr Hl [Hi|Hi]; [done|]. by rewrite !lookup_insert_ne.
    + do 2 apply Hsome. rewrite lookup_insert_eq. eauto.
    + rewrite lookup_insert_eq. eauto.
    + done.
    + intros _. split.
      * apply Hsome. rewrite lookup_insert_eq. eauto.
      * exists rcert, icert, lcert. by rewrite !str_app_assoc.
Qed.

Lemma CreateCertificates_outputs_witness :
  (forall path,
     path <> "root.pem" -> path <> "leaf.pem" ->
     "transit/keys/int" = "" \/ path <> "int.pem" ->
     fs sample_chain_run.2 !! path = fs empty_world !! path) /\
  is_Some (fs sample_chain_run.2 !! "root.pem") /\
  is_Some (fs sample_chain_run.2 !! "leaf.pem") /\
  ("transit/keys/int" = "" ->
   exists rootCert leafCert,
     stdout sample_chain_run.2
     = stdout empty_world
       +:+ status_line (certType sample_externals rootCert) "root.pem"
       +:+ status_line (certType sample_externals leafCert) "leaf.pem") /\
  ("transit/keys/int" <> "" ->
   is_Some (fs sample_chain_run.2 !! "int.pem") /\
   exists rootCert intermediateCert leafCert,
     stdout sample_chain_run.2
     = stdout empty_world
       +:+ status_line (certType sample_externals rootCert) "root.pem"
       +:+ status_line (certType sample_externals intermediateCert) "int.pem"
       +:+ status_line (certType sample_externals leafCert) "leaf.pem").
Proof.
  apply (CreateCertificates_outputs sample_externals
           (sample_sv "hashivault://transit/keys/root") sample_config
           "" "" "root.pem" "leaf.pem" "transit/keys/int" "" "int.pem"
           10 20 30 empty_world sample_chain_run.2).
  vm_compute. reflexivity.
Defined.
